(** * twick: the canvas hook [useTwickCanvas] of the live player

    A shallow embedding of the canvas/timeline synchronisation hook
    ([buildCanvas], [onVideoSizeChange], [handleMouseUp],
    [setCanvasElements], [addElementToCanvas]) and the properties of its
    specification.

    Conventions of the embedding:
    - JavaScript numbers are rationals ([Q]); a number that may be absent
      ([undefined]) or not a number is an [option Q].  An arithmetic operator
      stands for the operation of doubles and its rounding is not written
      out, except where the code prints a result in decimals ([toFixed]):
      there the outcome depends on the last bit, and the product and the
      number read back are rounded as doubles are ([Float64]).  Infinities
      are outside the model;
    - the refs of the hook ([useRef]) and its canvas form one record that is
      threaded through every operation;
    - an operation runs in a small monad that carries the refs, the log of
      outward calls and a possible exception, since JavaScript keeps the
      mutations made before a [throw];
    - helpers that the hook imports from [helpers/canvas.util] and
      [components/elements] are fields of the class [CanvasUtil];
    - the callbacks of a [Promise.all] are tasks that are started in the
      order of the list and resumed, one step at a time, in the order in
      which the helpers they wait for settle. *)

From Stdlib Require Import QArith Qround Qabs Lia Lqa.
From stdpp Require Import gmap strings list pretty.

Local Open Scope string_scope.
Local Open Scope list_scope.

(** ** JavaScript numbers and truthiness *)

Module JS.

(** [a === b] on two numbers. *)
Definition strictEq (a b : Q) : bool := Qeq_bool a b.

(** [a || d] where [a] is a number that may be absent: [undefined], [NaN]
    and [0] are falsy. *)
Definition orElse (a : option Q) (d : Q) : Q :=
  match a with
  | Some q => if Qeq_bool q 0 then d else q
  | None => d
  end.

(** [a * b] where [a] may be absent: [undefined * b] is [NaN]. *)
Definition mul (a : option Q) (b : Q) : option Q :=
  (fun q => (q * b)%Q) <$> a.

(** Truthiness of a string: only the empty string is falsy. *)
Definition truthy (s : string) : bool := negb (bool_decide (s = "")).

(** [String(id)] as a property key: [obj[undefined]] reads the property
    named ["undefined"]. *)
Definition key (id : option string) : string := default "undefined" id.

(** [q.toFixed(2)] for a non-negative [q]: the integer [n] with [n / 100]
    nearest to [q], the larger one on a tie. *)
Definition nearestHundredth (q : Q) : Z := Qfloor (q * 100 + (1 # 2)).

(** The decimal that [q.toFixed(2)] prints, as a number: a negative number
    is rounded through its absolute value and gets its sign back. *)
Definition toFixed2 (q : Q) : Q :=
  if Qle_bool 0 q then (nearestHundredth q # 100)%Q
  else (- (nearestHundredth (- q) # 100))%Q.

End JS.

(** ** The rounding of doubles *)

Module Float64.

(** The integer nearest to [q], the even one on a tie. *)
Definition nearestEven (q : Q) : Z :=
  let f := Qfloor q in
  match (q - inject_Z f ?= 1 # 2)%Q with
  | Lt => f
  | Gt => (f + 1)%Z
  | Eq => if Z.even f then f else (f + 1)%Z
  end.

(** The exponent [e] with [2^e <= q < 2^(e+1)], for a positive [q]. *)
Definition exponent (q : Q) : Z :=
  let e := (Z.log2 (Qnum q) - Z.log2 (Zpos (Qden q)))%Z in
  if Qle_bool (Qpower 2 e) q then e else (e - 1)%Z.

(** The double nearest to [q], the one with the even significand on a tie:
    a significand of 53 bits, or a multiple of [2^-1074] below the normal
    range.  [Number(text)] reads a decimal so, and every operation of
    doubles rounds its exact result so. *)
Definition round (q : Q) : Q :=
  if Qeq_bool q 0 then 0%Q
  else
    let a := Qabs q in
    let ulp := Qpower 2 (Z.max (exponent a - 52) (-1074)) in
    let r := (inject_Z (nearestEven (a / ulp)) * ulp)%Q in
    if Qle_bool 0 q then r else (- r)%Q.

(** [a * b] on two doubles. *)
Definition mul (a b : Q) : Q := round (a * b).

End Float64.

(** ** Data model *)

Record Dimensions := { dim_width : Q; dim_height : Q }.

Record Position := { pos_x : Q; pos_y : Q }.

Record CanvasMetadata := {
  cm_width : Q;
  cm_height : Q;
  cm_aspectRatio : Q;
  cm_scaleX : Q;
  cm_scaleY : Q
}.

(** The [props] of a frame effect and the frame effect itself.  The two last
    fields are the top-level [framePosition]/[frameSize] that [handleMouseUp]
    writes on the entry of [elementFrameMap]. *)
Record FrameEffectProps := {
  fep_framePosition : option Position;
  fep_frameSize : Q * Q
}.

Record FrameEffect := {
  fe_id : string;
  fe_s : Q;   (* the activation window, [s] to [e] *)
  fe_e : Q;
  fe_props : FrameEffectProps;
  fe_framePosition : option Position;
  fe_frameSize : option (Q * Q)
}.

Record Frame := {
  frame_size : Q * Q;
  frame_rotation : option Q;
  frame_x : option Q;
  frame_y : option Q
}.

Record ElementProps := {
  props_x : option Q;
  props_y : option Q;
  props_rotation : option Q;
  props_width : option Q;
  props_height : option Q;
  props_radius : option Q;
  props_playbackRate : option Q;
  props_time : option Q
}.

Record CanvasElement := {
  el_id : string;
  el_type : string;
  el_timelineType : option string;
  el_s : option Q;
  el_props : ElementProps;
  el_frame : option Frame;
  el_frameEffects : option (list FrameEffect)
}.

Record CaptionProps := {
  cap_applyToAll : bool;
  cap_x : option Q;
  cap_y : option Q
}.

(** A Fabric object, with the attributes the hook reads or sets. *)
Record FabricObject := {
  obj_id : option string;
  obj_type : string;
  obj_left : Q;
  obj_top : Q;
  obj_width : Q;
  obj_height : Q;
  obj_scaleX : Q;
  obj_scaleY : Q;
  obj_angle : Q;
  obj_selectable : bool;
  obj_evented : bool
}.

Record FabricCanvas := {
  objects : list FabricObject;
  backgroundColor : string
}.

(** The event that Fabric passes to the [mouse:up] listener. *)
Record Transform := {
  action : string;
  original : Position   (* [original.left], [original.top] *)
}.

Record MouseEvent := {
  target : option FabricObject;
  transform : option Transform
}.

(** Modelled from the spec: the tables [ELEMENT_TYPES] and
    [CANVAS_OPERATIONS] of [helpers/constants] are not among the sources; the
    element kinds carry the names the specification lists, and the
    operations are the three the hook emits. *)
Module ELEMENT_TYPES.
Definition VIDEO := "video".
Definition IMAGE := "image".
Definition RECT := "rect".
Definition CIRCLE := "circle".
Definition TEXT := "text".
Definition CAPTION := "caption".
End ELEMENT_TYPES.

Inductive CANVAS_OPERATIONS := ITEM_SELECTED | ITEM_UPDATED | CAPTION_PROPS_UPDATED.

(** The second argument of [onCanvasOperation]. *)
Inductive OperationData :=
| dataElement (e : option CanvasElement)
| dataCaption (element : CanvasElement) (props : CaptionProps).

(** The calls to the element helpers of [components/elements], with their
    arguments (the canvas is the hook's own). *)
Inductive ElementCall :=
| addVideoElement (element : CanvasElement) (index : nat)
    (canvasMetadata : CanvasMetadata) (currentFrameEffect : option FrameEffect)
    (snapTime : Q)
| addImageElement (element : CanvasElement) (index : nat) (canvasMetadata : CanvasMetadata)
| addRectElement (element : CanvasElement) (index : nat) (canvasMetadata : CanvasMetadata)
| addCircleElement (element : CanvasElement) (index : nat) (canvasMetadata : CanvasMetadata)
| addTextElement (element : CanvasElement) (index : nat) (canvasMetadata : CanvasMetadata)
| addCaptionElement (element : CanvasElement) (index : nat)
    (captionProps : option CaptionProps) (canvasMetadata : CanvasMetadata)
| addBackgroundColor (element : CanvasElement) (index : nat) (canvasMetadata : CanvasMetadata).

Inductive ConsoleLevel := LOG | WARN | ERROR.

(** What the hook does to the outside, in the order it does it. *)
Inductive Event :=
| evElement (c : ElementCall)
| evClearCanvas
| evRenderAll
| evReorder
| evOperation (op : CANVAS_OPERATIONS) (data : OperationData)
| evCanvasReady
| evConsole (level : ConsoleLevel) (message : string).

Inductive JsError :=
| TypeError
| HelperError (c : ElementCall).

Inductive Completion (A : Type) :=
| Returned (a : A)
| Thrown (e : JsError).
Arguments Returned {A} a.
Arguments Thrown {A} e.

(** ** The refs of the hook *)

Record Hook := {
  twickCanvas : option FabricCanvas;
  elementMap : gmap string CanvasElement;
  elementFrameMap : gmap string (option FrameEffect);
  videoSizeRef : Dimensions;
  canvasResolutionRef : Dimensions;
  captionPropsRef : option CaptionProps;
  canvasMetadataRef : CanvasMetadata
}.

(** The state of the hook before [buildCanvas] has run. *)
Definition initialHook : Hook := {|
  twickCanvas := None;
  elementMap := ∅;
  elementFrameMap := ∅;
  videoSizeRef := {| dim_width := 1; dim_height := 1 |};
  canvasResolutionRef := {| dim_width := 1; dim_height := 1 |};
  captionPropsRef := None;
  canvasMetadataRef :=
    {| cm_width := 0; cm_height := 0; cm_aspectRatio := 0; cm_scaleX := 1; cm_scaleY := 1 |}
|}.

(** ** Helpers imported by the hook

    [helpers/canvas.util] and [components/elements] are not among the
    sources: the hook is verified for every implementation of them.  The
    synchronous helpers are total functions.  An element helper is
    asynchronous: it is called, and settles later, fulfilled or rejected;
    the work it has done on the canvas by then is one step of
    [runElementCall] on the canvas as it is when the helper settles.  When
    several helpers are awaited at once, as in a rebuild, the order in
    which they settle is theirs: [settleOrder] lists, for a rebuild of the
    given elements, the positions of the callbacks in the order in which
    the event loop resumes them. *)

Class CanvasUtil := {
  convertToVideoPosition : Q -> Q -> CanvasMetadata -> Dimensions -> Position;
  getCurrentFrameEffect : CanvasElement -> Q -> option FrameEffect;
  getCanvasContext : FabricCanvas -> bool;
  createCanvas : Dimensions -> Dimensions -> string -> FabricCanvas * CanvasMetadata;
  clearCanvas : FabricCanvas -> FabricCanvas;
  reorderElementsByZIndex : FabricCanvas -> FabricCanvas;
  sendToBack : FabricObject -> FabricCanvas -> FabricCanvas;
  runElementCall : ElementCall -> FabricCanvas -> Completion unit * FabricCanvas;
  settleOrder : list (option CanvasElement) -> list nat
}.

(** ** Updating one ref *)

Definition setTwickCanvas (c : option FabricCanvas) (h : Hook) : Hook :=
  {| twickCanvas := c; elementMap := elementMap h;
     elementFrameMap := elementFrameMap h; videoSizeRef := videoSizeRef h;
     canvasResolutionRef := canvasResolutionRef h;
     captionPropsRef := captionPropsRef h;
     canvasMetadataRef := canvasMetadataRef h |}.

Definition setElementMap (m : gmap string CanvasElement) (h : Hook) : Hook :=
  {| twickCanvas := twickCanvas h; elementMap := m;
     elementFrameMap := elementFrameMap h; videoSizeRef := videoSizeRef h;
     canvasResolutionRef := canvasResolutionRef h;
     captionPropsRef := captionPropsRef h;
     canvasMetadataRef := canvasMetadataRef h |}.

Definition setElementFrameMap (m : gmap string (option FrameEffect)) (h : Hook) : Hook :=
  {| twickCanvas := twickCanvas h; elementMap := elementMap h;
     elementFrameMap := m; videoSizeRef := videoSizeRef h;
     canvasResolutionRef := canvasResolutionRef h;
     captionPropsRef := captionPropsRef h;
     canvasMetadataRef := canvasMetadataRef h |}.

Definition setVideoSize (v : Dimensions) (h : Hook) : Hook :=
  {| twickCanvas := twickCanvas h; elementMap := elementMap h;
     elementFrameMap := elementFrameMap h; videoSizeRef := v;
     canvasResolutionRef := canvasResolutionRef h;
     captionPropsRef := captionPropsRef h;
     canvasMetadataRef := canvasMetadataRef h |}.

Definition setCanvasResolution (v : Dimensions) (h : Hook) : Hook :=
  {| twickCanvas := twickCanvas h; elementMap := elementMap h;
     elementFrameMap := elementFrameMap h; videoSizeRef := videoSizeRef h;
     canvasResolutionRef := v;
     captionPropsRef := captionPropsRef h;
     canvasMetadataRef := canvasMetadataRef h |}.

Definition setCaptionProps (c : option CaptionProps) (h : Hook) : Hook :=
  {| twickCanvas := twickCanvas h; elementMap := elementMap h;
     elementFrameMap := elementFrameMap h; videoSizeRef := videoSizeRef h;
     canvasResolutionRef := canvasResolutionRef h;
     captionPropsRef := c;
     canvasMetadataRef := canvasMetadataRef h |}.

Definition setCanvasMetadata (m : CanvasMetadata) (h : Hook) : Hook :=
  {| twickCanvas := twickCanvas h; elementMap := elementMap h;
     elementFrameMap := elementFrameMap h; videoSizeRef := videoSizeRef h;
     canvasResolutionRef := canvasResolutionRef h;
     captionPropsRef := captionPropsRef h;
     canvasMetadataRef := m |}.

(** ** The monad of hook operations *)

Definition M (A : Type) : Type := Hook -> Completion A * Hook * list Event.

Definition ret {A} (a : A) : M A := fun h => (Returned a, h, []).

Definition bind {A B} (m : M A) (f : A -> M B) : M B := fun h =>
  match m h with
  | (Returned a, h1, l1) =>
      match f a h1 with
      | (r, h2, l2) => (r, h2, l1 ++ l2)
      end
  | (Thrown e, h1, l1) => (Thrown e, h1, l1)
  end.

#[global] Instance M_ret : MRet M := @ret.
#[global] Instance M_bind : MBind M := fun A B f m => bind m f.

Definition get : M Hook := fun h => (Returned h, h, []).
Definition modify (f : Hook -> Hook) : M unit := fun h => (Returned tt, f h, []).
Definition emit (e : Event) : M unit := fun h => (Returned tt, h, [e]).
Definition throw {A} (e : JsError) : M A := fun h => (Thrown e, h, []).

(** [try { m } catch (error) { handler(error) }]. *)
Definition tryCatch (m : M unit) (handler : JsError -> M unit) : M unit := fun h =>
  match m h with
  | (Returned a, h1, l1) => (Returned a, h1, l1)
  | (Thrown e, h1, l1) =>
      match handler e h1 with
      | (r, h2, l2) => (r, h2, l1 ++ l2)
      end
  end.

(** [if (c) { m }]. *)
Definition when (c : bool) (m : M unit) : M unit := if c then m else ret tt.

(** The log and the final refs of a run. *)
Definition logOf {A} (r : Completion A * Hook * list Event) : list Event := r.2.
Definition hookOf {A} (r : Completion A * Hook * list Event) : Hook := r.1.2.
Definition resultOf {A} (r : Completion A * Hook * list Event) : Completion A := r.1.1.

(** ** The callbacks of [Promise.all]

    Each callback of [elements.map] in [setCanvasElements] is an [async]
    function: it runs until its first [await] when it is called, and goes
    on, one turn of the event loop at a time, when what it waits for has
    settled. *)

(** Where a callback stands between two turns: [addElementToCanvas] waits
    for the helper [call] and has the helpers [next] still to call; or it
    has rejected and the [catch] of the callback has not run yet; or the
    callback has ended. *)
Inductive Task :=
| awaiting (element : CanvasElement) (call : ElementCall) (next : list ElementCall)
| rejected (element : CanvasElement)
| finished.

(** The callbacks of one rebuild, by position in the list, with the refs
    and the log they share.  [b_settled] keeps the helper calls that have
    settled, in that order; the code has no such list, the statements about
    the canvas use it. *)
Record Batch := {
  b_tasks : list Task;
  b_hook : Hook;
  b_log : list Event;
  b_settled : list ElementCall
}.

Definition newBatch (h : Hook) : Batch :=
  {| b_tasks := []; b_hook := h; b_log := []; b_settled := [] |}.


(** ** The hook *)

Section UseTwickCanvas.

Context `{CanvasUtil}.

(** *** [onVideoSizeChange] *)

(** [videoSize] is an object or absent ([if (videoSize)]). *)
Definition onVideoSizeChange (videoSize : option Dimensions) : M unit :=
  match videoSize with
  | None => mret tt
  | Some v =>
      modify (setVideoSize v);;
      h ← get;
      let m := canvasMetadataRef h in
      modify (setCanvasMetadata
        {| cm_width := cm_width m; cm_height := cm_height m;
           cm_aspectRatio := cm_aspectRatio m;
           cm_scaleX := cm_width m / dim_width v;
           cm_scaleY := cm_scaleY m |});;
      h ← get;
      let m := canvasMetadataRef h in
      modify (setCanvasMetadata
        {| cm_width := cm_width m; cm_height := cm_height m;
           cm_aspectRatio := cm_aspectRatio m;
           cm_scaleX := cm_scaleX m;
           cm_scaleY := cm_height m / dim_height v |})
  end.

(** *** [buildCanvas] *)

(** The arguments of [buildCanvas] that bear on the refs; [canvasRef] is
    the presence of the DOM canvas, and an absent optional argument takes
    the default of the parameter list. *)
Record CanvasProps := {
  videoSize : Dimensions;
  canvasSize : Dimensions;
  canvasRef : bool;
  backgroundColorProp : option string;
  forceBuild : option bool;
  frameScale : option Q;
  showFrameGuide : option bool
}.

(** [new Rect({...})] of the frame guide. *)
Definition frameRect (canvasResolution videoSize : Dimensions)
    (scaledMetadata : CanvasMetadata) : FabricObject :=
  {| obj_id := None;
     obj_type := "rect";
     obj_left := dim_width canvasResolution / 2;
     obj_top := dim_height canvasResolution / 2;
     obj_width := dim_width videoSize * cm_scaleX scaledMetadata;
     obj_height := dim_height videoSize * cm_scaleY scaledMetadata;
     obj_scaleX := 1;
     obj_scaleY := 1;
     obj_angle := 0;
     obj_selectable := false;
     obj_evented := false |}.

(** [canvas.add(object)]. *)
Definition canvasAdd (o : FabricObject) (c : FabricCanvas) : FabricCanvas :=
  {| objects := objects c ++ [o]; backgroundColor := backgroundColor c |}.

Definition buildCanvas (p : CanvasProps) : M unit :=
  let backgroundColor := default "#000000" (backgroundColorProp p) in
  let forceBuild := default false (forceBuild p) in
  let frameScale := default 1%Q (frameScale p) in
  let showFrameGuide := default false (showFrameGuide p) in
  if negb (canvasRef p) then mret tt
  else
    h ← get;
    if negb forceBuild
       && JS.strictEq (dim_width (canvasResolutionRef h)) (dim_width (canvasSize p))
       && JS.strictEq (dim_height (canvasResolutionRef h)) (dim_height (canvasSize p))
    then mret tt
    else
      (* dispose of the old canvas if it exists *)
      when (bool_decide (is_Some (twickCanvas h)))
           (emit (evConsole LOG "Destroying twickCanvas"));;
      let '(canvas, canvasMetadata) :=
        createCanvas (videoSize p) (canvasSize p) backgroundColor in
      let scaledMetadata :=
        {| cm_width := cm_width canvasMetadata;
           cm_height := cm_height canvasMetadata;
           cm_aspectRatio := cm_aspectRatio canvasMetadata;
           cm_scaleX := cm_scaleX canvasMetadata * frameScale;
           cm_scaleY := cm_scaleY canvasMetadata * frameScale |} in
      modify (setCanvasMetadata scaledMetadata);;
      modify (setVideoSize (videoSize p));;
      modify (setCanvasResolution (canvasSize p));;
      modify (setTwickCanvas (Some canvas));;
      when showFrameGuide
        (let guide := frameRect (canvasSize p) (videoSize p) scaledMetadata in
         modify (setTwickCanvas (Some (sendToBack guide (canvasAdd guide canvas)))));;
      emit evCanvasReady.

(** *** [handleMouseUp] *)

(** The cases of [switch (event.transform?.action)]. *)
Definition handledActions : list string :=
  ["drag"; "scale"; "scaleX"; "scaleY"; "rotate"].

(** [elementMap.current[elementId]] where a field of the entry is read
    next: reading a field of [undefined] throws a [TypeError]. *)
Definition lookupElement (elementId : string) : M CanvasElement :=
  h ← get;
  match elementMap h !! elementId with
  | Some el => mret el
  | None => throw TypeError
  end.

(** [elementMap.current[elementId] = el]. *)
Definition storeElement (elementId : string) (el : CanvasElement) : M unit :=
  h ← get; modify (setElementMap (<[elementId := el]> (elementMap h))).

(** [onCanvasOperation?.(op, data)]. *)
Definition onCanvasOperation (op : CANVAS_OPERATIONS) (data : OperationData) : M unit :=
  emit (evOperation op data).

(** [{...el, props}], [{...el, frame}], [{...el, frameEffects}]. *)
Definition withProps (el : CanvasElement) (p : ElementProps) : CanvasElement :=
  {| el_id := el_id el; el_type := el_type el;
     el_timelineType := el_timelineType el; el_s := el_s el;
     el_props := p; el_frame := el_frame el;
     el_frameEffects := el_frameEffects el |}.

Definition withFrame (el : CanvasElement) (f : Frame) : CanvasElement :=
  {| el_id := el_id el; el_type := el_type el;
     el_timelineType := el_timelineType el; el_s := el_s el;
     el_props := el_props el; el_frame := Some f;
     el_frameEffects := el_frameEffects el |}.

Definition withFrameEffects (el : CanvasElement) (l : list FrameEffect) : CanvasElement :=
  {| el_id := el_id el; el_type := el_type el;
     el_timelineType := el_timelineType el; el_s := el_s el;
     el_props := el_props el; el_frame := el_frame el;
     el_frameEffects := Some l |}.

(** [{...props, x, y}]. *)
Definition movedProps (p : ElementProps) (pos : Position) : ElementProps :=
  {| props_x := Some (pos_x pos); props_y := Some (pos_y pos);
     props_rotation := props_rotation p;
     props_width := props_width p; props_height := props_height p;
     props_radius := props_radius p;
     props_playbackRate := props_playbackRate p; props_time := props_time p |}.

(** [{...props, rotation: object.angle, x, y}]. *)
Definition textProps (p : ElementProps) (object : FabricObject) (pos : Position)
    : ElementProps :=
  {| props_x := Some (pos_x pos); props_y := Some (pos_y pos);
     props_rotation := Some (obj_angle object);
     props_width := props_width p; props_height := props_height p;
     props_radius := props_radius p;
     props_playbackRate := props_playbackRate p; props_time := props_time p |}.

(** [{...props, rotation, radius, height: radius * 2, width: radius * 2, x, y}]
    with [radius = Number((props.radius * object.scaleX).toFixed(2))]: the
    product is the rounded product of the two doubles, [toFixed] prints the
    decimal nearest to it and [Number] reads the double nearest to that
    decimal.  The factor is [object.scaleX] whatever the gesture. *)
Definition circleProps (p : ElementProps) (object : FabricObject) (pos : Position)
    : ElementProps :=
  let radius :=
    (fun r => Float64.round (JS.toFixed2 (Float64.mul r (obj_scaleX object))))
      <$> props_radius p in
  {| props_x := Some (pos_x pos); props_y := Some (pos_y pos);
     props_rotation := Some (obj_angle object);
     props_width := JS.mul radius 2; props_height := JS.mul radius 2;
     props_radius := radius;
     props_playbackRate := props_playbackRate p; props_time := props_time p |}.

(** [{...props, rotation, width: props.width * object.scaleX,
     height: props.height * object.scaleY, x, y}]. *)
Definition shapeProps (p : ElementProps) (object : FabricObject) (pos : Position)
    : ElementProps :=
  {| props_x := Some (pos_x pos); props_y := Some (pos_y pos);
     props_rotation := Some (obj_angle object);
     props_width := JS.mul (props_width p) (obj_scaleX object);
     props_height := JS.mul (props_height p) (obj_scaleY object);
     props_radius := props_radius p;
     props_playbackRate := props_playbackRate p; props_time := props_time p |}.

(** [[size[0] * object.scaleX, size[1] * object.scaleY]]. *)
Definition scaledSize (size : Q * Q) (object : FabricObject) : Q * Q :=
  ((size.1 * obj_scaleX object)%Q, (size.2 * obj_scaleY object)%Q).

(** The callback of [frameEffects.map]: the effect whose id is that of the
    current one gets the new position and size in its [props]. *)
Definition retargetFrameEffect (current : FrameEffect) (pos : Position)
    (updatedFrameSize : Q * Q) (frameEffect : FrameEffect) : FrameEffect :=
  if bool_decide (fe_id frameEffect = fe_id current) then
    {| fe_id := fe_id frameEffect;
       fe_s := fe_s frameEffect; fe_e := fe_e frameEffect;
       fe_props := {| fep_framePosition := Some pos;
                      fep_frameSize := updatedFrameSize |};
       fe_framePosition := fe_framePosition frameEffect;
       fe_frameSize := fe_frameSize frameEffect |}
  else frameEffect.

(** The branch [object.type === "group"]. *)
Definition groupPatch (elementId : string) (el : CanvasElement)
    (object : FabricObject) (pos : Position) : M unit :=
  h ← get;
  match mjoin (elementFrameMap h !! elementId) with
  | Some currentFrameEffect =>
      let updatedFrameSize :=
        scaledSize (fep_frameSize (fe_props currentFrameEffect)) object in
      storeElement elementId
        (withFrameEffects el
           (retargetFrameEffect currentFrameEffect pos updatedFrameSize
              <$> default [] (el_frameEffects el)));;
      modify (setElementFrameMap
        (<[elementId :=
             Some {| fe_id := fe_id currentFrameEffect;
                     fe_s := fe_s currentFrameEffect;
                     fe_e := fe_e currentFrameEffect;
                     fe_props := fe_props currentFrameEffect;
                     fe_framePosition := Some pos;
                     fe_frameSize := Some updatedFrameSize |}]>
           (elementFrameMap h)))
  | None =>
      match el_frame el with
      | None => throw TypeError
      | Some frame =>
          let updatedFrameSize := scaledSize (frame_size frame) object in
          storeElement elementId
            (withFrame el
               {| frame_size := updatedFrameSize;
                  frame_rotation := Some (obj_angle object);
                  frame_x := Some (pos_x pos);
                  frame_y := Some (pos_y pos) |})
      end
  end.

(** The body of the five cases of the [switch]. *)
Definition reconcile (object : FabricObject) (elementId : string) : M unit :=
  h ← get;
  let pos := convertToVideoPosition (obj_left object) (obj_top object)
               (canvasMetadataRef h) (videoSizeRef h) in
  el ← lookupElement elementId;
  if bool_decide (el_type el = "caption") then
    match captionPropsRef h with
    | Some captionProps =>
        if cap_applyToAll captionProps then
          onCanvasOperation CAPTION_PROPS_UPDATED
            (dataCaption el
               {| cap_applyToAll := cap_applyToAll captionProps;
                  cap_x := Some (pos_x pos); cap_y := Some (pos_y pos) |})
        else
          let el' := withProps el (movedProps (el_props el) pos) in
          storeElement elementId el';;
          onCanvasOperation ITEM_UPDATED (dataElement (Some el'))
    | None =>
        let el' := withProps el (movedProps (el_props el) pos) in
        storeElement elementId el';;
        onCanvasOperation ITEM_UPDATED (dataElement (Some el'))
    end
  else
    (if bool_decide (obj_type object = "group") then
       groupPatch elementId el object pos
     else if bool_decide (obj_type object = "text") then
       storeElement elementId (withProps el (textProps (el_props el) object pos))
     else if bool_decide (obj_type object = "circle") then
       storeElement elementId (withProps el (circleProps (el_props el) object pos))
     else
       storeElement elementId (withProps el (shapeProps (el_props el) object pos)));;
    h' ← get;
    onCanvasOperation ITEM_UPDATED (dataElement (elementMap h' !! elementId)).

(** The test of a click: a drag that left the object where it was. *)
Definition isClick (event : MouseEvent) (object : FabricObject) : bool :=
  match transform event with
  | Some t =>
      bool_decide (action t = "drag")
      && JS.strictEq (obj_left object) (pos_x (original t))
      && JS.strictEq (obj_top object) (pos_y (original t))
  | None => false
  end.

Definition handleMouseUp (event : MouseEvent) : M unit :=
  match target event with
  | None => mret tt
  | Some object =>
      let elementId := JS.key (obj_id object) in
      if isClick event object then
        h ← get;
        onCanvasOperation ITEM_SELECTED (dataElement (elementMap h !! elementId))
      else
        match transform event with
        | Some t =>
            if bool_decide (action t ∈ handledActions)
            then reconcile object elementId
            else mret tt
        | None => mret tt
        end
  end.

(** *** [addElementToCanvas] *)

(** [await helper({..., canvas: twickCanvas, ...})]: the helper works on
    the canvas of the hook; a rejection is thrown at the [await]. *)
Definition callElementHelper (c : ElementCall) : M unit := fun h =>
  match twickCanvas h with
  | Some canvas =>
      match runElementCall c canvas with
      | (r, canvas') => (r, setTwickCanvas (Some canvas') h, [evElement c])
      end
  | None => (Thrown TypeError, h, [])
  end.

(** [reorderElementsByZIndex(twickCanvas)]. *)
Definition callReorder : M unit :=
  emit evReorder;;
  modify (fun h => setTwickCanvas (reorderElementsByZIndex <$> twickCanvas h) h).

(** The local playback offset of a video element. *)
Definition snapTimeOf (element : CanvasElement) (seekTime : option Q) : Q :=
  ((JS.orElse seekTime 0 - JS.orElse (el_s element) 0)
     * JS.orElse (props_playbackRate (el_props element)) 1
   + JS.orElse (props_time (el_props element)) 0)%Q.

(** [if (element.timelineType === "scene") await addBackgroundColor(...)]. *)
Definition sceneBackground (element : CanvasElement) (index : nat)
    (m : CanvasMetadata) : M unit :=
  when (bool_decide (el_timelineType element = Some "scene"))
       (callElementHelper (addBackgroundColor element index m)).

(** The [switch (element.type)]. *)
Definition projectByType (element : CanvasElement) (index : nat)
    (seekTime : option Q) (captionProps : option CaptionProps) : M unit :=
  h ← get;
  let m := canvasMetadataRef h in
  let type := el_type element in
  if bool_decide (type = ELEMENT_TYPES.VIDEO) then
    let currentFrameEffect := getCurrentFrameEffect element (JS.orElse seekTime 0) in
    modify (setElementFrameMap
              (<[el_id element := currentFrameEffect]> (elementFrameMap h)));;
    let snapTime := snapTimeOf element seekTime in
    callElementHelper (addVideoElement element index m currentFrameEffect snapTime);;
    sceneBackground element index m
  else if bool_decide (type = ELEMENT_TYPES.IMAGE) then
    callElementHelper (addImageElement element index m);;
    sceneBackground element index m
  else if bool_decide (type = ELEMENT_TYPES.RECT) then
    callElementHelper (addRectElement element index m)
  else if bool_decide (type = ELEMENT_TYPES.CIRCLE) then
    callElementHelper (addCircleElement element index m)
  else if bool_decide (type = ELEMENT_TYPES.TEXT) then
    callElementHelper (addTextElement element index m)
  else if bool_decide (type = ELEMENT_TYPES.CAPTION) then
    callElementHelper (addCaptionElement element index captionProps m)
  else mret tt.

Definition addElementToCanvas (element : CanvasElement) (index : nat)
    (reorder : bool) (seekTime : option Q) (captionProps : option CaptionProps)
    : M unit :=
  h ← get;
  match twickCanvas h with
  | None => emit (evConsole WARN "Canvas not initialized")
  | Some _ =>
      projectByType element index seekTime captionProps;;
      storeElement (el_id element) element;;
      when reorder callReorder
  end.

(** *** [setCanvasElements] *)

(** The callback of [elements.map], for the element at [index], run from
    its call to its end with nothing in between; an entry of the list may
    be null. *)
Definition projectEntry (seekTime : Q) (captionProps : option CaptionProps)
    (index : nat) (entry : option CanvasElement) : M unit :=
  match entry with
  | None => emit (evConsole WARN "Element not found")
  | Some element =>
      tryCatch
        (addElementToCanvas element index false (Some seekTime) captionProps)
        (fun _ => emit (evConsole ERROR
                          ("Error adding element " +:+ el_id element +:+ ":")))
  end.

(** The helpers that [addElementToCanvas] awaits for an element, one after
    the other, by the [switch (element.type)]; the metadata is
    [canvasMetadataRef.current], which no step of a rebuild changes. *)
Definition awaitedHelpers (m : CanvasMetadata) (element : CanvasElement)
    (index : nat) (seekTime : option Q) (captionProps : option CaptionProps)
    : list ElementCall :=
  let type := el_type element in
  let background :=
    if bool_decide (el_timelineType element = Some "scene")
    then [addBackgroundColor element index m] else [] in
  if bool_decide (type = ELEMENT_TYPES.VIDEO) then
    addVideoElement element index m
      (getCurrentFrameEffect element (JS.orElse seekTime 0))
      (snapTimeOf element seekTime) :: background
  else if bool_decide (type = ELEMENT_TYPES.IMAGE) then
    addImageElement element index m :: background
  else if bool_decide (type = ELEMENT_TYPES.RECT) then
    [addRectElement element index m]
  else if bool_decide (type = ELEMENT_TYPES.CIRCLE) then
    [addCircleElement element index m]
  else if bool_decide (type = ELEMENT_TYPES.TEXT) then
    [addTextElement element index m]
  else if bool_decide (type = ELEMENT_TYPES.CAPTION) then
    [addCaptionElement element index captionProps m]
  else [].

(** The call of the callback for the entry at [index]: the callback runs up
    to its first [await].  A null entry is warned about; for an element,
    [addElementToCanvas] records the frame effect of a video and calls the
    first helper, or, when the kind has no helper, registers the element
    at once. *)
Definition startEntry (seekTime : Q) (captionProps : option CaptionProps)
    (index : nat) (entry : option CanvasElement) (b : Batch) : Batch :=
  let h := b_hook b in
  match entry with
  | None =>
      {| b_tasks := b_tasks b ++ [finished]; b_hook := h;
         b_log := b_log b ++ [evConsole WARN "Element not found"];
         b_settled := b_settled b |}
  | Some element =>
      match twickCanvas h with
      | None =>
          {| b_tasks := b_tasks b ++ [finished]; b_hook := h;
             b_log := b_log b ++ [evConsole WARN "Canvas not initialized"];
             b_settled := b_settled b |}
      | Some _ =>
          let h1 :=
            if bool_decide (el_type element = ELEMENT_TYPES.VIDEO)
            then setElementFrameMap
                   (<[el_id element :=
                        getCurrentFrameEffect element (JS.orElse (Some seekTime) 0)]>
                      (elementFrameMap h)) h
            else h in
          match awaitedHelpers (canvasMetadataRef h) element index
                  (Some seekTime) captionProps with
          | [] =>
              {| b_tasks := b_tasks b ++ [finished];
                 b_hook := setElementMap
                             (<[el_id element := element]> (elementMap h1)) h1;
                 b_log := b_log b; b_settled := b_settled b |}
          | call :: next =>
              {| b_tasks := b_tasks b ++ [awaiting element call next];
                 b_hook := h1;
                 b_log := b_log b ++ [evElement call];
                 b_settled := b_settled b |}
          end
      end
  end.

(** [elements.map(async ...)]: every callback is called, in the order of
    the list, before any of them is resumed. *)
Fixpoint startAll (seekTime : Q) (captionProps : option CaptionProps)
    (index : nat) (elements : list (option CanvasElement)) (b : Batch) : Batch :=
  match elements with
  | [] => b
  | entry :: rest =>
      startAll seekTime captionProps (S index) rest
        (startEntry seekTime captionProps index entry b)
  end.

(** One turn of the callback at position [i].  The helper it waits for
    settles: its completion and its work on the canvas are those of
    [callElementHelper], whose call was logged when it was made.  Fulfilled,
    [addElementToCanvas] calls the next helper or, after the last one,
    registers the element; rejected, [addElementToCanvas] rejects in its
    turn.  A rejection reaches the [catch] of the callback one turn later,
    where it is logged.  A callback that has ended is not resumed. *)
Definition resumeAt (i : nat) (b : Batch) : Batch :=
  match b_tasks b !! i with
  | Some (awaiting element call next) =>
      let '(r, h1, _) := callElementHelper call (b_hook b) in
      match r, next with
      | Returned _, [] =>
          {| b_tasks := <[i := finished]> (b_tasks b);
             b_hook := setElementMap
                         (<[el_id element := element]> (elementMap h1)) h1;
             b_log := b_log b;
             b_settled := b_settled b ++ [call] |}
      | Returned _, call' :: next' =>
          {| b_tasks := <[i := awaiting element call' next']> (b_tasks b);
             b_hook := h1;
             b_log := b_log b ++ [evElement call'];
             b_settled := b_settled b ++ [call] |}
      | Thrown _, _ =>
          {| b_tasks := <[i := rejected element]> (b_tasks b);
             b_hook := h1;
             b_log := b_log b;
             b_settled := b_settled b ++ [call] |}
      end
  | Some (rejected element) =>
      {| b_tasks := <[i := finished]> (b_tasks b);
         b_hook := b_hook b;
         b_log := b_log b
                  ++ [evConsole ERROR ("Error adding element " +:+ el_id element +:+ ":")];
         b_settled := b_settled b |}
  | Some finished | None => b
  end.

(** The callbacks resumed in the given order. *)
Definition resumeOrder (order : list nat) (b : Batch) : Batch :=
  foldl (fun b i => resumeAt i b) b order.

(** [Promise.all] waits for every callback: those that have not ended are
    resumed in turn until they have.  A callback has at most two helpers
    to wait for and one rejection to catch, so three rounds do. *)
Definition finishAll (b : Batch) : Batch :=
  let round := seq 0 (length (b_tasks b)) in
  resumeOrder (round ++ round ++ round) b.

(** [await Promise.all(elements.map(async (element, index) => ...))]: the
    callbacks are called in the order of the list, each running to its
    first [await]; they are resumed in the order in which the helpers
    settle, and then until all have ended.  No callback rejects. *)
Definition projectAll (seekTime : Q) (captionProps : option CaptionProps)
    (elements : list (option CanvasElement)) : M unit := fun h =>
  let started := startAll seekTime captionProps 0 elements (newBatch h) in
  let b := finishAll (resumeOrder (settleOrder elements) started) in
  (Returned tt, b_hook b, b_log b).

(** The block [if (cleanAndAdd && getCanvasContext(twickCanvas))]. *)
Definition cleanCanvas (canvas : FabricCanvas) : M unit :=
  let backgroundColor := backgroundColor canvas in
  emit evClearCanvas;;
  modify (setTwickCanvas (Some (clearCanvas canvas)));;
  when (JS.truthy backgroundColor)
    (modify (setTwickCanvas
       (Some {| objects := objects (clearCanvas canvas);
                backgroundColor := backgroundColor |}));;
     emit evRenderAll).

(** The statements of the [try] block after the cleaning: the caption
    props are recorded, every entry is projected, and the objects are
    reordered once all the projections have settled. *)
Definition projectAndReorder (seekTime : Q) (captionProps : option CaptionProps)
    (elements : list (option CanvasElement)) : M unit :=
  modify (setCaptionProps captionProps);;
  projectAll seekTime captionProps elements;;
  callReorder.

Definition setCanvasElements (elements : list (option CanvasElement))
    (seekTime : option Q) (captionProps : option CaptionProps)
    (cleanAndAdd : option bool) : M unit :=
  let seekTime := default 0%Q seekTime in
  let cleanAndAdd := default false cleanAndAdd in
  h ← get;
  match twickCanvas h with
  | Some canvas =>
      if getCanvasContext canvas then
        tryCatch
          (when (cleanAndAdd && getCanvasContext canvas) (cleanCanvas canvas);;
           projectAndReorder seekTime captionProps elements)
          (fun _ => emit (evConsole ERROR "Error in setCanvasElements:"))
      else emit (evConsole WARN "Canvas not properly initialized")
  | None => emit (evConsole WARN "Canvas not properly initialized")
  end.

End UseTwickCanvas.

(** ** A sample implementation of the helpers

    Modelled from the spec: [helpers/canvas.util] and [components/elements]
    are not among the sources.  This instance follows the specification where
    it speaks (the metadata of [createCanvas], the first active frame effect,
    clearing, one visual object per identifier, an element without its
    geometry is refused) and is used to run the hook on concrete inputs; the
    theorems below hold for every instance. *)

Module Sample.

(** Modelled from the spec: the scale factors map video units to canvas
    units ([videoSize={1920,1080}], [canvasSize={960,540}] give
    [scaleX == scaleY == 0.5]). *)
Definition createCanvas (videoSize canvasSize : Dimensions) (backgroundColor : string)
    : FabricCanvas * CanvasMetadata :=
  ({| objects := []; backgroundColor := backgroundColor |},
   {| cm_width := dim_width canvasSize;
      cm_height := dim_height canvasSize;
      cm_aspectRatio := dim_width canvasSize / dim_height canvasSize;
      cm_scaleX := dim_width canvasSize / dim_width videoSize;
      cm_scaleY := dim_height canvasSize / dim_height videoSize |}).

(** Modelled from the spec: a canvas length divided by the scale factor is
    a video length. *)
Definition convertToVideoPosition (left top : Q) (m : CanvasMetadata)
    (videoSize : Dimensions) : Position :=
  {| pos_x := left / cm_scaleX m; pos_y := top / cm_scaleY m |}.

(** Modelled from the spec: the first frame effect of the declared list
    whose activation window contains the time. *)
Definition getCurrentFrameEffect (element : CanvasElement) (time : Q)
    : option FrameEffect :=
  List.find (fun fe => Qle_bool (fe_s fe) time && Qle_bool time (fe_e fe))
            (default [] (el_frameEffects element)).

(** Modelled from the spec: a canvas that was built has its context. *)
Definition getCanvasContext (c : FabricCanvas) : bool := true.

(** Modelled from the spec: clearing removes every visual object (and the
    background colour, which is why the hook puts it back). *)
Definition clearCanvas (c : FabricCanvas) : FabricCanvas :=
  {| objects := []; backgroundColor := "" |}.

(** Modelled from the spec: the draw order follows a stacking key; the objects
    of the model carry none, so the order is left as it is. *)
Definition reorderElementsByZIndex (c : FabricCanvas) : FabricCanvas := c.

(** Modelled from the spec: the frame guide is kept at the very back; it is
    the object that was added last. *)
Definition sendToBack (o : FabricObject) (c : FabricCanvas) : FabricCanvas :=
  {| objects := o :: removelast (objects c);
     backgroundColor := backgroundColor c |}.

(** Modelled from the spec: the visual object of an element is its box,
    scaled to the canvas, under the identifier of the element. *)
Definition visual (id type : string) (m : CanvasMetadata) (x y w h : Q)
    (angle : Q) : FabricObject :=
  {| obj_id := Some id; obj_type := type;
     obj_left := x * cm_scaleX m; obj_top := y * cm_scaleY m;
     obj_width := w * cm_scaleX m; obj_height := h * cm_scaleY m;
     obj_scaleX := 1; obj_scaleY := 1; obj_angle := angle;
     obj_selectable := true; obj_evented := true |}.

Definition sameId (a b : FabricObject) : bool :=
  bool_decide (obj_id a = obj_id b).

(** Modelled from the spec: projection is idempotent, an object with the same
    identifier is refreshed, not duplicated. *)
Definition upsert (o : FabricObject) (c : FabricCanvas) : FabricCanvas :=
  {| objects :=
       if existsb (sameId o) (objects c)
       then (fun o' => if sameId o o' then o else o') <$> objects c
       else objects c ++ [o];
     backgroundColor := backgroundColor c |}.

(** Modelled from the spec: an element without its geometry is refused
    ([InvalidElementData]). *)
Definition boxOf (el : CanvasElement) : option (Q * Q * Q * Q) :=
  let p := el_props el in
  x ← props_x p; y ← props_y p;
  w ← props_width p; h ← props_height p;
  Some (x, y, w, h).

Definition boxed (c : ElementCall) (el : CanvasElement) (type : string)
    (m : CanvasMetadata) (canvas : FabricCanvas) : Completion unit * FabricCanvas :=
  match boxOf el with
  | Some (x, y, w, h) =>
      (Returned tt,
       upsert (visual (el_id el) type m x y w h
                 (default 0%Q (props_rotation (el_props el)))) canvas)
  | None => (Thrown (HelperError c), canvas)
  end.

Definition runElementCall (c : ElementCall) (canvas : FabricCanvas)
    : Completion unit * FabricCanvas :=
  match c with
  | addVideoElement el _ m fe _ =>
      boxed c el (if bool_decide (is_Some fe) then "group" else "image") m canvas
  | addImageElement el _ m => boxed c el "image" m canvas
  | addRectElement el _ m => boxed c el "rect" m canvas
  | addTextElement el _ m => boxed c el "text" m canvas
  | addCaptionElement el _ _ m => boxed c el "text" m canvas
  | addCircleElement el _ m =>
      let p := el_props el in
      match props_x p, props_y p, props_radius p with
      | Some x, Some y, Some r =>
          (Returned tt,
           upsert (visual (el_id el) "circle" m x y (r * 2) (r * 2)
                     (default 0%Q (props_rotation p))) canvas)
      | _, _, _ => (Thrown (HelperError c), canvas)
      end
  | addBackgroundColor el _ m =>
      (Returned tt,
       upsert (visual (el_id el +:+ "-background") "rect" m 0 0
                 (cm_width m / cm_scaleX m) (cm_height m / cm_scaleY m) 0) canvas)
  end.

(** Modelled from the spec: the helpers settle in the order in which they
    were called, so the callbacks are resumed in the order of the list. *)
Definition settleOrder (elements : list (option CanvasElement)) : list nat := [].

#[export] Instance util : CanvasUtil :=
  Build_CanvasUtil convertToVideoPosition getCurrentFrameEffect
    getCanvasContext createCanvas clearCanvas reorderElementsByZIndex
    sendToBack runElementCall settleOrder.

End Sample.

(** ** The vocabulary of the statements *)

(** The element and the index that a helper call was made for. *)
Definition callElement (c : ElementCall) : CanvasElement :=
  match c with
  | addVideoElement el _ _ _ _ | addImageElement el _ _ | addRectElement el _ _
  | addCircleElement el _ _ | addTextElement el _ _ | addCaptionElement el _ _ _
  | addBackgroundColor el _ _ => el
  end.

Definition callIndex (c : ElementCall) : nat :=
  match c with
  | addVideoElement _ i _ _ _ | addImageElement _ i _ | addRectElement _ i _
  | addCircleElement _ i _ | addTextElement _ i _ | addCaptionElement _ i _ _
  | addBackgroundColor _ i _ => i
  end.

(** The kinds that have a case in the [switch] of [addElementToCanvas]. *)
Definition projectedKinds : list string :=
  [ELEMENT_TYPES.VIDEO; ELEMENT_TYPES.IMAGE; ELEMENT_TYPES.RECT;
   ELEMENT_TYPES.CIRCLE; ELEMENT_TYPES.TEXT; ELEMENT_TYPES.CAPTION].

(** A call of a helper for the element [el] at [index]. *)
Definition isCallFor (index : nat) (el : CanvasElement) (e : Event) : Prop :=
  exists c : ElementCall, e = evElement c /\ callElement c = el /\ callIndex c = index.

Section Vocabulary.

Context `{CanvasUtil}.

(** The run of a gesture that updates the registered element to [el']. *)
Definition updatedTo (h : Hook) (elementId : string) (el' : CanvasElement)
    : Completion unit * Hook * list Event :=
  (Returned tt, setElementMap (<[elementId := el']> (elementMap h)) h,
   [evOperation ITEM_UPDATED (dataElement (Some el'))]).

(** What a gesture on a grouped object must have done to the frame effect
    [e] of the element, when [current] is the active one: the effect with
    the identifier of [current] has the new position and the scaled size of
    [current] in its [props]; any other effect is as it was. *)
Definition retargeted (current : FrameEffect) (pos : Position)
    (object : FabricObject) (e e' : FrameEffect) : Prop :=
  if bool_decide (fe_id e = fe_id current) then
    fe_id e' = fe_id e
    /\ fep_framePosition (fe_props e') = Some pos
    /\ fep_frameSize (fe_props e') =
         ((fep_frameSize (fe_props current)).1 * obj_scaleX object,
          (fep_frameSize (fe_props current)).2 * obj_scaleY object)%Q
  else e' = e.

(** The outcome of a gesture on a grouped object, by the active frame
    effect of its element in [elementFrameMap]. *)
Definition groupGestureOutcome (h : Hook) (event : MouseEvent)
    (object : FabricObject) (el : CanvasElement) : Prop :=
  let elementId := JS.key (obj_id object) in
  let pos := convertToVideoPosition (obj_left object) (obj_top object)
               (canvasMetadataRef h) (videoSizeRef h) in
  let run := handleMouseUp event h in
  match mjoin (elementFrameMap h !! elementId), el_frame el with
  | Some current, _ =>
      exists el' : CanvasElement,
        resultOf run = Returned tt
        /\ logOf run = [evOperation ITEM_UPDATED (dataElement (Some el'))]
        /\ elementMap (hookOf run) !! elementId = Some el'
        /\ el_frame el' = el_frame el
        /\ el_props el' = el_props el
        /\ exists effects' : list FrameEffect,
             el_frameEffects el' = Some effects'
             /\ length effects' = length (default [] (el_frameEffects el))
             /\ forall (i : nat) (e : FrameEffect),
                  default [] (el_frameEffects el) !! i = Some e ->
                  exists e', effects' !! i = Some e'
                             /\ retargeted current pos object e e'
  | None, Some frame =>
      exists el' : CanvasElement,
        resultOf run = Returned tt
        /\ logOf run = [evOperation ITEM_UPDATED (dataElement (Some el'))]
        /\ elementMap (hookOf run) !! elementId = Some el'
        /\ el_frame el' =
             Some {| frame_size :=
                       ((frame_size frame).1 * obj_scaleX object,
                        (frame_size frame).2 * obj_scaleY object)%Q;
                     frame_rotation := Some (obj_angle object);
                     frame_x := Some (pos_x pos);
                     frame_y := Some (pos_y pos) |}
        /\ el_frameEffects el' = el_frameEffects el
        /\ el_props el' = el_props el
  | None, None => resultOf run = Thrown TypeError /\ logOf run = []
  end.

(** The handler did nothing: no notification, no exception, the refs as
    they were. *)
Definition ignoredSilently (h : Hook) (event : MouseEvent) : Prop :=
  handleMouseUp event h = (Returned tt, h, []).

(** The playback rate that [snapTime] is computed with: [playbackRate || 1]. *)
Definition rateOr1 (element : CanvasElement) : Q :=
  JS.orElse (props_playbackRate (el_props element)) 1.

(** The element kinds that the specification recognises. *)
Definition recognizedKinds : list string :=
  ["video"; "image"; "rect"; "circle"; "text"; "caption"; "background"].

(** [buildCanvas] does nothing without a DOM canvas, or when the canvas
    size is the recorded one and the build is not forced. *)
Definition buildSkipped (p : CanvasProps) (h : Hook) : bool :=
  negb (canvasRef p)
  || (negb (default false (forceBuild p))
      && JS.strictEq (dim_width (canvasResolutionRef h)) (dim_width (canvasSize p))
      && JS.strictEq (dim_height (canvasResolutionRef h)) (dim_height (canvasSize p))).

End Vocabulary.

(** ** Concrete scenarios *)

Module Scenario.

Import Sample.

Local Open Scope Q_scope.

Definition hd1080 : Dimensions := {| dim_width := 1920; dim_height := 1080 |}.
Definition hd720 : Dimensions := {| dim_width := 1280; dim_height := 720 |}.
Definition container : Dimensions := {| dim_width := 960; dim_height := 540 |}.

(** The call of [buildCanvas] that the editor's [PlayerManager] makes. *)
Definition editorCanvas (video : Dimensions) (force : option bool) : CanvasProps :=
  {| videoSize := video; canvasSize := container; canvasRef := true;
     backgroundColorProp := None; forceBuild := force;
     frameScale := Some (9 # 10); showFrameGuide := Some true |}.

Definition metadata : CanvasMetadata :=
  {| cm_width := 960; cm_height := 540; cm_aspectRatio := 16 # 9;
     cm_scaleX := 1 # 2; cm_scaleY := 1 # 2 |}.

Definition noProps : ElementProps :=
  {| props_x := None; props_y := None; props_rotation := None;
     props_width := None; props_height := None; props_radius := None;
     props_playbackRate := None; props_time := None |}.

Definition box (x y w h : Q) : ElementProps :=
  {| props_x := Some x; props_y := Some y; props_rotation := None;
     props_width := Some w; props_height := Some h; props_radius := None;
     props_playbackRate := None; props_time := None |}.

Definition element (id type : string) (p : ElementProps) : CanvasElement :=
  {| el_id := id; el_type := type; el_timelineType := None; el_s := None;
     el_props := p; el_frame := None; el_frameEffects := None |}.

Definition circle10 : CanvasElement :=
  element "circle-1" "circle"
    {| props_x := Some 100; props_y := Some 50; props_rotation := None;
       props_width := Some 20; props_height := Some 20;
       props_radius := Some 10;
       props_playbackRate := None; props_time := None |}.

Definition zoom : FrameEffect :=
  {| fe_id := "zoom"; fe_s := 0; fe_e := 4;
     fe_props := {| fep_framePosition := None; fep_frameSize := (400, 300) |};
     fe_framePosition := None; fe_frameSize := None |}.

Definition pan : FrameEffect :=
  {| fe_id := "pan"; fe_s := 4; fe_e := 8;
     fe_props := {| fep_framePosition := None; fep_frameSize := (200, 100) |};
     fe_framePosition := None; fe_frameSize := None |}.

Definition framedImage : CanvasElement :=
  {| el_id := "image-1"; el_type := "image"; el_timelineType := None;
     el_s := None; el_props := box 0 0 800 600;
     el_frame := Some {| frame_size := (800, 600); frame_rotation := None;
                         frame_x := Some 0; frame_y := Some 0 |};
     el_frameEffects := Some [zoom; pan] |}.

Definition visualObject (id : option string) (type : string)
    (left top scaleX scaleY : Q) : FabricObject :=
  {| obj_id := id; obj_type := type; obj_left := left; obj_top := top;
     obj_width := 100; obj_height := 100;
     obj_scaleX := scaleX; obj_scaleY := scaleY; obj_angle := 0;
     obj_selectable := true; obj_evented := true |}.

Definition circleObject : FabricObject :=
  visualObject (Some "circle-1") "circle" 50 25 2 1.


(** The circle shrunk to 0.79 of its size; the factor is the double that
    [0.79] denotes. *)
Definition shrunkCircleObject : FabricObject :=
  visualObject (Some "circle-1") "circle" 50 25
    (Float64.round (79 # 100)) (Float64.round (79 # 100)).

Definition groupObject : FabricObject :=
  visualObject (Some "image-1") "group" 40 30 (3 # 2) 2.

(** An object of the surface that carries no identifier, such as the
    selection box of several objects. *)
Definition anonymousObject : FabricObject :=
  visualObject None "activeselection" 50 25 1 1.

Definition gesture (object : FabricObject) (a : string) (left top : Q)
    : MouseEvent :=
  {| target := Some object;
     transform := Some {| action := a;
                          original := {| pos_x := left; pos_y := top |} |} |}.

(** The hook after a build for a 1920x1080 video in a 960x540 container,
    with the given registry. *)
Definition hookWith (elements : gmap string CanvasElement)
    (effects : gmap string (option FrameEffect)) : Hook :=
  {| twickCanvas := Some {| objects := [circleObject; groupObject];
                            backgroundColor := "#101010" |};
     elementMap := elements;
     elementFrameMap := effects;
     videoSizeRef := hd1080;
     canvasResolutionRef := container;
     captionPropsRef := None;
     canvasMetadataRef := metadata |}.

Definition registry : gmap string CanvasElement :=
  <["circle-1" := circle10]> (<["image-1" := framedImage]> ∅).

(** The circle with a radius of 10.5. *)
Definition circle10half : CanvasElement :=
  element "circle-1" "circle"
    {| props_x := Some 100; props_y := Some 50; props_rotation := None;
       props_width := Some 21; props_height := Some 21;
       props_radius := Some (21 # 2);
       props_playbackRate := None; props_time := None |}.

Definition ready : Hook := hookWith registry ∅.

Definition readyWithZoom : Hook :=
  hookWith registry (<["image-1" := Some zoom]> ∅).

(** A video element whose playback rate is zero. *)
Definition stillVideo : CanvasElement :=
  element "video-1" "video"
    {| props_x := Some 0; props_y := Some 0; props_rotation := None;
       props_width := Some 1920; props_height := Some 1080;
       props_radius := None;
       props_playbackRate := Some 0; props_time := None |}.

(** A video element that starts at 1 s, plays at twice the speed, from
    0.5 s of its source. *)
Definition fastVideo : CanvasElement :=
  {| el_id := "video-2"; el_type := "video"; el_timelineType := Some "scene";
     el_s := Some 1;
     el_props :=
       {| props_x := Some 0; props_y := Some 0; props_rotation := None;
          props_width := Some 1920; props_height := Some 1080;
          props_radius := None;
          props_playbackRate := Some 2; props_time := Some (1 # 2) |};
     el_frame := None; el_frameEffects := None |}.

Definition audio : CanvasElement := element "audio-1" "audio" noProps.

Definition goodRect : CanvasElement := element "rect-1" "rect" (box 10 10 200 100).

(** A rectangle without [props.width]. *)
Definition malformedRect : CanvasElement :=
  element "rect-2" "rect"
    {| props_x := Some 10; props_y := Some 10; props_rotation := None;
       props_width := None; props_height := Some 100; props_radius := None;
       props_playbackRate := None; props_time := None |}.

Definition batch : list (option CanvasElement) :=
  [Some goodRect; Some malformedRect; Some circle10].

End Scenario.

(** The offset that the specification states for a video element: the rate is
    1 and the start and the time are 0 when absent. *)
Definition statedSnapTime (element : CanvasElement) (t : Q) : Q :=
  ((t - default 0%Q (el_s element))
     * default 1%Q (props_playbackRate (el_props element))
   + default 0%Q (props_time (el_props element)))%Q.

(** * The components around the hook *)

(** ** [Math] and number formatting *)

Module JSMath.

(** [Math.min(a, b)] and [Math.max(a, b)]. *)
Definition min (a b : Q) : Q := if Qle_bool a b then a else b.
Definition max (a b : Q) : Q := if Qle_bool a b then b else a.

(** [a < b] and [a > b]. *)
Definition lt (a b : Q) : bool := negb (Qle_bool b a).
Definition gt (a b : Q) : bool := negb (Qle_bool a b).

(** [Math.floor(q)]. *)
Definition floor (q : Q) : Z := Qfloor q.

(** [Math.round(q)]: the nearest integer, the larger one on a tie. *)
Definition round (q : Q) : Z := Qfloor (q + (1 # 2)).

(** The integer part of [q], towards zero. *)
Definition trunc (q : Q) : Z := if Qle_bool 0 q then Qfloor q else Qceiling q.

(** [a % b]: the remainder has the sign of the dividend. *)
Definition rem (a b : Q) : Q := (a - b * inject_Z (trunc (a / b)))%Q.

(** [n.toString()] for an integer [n]. *)
Definition toString (n : Z) : string := pretty n.

(** [targetLength - s.length] zeros. *)
Fixpoint zeros (n : nat) : string :=
  match n with
  | O => ""
  | S n' => "0" +:+ zeros n'
  end.

(** [s.padStart(targetLength, "0")]. *)
Definition padStart (targetLength : nat) (s : string) : string :=
  zeros (targetLength - String.length s) +:+ s.

End JSMath.

(** ** [LivePlayer] *)

Module LivePlayer.

Definition DEFAULT_VIDEO_SIZE : Dimensions :=
  {| dim_width := 720; dim_height := 1280 |}.

(** [videoSize?.width || baseProject.input?.properties?.width ||
    DEFAULT_VIDEO_SIZE.width]; the width of the base project, built by
    [getBaseProject] of [helpers/player.utils], is an input. *)
Definition intrinsicWidth (videoSize : option Dimensions) (baseWidth : option Q) : Q :=
  JS.orElse (dim_width <$> videoSize)
    (JS.orElse baseWidth (dim_width DEFAULT_VIDEO_SIZE)).

Definition intrinsicHeight (videoSize : option Dimensions) (baseHeight : option Q) : Q :=
  JS.orElse (dim_height <$> videoSize)
    (JS.orElse baseHeight (dim_height DEFAULT_VIDEO_SIZE)).

(** The factor that scales the player up or down to the container; 1 until
    the container has been measured with a positive size. *)
Definition scale (containerSize : option Dimensions) (intrinsicWidth intrinsicHeight : Q)
    : Q :=
  match containerSize with
  | Some c =>
      if JSMath.gt (dim_width c) 0 && JSMath.gt (dim_height c) 0
      then JSMath.min (dim_width c / intrinsicWidth) (dim_height c / intrinsicHeight)
      else 1%Q
  | None => 1%Q
  end.

Definition renderWidth (containerSize : option Dimensions)
    (intrinsicWidth intrinsicHeight : Q) : Z :=
  JSMath.round (intrinsicWidth * scale containerSize intrinsicWidth intrinsicHeight).

Definition renderHeight (containerSize : option Dimensions)
    (intrinsicWidth intrinsicHeight : Q) : Z :=
  JSMath.round (intrinsicHeight * scale containerSize intrinsicWidth intrinsicHeight).

(** The player of [@twick/core], an opaque handle. *)
Definition CorePlayer : Type := nat.

(** [playerRef.current] and [isFirstRender.current]; [htmlElement] is
    whether the [twick-player] element was found. *)
Record Refs := {
  ref_id : string;
  ref_player : option CorePlayer;
  ref_htmlElement : bool;
  ref_isFirstRender : bool
}.

(** The props that the handlers read: the project data (absent when
    null) and whether [onPlayerReady] was given. *)
Record Props := {
  projectData : option string;
  onPlayerReady : bool
}.

Inductive Effect :=
| hideControls                       (* the sibling of the player gets [display: none] *)
| consoleLog (message : string)
| setVariables (projectData playerId : string)
| playerReady (player : CorePlayer).

(** [setProjectData(projectData)]. *)
Definition setProjectData (r : Refs) (projectData : option string) : list Effect :=
  match projectData with
  | Some data =>
      if ref_htmlElement r
      then [consoleLog "setProjectData in live player"; setVariables data (ref_id r)]
      else []
  | None => []
  end.

(** [onFirstRender()]. *)
Definition onFirstRender (p : Props) (r : Refs) : list Effect :=
  if bool_decide (is_Some (ref_player r)) && ref_htmlElement r
  then hideControls :: setProjectData r (projectData p)
  else [].

(** [handlePlayerReady(player)], where [found] tells whether
    [querySelector("twick-player")] finds the element. *)
Definition handlePlayerReady (p : Props) (player : CorePlayer) (found : bool)
    (r : Refs) : Refs * list Effect :=
  let r1 := {| ref_id := ref_id r; ref_player := Some player;
               ref_htmlElement := found;
               ref_isFirstRender := ref_isFirstRender r |} in
  if negb (ref_isFirstRender r1) then
    ({| ref_id := ref_id r1; ref_player := ref_player r1;
        ref_htmlElement := ref_htmlElement r1; ref_isFirstRender := true |},
     onFirstRender p r1 ++ (if onPlayerReady p then [playerReady player] else []))
  else (r1, []).

(** The player reports that it is ready, once per entry of the list. *)
Fixpoint readyAll (p : Props) (ready : list (CorePlayer * bool)) (r : Refs)
    : Refs * list Effect :=
  match ready with
  | [] => (r, [])
  | (player, found) :: rest =>
      let '(r1, l1) := handlePlayerReady p player found r in
      let '(r2, l2) := readyAll p rest r1 in
      (r2, l1 ++ l2)
  end.

(** The refs when the component is mounted. *)
Definition mounted (id : string) : Refs :=
  {| ref_id := id; ref_player := None; ref_htmlElement := false;
     ref_isFirstRender := false |}.

End LivePlayer.

(** ** [ControlManager] *)

(** [TimelineZoomConfig], with the fields that the controls read. *)
Record TimelineZoomConfig := {
  zoom_min : Q;
  zoom_max : Q;
  zoom_step : Q
}.

Module ControlManager.

(** [computeFitZoom()]: [totalDuration] is absent when it is not finite;
    [scrollWidth] and [headerWidth] are the measures of the two DOM
    elements, absent when [querySelector] finds none. *)
Definition computeFitZoom (zoomConfig : TimelineZoomConfig)
    (totalDuration : option Q) (scrollWidth headerWidth : option Q) : option Q :=
  match totalDuration with
  | None => None
  | Some duration =>
      if Qle_bool duration 0 then None
      else
        let availableWidth := default 0%Q scrollWidth in
        let headerWidth := default 0%Q headerWidth in
        let desiredWidth := JSMath.max 0 (availableWidth - headerWidth) in
        if Qle_bool desiredWidth 0 then None
        else
          let basePxPerSecond := 100%Q in
          let rawZoom := (desiredWidth / (basePxPerSecond * duration))%Q in
          Some (JSMath.min (zoom_max zoomConfig)
                  (JSMath.max (zoom_min zoomConfig) rawZoom))
  end.

(** The state of the component ([fitMode], [fitZoom]) and the zoom of the
    track, which it sets through [setTrackZoom]. *)
Record State := {
  fitMode : bool;
  fitZoom : option Q;
  trackZoom : Q
}.

(** [handleToggleFit()], with the fit that [computeFitZoom] gives at that
    moment. *)
Definition handleToggleFit (fit : option Q) (s : State) : State :=
  let next := negb (fitMode s) in
  if next then
    match fit with
    | Some z => {| fitMode := next; fitZoom := Some z; trackZoom := z |}
    | None => {| fitMode := next; fitZoom := fitZoom s; trackZoom := trackZoom s |}
    end
  else {| fitMode := next; fitZoom := None; trackZoom := trackZoom s |}.

(** [actualZoom={fitZoom ?? trackZoom}]. *)
Definition actualZoom (s : State) : Q := default (trackZoom s) (fitZoom s).

End ControlManager.

(** ** [PlayerControls] *)

Module PlayerControls.

(** [formatTime(time)]. *)
Definition formatTime (time : Q) : string :=
  let minutes := JSMath.floor (time / 60) in
  let seconds := JSMath.floor (JSMath.rem time 60) in
  JSMath.padStart 2 (JSMath.toString minutes) +:+ ":"
    +:+ JSMath.padStart 2 (JSMath.toString seconds).

(** [handleZoomIn()] and [handleZoomOut()]: the argument of the call to
    [setZoomLevel], if the call is made. *)
Definition handleZoomIn (zoomConfig : TimelineZoomConfig) (setZoomLevel : bool)
    (zoomLevel : Q) : option Q :=
  if setZoomLevel && JSMath.lt zoomLevel (zoom_max zoomConfig)
  then Some (zoomLevel + zoom_step zoomConfig)%Q
  else None.

Definition handleZoomOut (zoomConfig : TimelineZoomConfig) (setZoomLevel : bool)
    (zoomLevel : Q) : option Q :=
  if setZoomLevel && JSMath.gt zoomLevel (zoom_min zoomConfig)
  then Some (zoomLevel - zoom_step zoomConfig)%Q
  else None.

(** The [disabled] attribute of the two zoom buttons. *)
Definition zoomInDisabled (zoomConfig : TimelineZoomConfig) (fitMode : bool)
    (zoomLevel : Q) : bool :=
  fitMode || Qle_bool (zoom_max zoomConfig) zoomLevel.

Definition zoomOutDisabled (zoomConfig : TimelineZoomConfig) (fitMode : bool)
    (zoomLevel : Q) : bool :=
  fitMode || Qle_bool zoomLevel (zoom_min zoomConfig).

Inductive ZoomClick := ZoomIn | ZoomOut.

(** The zoom level after a click, when the owner stores what
    [setZoomLevel] receives and passes it back as [zoomLevel]. *)
Definition afterClick (zoomConfig : TimelineZoomConfig) (zoomLevel : Q)
    (click : ZoomClick) : Q :=
  default zoomLevel
    match click with
    | ZoomIn => handleZoomIn zoomConfig true zoomLevel
    | ZoomOut => handleZoomOut zoomConfig true zoomLevel
    end.

Definition afterClicks (zoomConfig : TimelineZoomConfig) (zoomLevel : Q)
    (clicks : list ZoomClick) : Q :=
  foldl (afterClick zoomConfig) zoomLevel clicks.

End PlayerControls.

(** ** [PlayerManager] *)

(** Modelled from the spec: [PLAYER_STATE] of [@twick/live-player] is not
    among the sources; its three members are the ones the components name. *)
Inductive PLAYER_STATE := PLAYING | PAUSED | REFRESH.

Module PlayerManager.

(** The calls that [handleTimeUpdate] makes on the player context. *)
Inductive ContextCall :=
| setCurrentTime (time : Q)
| setPlayerState (state : PLAYER_STATE).

(** [handleTimeUpdate(time)], with [durationRef.current]. *)
Definition handleTimeUpdate (duration : Q) (time : Q) : list ContextCall :=
  if negb (Qeq_bool duration 0) && Qle_bool duration time
  then [setCurrentTime 0; setPlayerState PAUSED]
  else [setCurrentTime time].

(** The [opacity] of the container of the live player. *)
Definition playerOpacity (canvasMode : bool) (playerState : PLAYER_STATE) : Q :=
  if canvasMode
  then (match playerState with PAUSED => 0 | _ => 1 end)%Q
  else 1%Q.

(** The [opacity] of the container of the canvas, which is rendered in
    canvas mode only. *)
Definition canvasOpacity (canvasMode : bool) (playerState : PLAYER_STATE) : option Q :=
  if canvasMode
  then Some (match playerState with PAUSED => 1 | _ => 0 end)%Q
  else None.

(** The effect on [twickCanvas], [playerState], [seekTime], [changeLog]:
    whether [updateCanvas(seekTime)] is called. *)
Definition updatesCanvas (hasCanvas : bool) (playerState : PLAYER_STATE) : bool :=
  hasCanvas && match playerState with PAUSED => true | _ => false end.

End PlayerManager.

(** ** The vocabulary of the further properties *)

(** The identifiers of the elements of a list. *)
Definition entryIds (elements : list (option CanvasElement)) : gset string :=
  list_to_set (el_id <$> omap id elements).

(** [h'] has the canvas, the keys of [h] in both registries and no other new
    key than those of [ids], and the metadata, the sizes and the caption
    props of [h]. *)
Definition extendsRegistry (ids : gset string) (h h' : Hook) : Prop :=
  is_Some (twickCanvas h')
  /\ dom (elementMap h) ⊆ dom (elementMap h')
  /\ dom (elementMap h') ⊆ dom (elementMap h) ∪ ids
  /\ dom (elementFrameMap h) ⊆ dom (elementFrameMap h')
  /\ dom (elementFrameMap h') ⊆ dom (elementFrameMap h) ∪ ids
  /\ canvasMetadataRef h' = canvasMetadataRef h
  /\ videoSizeRef h' = videoSizeRef h
  /\ canvasResolutionRef h' = canvasResolutionRef h
  /\ captionPropsRef h' = captionPropsRef h.

(** ** The vocabulary of a rebuild *)

Section RebuildVocabulary.

Context `{CanvasUtil}.

(** The helper calls of a log, in the order in which they were made. *)
Definition callsOf (log : list Event) : list ElementCall :=
  omap (fun e => match e with evElement c => Some c | _ => None end) log.

(** The canvas after the helpers of [calls] have worked on it in turn. *)
Definition applyCalls (calls : list ElementCall) (canvas : FabricCanvas)
    : FabricCanvas :=
  foldl (fun cv c => (runElementCall c cv).2) canvas calls.

(** Whether the helper called by [c] fulfils on [canvas]. *)
Definition fulfilled (c : ElementCall) (canvas : FabricCanvas) : bool :=
  match (runElementCall c canvas).1 with
  | Returned _ => true
  | Thrown _ => false
  end.

(** The message of the [catch] of the callback of [element]. *)
Definition errorFor (element : CanvasElement) : Event :=
  evConsole ERROR ("Error adding element " +:+ el_id element +:+ ":").

(** The canvas that the projections of [setCanvasElements] start from: the
    canvas of the hook, emptied when [cleanAndAdd] is set, with its
    background colour put back when it had one. *)
Definition cleanedCanvas (cleanAndAdd : option bool) (canvas : FabricCanvas)
    : FabricCanvas :=
  if default false cleanAndAdd then
    if JS.truthy (backgroundColor canvas)
    then {| objects := objects (clearCanvas canvas);
            backgroundColor := backgroundColor canvas |}
    else clearCanvas canvas
  else canvas.

(** The call at position [k] of [settled] was rejected, on the canvas that
    the calls before it had left. *)
Definition rejectedAt (start : FabricCanvas) (settled : list ElementCall)
    (k : nat) (c : ElementCall) : Prop :=
  settled !! k = Some c
  /\ fulfilled c (applyCalls (take k settled) start) = false.

(** The calls that the callbacks are waiting for. *)
Definition pendingCall (t : Task) : list ElementCall :=
  match t with
  | awaiting _ c _ => [c]
  | _ => []
  end.

Definition pendingCalls (tasks : list Task) : list ElementCall :=
  tasks ≫= pendingCall.

(** A bound on the turns that a callback still takes. *)
Definition stepsLeft (t : Task) : nat :=
  match t with
  | awaiting _ _ next => 2 + length next
  | rejected _ => 1
  | finished => 0
  end.

(** The identifier of [el] is registered to an element of the list that
    has this identifier. *)
Definition registered (entries : list (option CanvasElement)) (h : Hook)
    (el : CanvasElement) : Prop :=
  exists el', elementMap h !! el_id el = Some el'
              /\ el_id el' = el_id el /\ Some el' ∈ entries.

(** What the state of a callback says of its entry. *)
Definition taskInv (entries : list (option CanvasElement)) (start : FabricCanvas)
    (b : Batch) (entry : option CanvasElement) (t : Task) : Prop :=
  match entry, t with
  | None, finished => True
  | None, _ => False
  | Some el, awaiting el' c next =>
      el' = el /\ Forall (fun c => callElement c = el) (c :: next)
  | Some el, rejected el' =>
      el' = el
      /\ exists k c, rejectedAt start (b_settled b) k c /\ callElement c = el
  | Some el, finished =>
      registered entries (b_hook b) el \/ errorFor el ∈ b_log b
  end.

(** The invariant of the callbacks of a rebuild of [entries] that started
    from the refs [h0] with the canvas [start]. *)
Definition batchInv (entries : list (option CanvasElement)) (h0 : Hook)
    (start : FabricCanvas) (b : Batch) : Prop :=
  twickCanvas (b_hook b) = Some (applyCalls (b_settled b) start)
  /\ extendsRegistry (entryIds entries) h0 (b_hook b)
  /\ callsOf (b_log b) ≡ₚ b_settled b ++ pendingCalls (b_tasks b)
  /\ (evReorder ∉ b_log b)
  /\ (forall i t, b_tasks b !! i = Some t ->
        exists entry, entries !! i = Some entry
                      /\ taskInv entries start b entry t)
  /\ (forall k c, rejectedAt start (b_settled b) k c ->
        errorFor (callElement c) ∈ b_log b
        \/ rejected (callElement c) ∈ b_tasks b)
  /\ (forall message, evConsole ERROR message ∈ b_log b ->
        exists k c, rejectedAt start (b_settled b) k c
                    /\ evConsole ERROR message = errorFor (callElement c)).

End RebuildVocabulary.

(** ** Concrete scenarios of the further properties *)

Module ExtraScenario.

Import Sample Scenario.

Local Open Scope Q_scope.

Definition caption1 : CanvasElement := element "caption-1" "caption" (box 0 800 600 80).
Definition text1 : CanvasElement := element "text-1" "text" (box 10 20 300 40).

Definition sceneImage : CanvasElement :=
  {| el_id := "image-2"; el_type := "image"; el_timelineType := Some "scene";
     el_s := None; el_props := box 0 0 1920 1080;
     el_frame := None; el_frameEffects := None |}.

Definition captionObject : FabricObject :=
  visualObject (Some "caption-1") "textbox" 480 450 2 2.
Definition textObject : FabricObject :=
  visualObject (Some "text-1") "text" 30 40 2 3.
Definition rectObject : FabricObject :=
  visualObject (Some "rect-1") "rect" 20 20 2 3.
Definition ghostObject : FabricObject :=
  visualObject (Some "ghost") "rect" 20 20 1 1.

Definition applyToAll : CaptionProps :=
  {| cap_applyToAll := true; cap_x := Some 0; cap_y := Some 700 |}.

Definition fullRegistry : gmap string CanvasElement :=
  <["caption-1" := caption1]>
    (<["text-1" := text1]> (<["rect-1" := goodRect]> registry)).

(** The ready hook with the five elements registered and the given caption
    props. *)
Definition stage (captionProps : option CaptionProps) : Hook :=
  setCaptionProps captionProps (hookWith fullRegistry ∅).

Definition stageCanvas : FabricCanvas :=
  {| objects := [circleObject; groupObject]; backgroundColor := "#101010" |}.

Definition moved (object : FabricObject) (a : string) : MouseEvent :=
  gesture object a 0 0.

Definition movedTransform (a : string) : Transform :=
  {| action := a; original := {| pos_x := 0; pos_y := 0 |} |}.

Definition zoomConfig : TimelineZoomConfig :=
  {| zoom_min := 1 # 10; zoom_max := 3; zoom_step := 1 # 4 |}.

Definition manual : ControlManager.State :=
  {| ControlManager.fitMode := false; ControlManager.fitZoom := None;
     ControlManager.trackZoom := 3 # 2 |}.

End ExtraScenario.

(** ** Tactics *)

Ltac hook_step :=
  unfold mbind, mret, M_bind, M_ret, bind, ret, get, modify, emit, throw,
    when, onCanvasOperation, storeElement, lookupElement in *;
  cbn [elementMap elementFrameMap twickCanvas captionPropsRef
       canvasMetadataRef videoSizeRef canvasResolutionRef
       setElementMap setElementFrameMap setTwickCanvas setVideoSize
       setCanvasResolution setCaptionProps setCanvasMetadata
       app fst snd] in *.

Ltac hook_simpl := repeat (progress hook_step).

(** Decides the comparisons of two string literals in the goal. *)
Ltac decide_literals :=
  repeat match goal with
  | |- context [bool_decide (?a = ?b)] =>
      let v := eval vm_compute in (bool_decide (a = b)) in
      match v with
      | true => change (bool_decide (a = b)) with true
      | false => change (bool_decide (a = b)) with false
      end
  end; cbn iota.

Ltac unfold_types :=
  unfold ELEMENT_TYPES.VIDEO, ELEMENT_TYPES.IMAGE, ELEMENT_TYPES.RECT,
    ELEMENT_TYPES.CIRCLE, ELEMENT_TYPES.TEXT, ELEMENT_TYPES.CAPTION in *.

Ltac destruct_helpers :=
  repeat match goal with
  | |- context [runElementCall ?c ?cv] =>
      let r := fresh "r" in
      let cv' := fresh "canvas" in
      destruct (runElementCall c cv) as [[[]|r] cv']; hook_simpl
  end.

(** ** Rounding to two decimals *)

Section Rounding.

Local Open Scope Q_scope.

Lemma hundredth_as_product (n : Z) : n # 100 == inject_Z n * (1 # 100).
Proof. rewrite Qmake_Qdiv. field. Qed.



(** [toFixed2 q] is a whole number of hundredths. *)
Lemma toFixed2_hundredths (q : Q) : exists n : Z, JS.toFixed2 q == n # 100.
Proof.
  unfold JS.toFixed2. destruct (Qle_bool 0 q).
  - eexists. reflexivity.
  - exists (- JS.nearestHundredth (- q))%Z. reflexivity.
Qed.


End Rounding.

(** ** Gestures: [handleMouseUp] *)

Section Gestures.

Context `{CanvasUtil}.



(** C4: a drag that ends where it started emits one [ITEM_SELECTED] with
    the registered snapshot of the object's identifier, no update, and
    leaves every ref of the hook as it was. *)
Theorem click_emits_selection_only (h : Hook) (event : MouseEvent)
    (object : FabricObject) (t : Transform) :
  target event = Some object ->
  transform event = Some t ->
  action t = "drag" ->
  (obj_left object == pos_x (original t))%Q ->
  (obj_top object == pos_y (original t))%Q ->
  handleMouseUp event h =
    (Returned tt, h,
     [evOperation ITEM_SELECTED
        (dataElement (elementMap h !! JS.key (obj_id object)))]).
Proof.
  intros Htarget Ht Hdrag Hleft Htop.
  unfold handleMouseUp, isClick. rewrite Htarget, Ht.
  rewrite bool_decide_eq_true_2 by exact Hdrag.
  unfold JS.strictEq.
  apply Qeq_bool_iff in Hleft, Htop. rewrite Hleft, Htop.
  reflexivity.
Qed.


(** C6: a gesture on a grouped object updates the position and size of the
    active frame effect and leaves the frame of the element alone; without
    an active frame effect it updates the frame of the element (position,
    rotation, size). *)
Theorem group_gesture_patch (h : Hook) (event : MouseEvent)
    (object : FabricObject) (t : Transform) (el : CanvasElement) :
  target event = Some object ->
  transform event = Some t ->
  action t ∈ handledActions ->
  isClick event object = false ->
  obj_type object = "group" ->
  elementMap h !! JS.key (obj_id object) = Some el ->
  el_type el ≠ "caption" ->
  groupGestureOutcome h event object el.
Proof.
  intros Htarget Ht Hact Hclick Htype Hel Hkind.
  unfold groupGestureOutcome, handleMouseUp.
  rewrite Htarget, Hclick, Ht.
  rewrite bool_decide_eq_true_2 by exact Hact.
  unfold reconcile. hook_simpl. rewrite Hel. hook_simpl.
  rewrite (bool_decide_eq_false_2 _ Hkind), Htype.
  decide_literals. unfold groupPatch. hook_simpl.
  destruct (mjoin (elementFrameMap h !! JS.key (obj_id object)))
    as [current|] eqn:Hcurrent.
  - hook_simpl. rewrite lookup_insert_eq.
    eexists. repeat split.
    + apply lookup_insert_eq.
    + eexists. split; [reflexivity |]. split.
      * apply length_fmap.
      * intros i e Hi. rewrite list_lookup_fmap, Hi.
        eexists. split; [reflexivity |].
        unfold retargeted, retargetFrameEffect, scaledSize.
        destruct (bool_decide (fe_id e = fe_id current)); auto.
  - destruct (el_frame el) as [frame|] eqn:Hframe.
    + hook_simpl. rewrite lookup_insert_eq.
      eexists. repeat split. apply lookup_insert_eq.
    + hook_simpl. split; reflexivity.
Qed.

(** C5, as the handler has it: an event without a target, or without one
    of the five transforms, is ignored silently. *)
Theorem event_without_target_or_gesture_ignored (h : Hook) (event : MouseEvent) :
  target event = None
  \/ (forall t : Transform, transform event = Some t -> action t ∉ handledActions) ->
  ignoredSilently h event.
Proof.
  unfold ignoredSilently, handleMouseUp.
  intros [Hnone | Hunhandled].
  - rewrite Hnone. reflexivity.
  - destruct (target event) as [object|]; [| reflexivity].
    unfold isClick.
    destruct (transform event) as [t|]; [| reflexivity].
    specialize (Hunhandled t eq_refl).
    assert (action t ≠ "drag") as Hnodrag.
    { intros Hdrag. apply Hunhandled. rewrite Hdrag.
      unfold handledActions. constructor. }
    rewrite (bool_decide_eq_false_2 _ Hnodrag).
    rewrite (bool_decide_eq_false_2 _ Hunhandled). reflexivity.
Qed.

End Gestures.

(** ** Equations of the monad *)

Section Runs.

Context `{CanvasUtil}.

Lemma get_bind {B} (f : Hook -> M B) (h : Hook) : (get ≫= f) h = f h h.
Proof.
  unfold mbind, M_bind, bind, get.
  destruct (f h h) as [[r h2] l2]. reflexivity.
Qed.

Lemma modify_bind {B} (g : Hook -> Hook) (f : unit -> M B) (h : Hook) :
  (modify g ≫= f) h = f tt (g h).
Proof.
  unfold mbind, M_bind, bind, modify.
  destruct (f tt (g h)) as [[r h2] l2]. reflexivity.
Qed.

Lemma ret_bind {A B} (a : A) (f : A -> M B) (h : Hook) : (mret a ≫= f) h = f a h.
Proof.
  unfold mbind, mret, M_bind, M_ret, bind, ret.
  destruct (f a h) as [[r h2] l2]. reflexivity.
Qed.

Lemma bind_returned {A B} (m : M A) (f : A -> M B) (h h1 : Hook) (a : A)
    (l1 : list Event) :
  m h = (Returned a, h1, l1) ->
  (m ≫= f) h = (resultOf (f a h1), hookOf (f a h1), l1 ++ logOf (f a h1)).
Proof.
  intros Hm. unfold mbind, M_bind, bind, resultOf, hookOf, logOf.
  rewrite Hm. destruct (f a h1) as [[r h2] l2]. reflexivity.
Qed.

Lemma bind_thrown {A B} (m : M A) (f : A -> M B) (h h1 : Hook) (e : JsError)
    (l1 : list Event) :
  m h = (Thrown e, h1, l1) -> (m ≫= f) h = (Thrown e, h1, l1).
Proof.
  intros Hm. unfold mbind, M_bind, bind. rewrite Hm. reflexivity.
Qed.

(** The log of [m] opens the log of [m] followed by anything. *)
Lemma bind_log_prefix {A B} (m : M A) (f : A -> M B) (h : Hook) :
  exists rest : list Event, logOf ((m ≫= f) h) = logOf (m h) ++ rest.
Proof.
  unfold mbind, M_bind, bind, logOf.
  destruct (m h) as [[[a|e] h1] l1]; cbn [snd].
  - destruct (f a h1) as [[r h2] l2]. cbn [snd]. eauto.
  - exists []. symmetry. apply app_nil_r.
Qed.

Lemma callElementHelper_log (c : ElementCall) (h : Hook) (canvas : FabricCanvas) :
  twickCanvas h = Some canvas -> logOf (callElementHelper c h) = [evElement c].
Proof.
  intros Hcanvas. unfold callElementHelper. rewrite Hcanvas.
  destruct (runElementCall c canvas) as [r canvas']. reflexivity.
Qed.

End Runs.

(** ** Projection: [addElementToCanvas] *)

Section Projection.

Context `{CanvasUtil}.

Local Open Scope Q_scope.

(** [a || d] is [a] when [a] is a number other than zero. *)
Lemma orElse_zero (a : option Q) : JS.orElse a 0 == default 0 a.
Proof.
  destruct a as [q|]; cbn; [| reflexivity].
  destruct (Qeq_bool q 0) eqn:Hq; [| reflexivity].
  apply Qeq_bool_iff in Hq. symmetry. exact Hq.
Qed.

Lemma rateOr1_cases (element : CanvasElement) :
  match props_playbackRate (el_props element) with
  | None => rateOr1 element = 1
  | Some r => (r == 0 -> rateOr1 element = 1) /\ (~ r == 0 -> rateOr1 element = r)
  end.
Proof.
  unfold rateOr1. destruct (props_playbackRate (el_props element)) as [r|]; cbn.
  - destruct (Qeq_bool r 0) eqn:Hr.
    + apply Qeq_bool_iff in Hr. tauto.
    + apply Qeq_bool_neq in Hr. tauto.
  - reflexivity.
Qed.

Lemma snapTimeOf_formula (element : CanvasElement) (t : Q) :
  snapTimeOf element (Some t)
  == (t - default 0 (el_s element)) * rateOr1 element
     + default 0 (props_time (el_props element)).
Proof.
  unfold snapTimeOf, rateOr1.
  rewrite (orElse_zero (Some t)), (orElse_zero (el_s element)),
    (orElse_zero (props_time (el_props element))).
  reflexivity.
Qed.

(** C9, as the hook has it: the first call that projecting a video element
    makes is [addVideoElement], and the [snapTime] it passes is
    [(t - start) * rate + time], where an absent [start] or [time] counts
    as 0 and the rate is 1 when [playbackRate] is absent or zero. *)
Theorem video_snapTime_forwarded (h : Hook) (canvas : FabricCanvas)
    (element : CanvasElement) (index : nat) (reorder : bool) (t : Q)
    (captionProps : option CaptionProps) :
  twickCanvas h = Some canvas ->
  el_type element = ELEMENT_TYPES.VIDEO ->
  exists (effect : option FrameEffect) (snapTime : Q) (rest : list Event),
    logOf (addElementToCanvas element index reorder (Some t) captionProps h)
      = evElement (addVideoElement element index (canvasMetadataRef h)
                     effect snapTime) :: rest
    /\ snapTime == (t - default 0 (el_s element)) * rateOr1 element
                   + default 0 (props_time (el_props element))
    /\ match props_playbackRate (el_props element) with
       | None => rateOr1 element = 1
       | Some r => (r == 0 -> rateOr1 element = 1)
                   /\ (~ r == 0 -> rateOr1 element = r)
       end.
Proof.
  intros Hcanvas Htype.
  exists (getCurrentFrameEffect element (JS.orElse (Some t) 0)).
  exists (snapTimeOf element (Some t)).
  unfold addElementToCanvas. rewrite get_bind, Hcanvas.
  destruct (bind_log_prefix
              (projectByType element index (Some t) captionProps)
              (fun _ => storeElement (el_id element) element;;
                        when reorder callReorder) h) as [rest1 ->].
  unfold projectByType. rewrite get_bind, Htype. decide_literals.
  rewrite modify_bind.
  match goal with
  | |- context [logOf ((?m ≫= ?f) ?h')] =>
      destruct (bind_log_prefix m f h') as [rest2 ->]
  end.
  rewrite (callElementHelper_log _ _ canvas) by exact Hcanvas.
  eexists. split; [reflexivity |].
  split; [apply snapTimeOf_formula | apply rateOr1_cases].
Qed.

(** An element of none of the cases of the [switch] is projected by no
    helper. *)
Lemma projectByType_default (h : Hook) (element : CanvasElement) (index : nat)
    (seekTime : option Q) (captionProps : option CaptionProps) :
  el_type element ∉ ["video"; "image"; "rect"; "circle"; "text"; "caption"] ->
  projectByType element index seekTime captionProps h = (Returned tt, h, []).
Proof.
  intros Hkind. rewrite !not_elem_of_cons in Hkind.
  destruct Hkind as (Hv & Hi & Hr & Hc & Ht & Hcap & _).
  unfold projectByType. rewrite get_bind. unfold_types.
  rewrite !bool_decide_eq_false_2 by assumption. reflexivity.
Qed.

(** C10: projecting an element of an unrecognised kind calls no element
    helper, records the element under its identifier, and requests the
    reorder exactly when [reorder] is set. *)
Theorem unknown_kind_is_registered_only (h : Hook) (canvas : FabricCanvas)
    (element : CanvasElement) (index : nat) (reorder : bool)
    (seekTime : option Q) (captionProps : option CaptionProps) :
  twickCanvas h = Some canvas ->
  el_type element ∉ recognizedKinds ->
  let run := addElementToCanvas element index reorder seekTime captionProps h in
  resultOf run = Returned tt
  /\ logOf run = (if reorder then [evReorder] else [])
  /\ (forall c : ElementCall, evElement c ∉ logOf run)
  /\ elementMap (hookOf run) = <[el_id element := element]> (elementMap h)
  /\ elementMap (hookOf run) !! el_id element = Some element
  /\ elementFrameMap (hookOf run) = elementFrameMap h
  /\ twickCanvas (hookOf run)
     = Some (if reorder then reorderElementsByZIndex canvas else canvas).
Proof.
  intros Hcanvas Hkind run. subst run.
  assert (el_type element ∉ ["video"; "image"; "rect"; "circle"; "text"; "caption"])
    as Hsix.
  { intros Hin. apply Hkind. unfold recognizedKinds.
    rewrite !elem_of_cons in Hin. rewrite !elem_of_cons. tauto. }
  unfold addElementToCanvas. rewrite get_bind, Hcanvas.
  rewrite (bind_returned _ _ _ _ _ _ (projectByType_default _ _ _ _ _ Hsix)).
  unfold callReorder. hook_simpl.
  destruct reorder; cbn [resultOf logOf hookOf fst snd elementMap
    elementFrameMap twickCanvas setTwickCanvas setElementMap app];
    rewrite ?Hcanvas, ?lookup_insert_eq.
  all: (repeat split; try reflexivity).
  all: intros c Hc; rewrite ?elem_of_cons, ?elem_of_nil in Hc;
    intuition discriminate.
Qed.

End Projection.

(** ** Rebuilds: [setCanvasElements] *)

Set Warnings "-clear-no-such-hyp".

Section Rebuild.

Context `{CanvasUtil}.

(** The helpers awaited for an element are called for it at its index;
    there are at most two of them, and at least one when the kind has a
    case in the [switch]. *)
Lemma awaitedHelpers_calls (m : CanvasMetadata) (el : CanvasElement) (index : nat)
    (seekTime : option Q) (captionProps : option CaptionProps) :
  let calls := awaitedHelpers m el index seekTime captionProps in
  Forall (fun c => callElement c = el /\ callIndex c = index) calls
  /\ (length calls <= 2)%nat
  /\ (el_type el ∈ projectedKinds -> calls ≠ []).
Proof.
  unfold awaitedHelpers.
  repeat case_bool_decide; cbn [length]; (split; [| split]);
    try (repeat constructor); try lia; try discriminate.
  intros Hin. exfalso. unfold projectedKinds in Hin.
  rewrite !elem_of_cons, elem_of_nil in Hin. intuition congruence.
Qed.

Lemma applyCalls_snoc (calls : list ElementCall) (c : ElementCall)
    (canvas : FabricCanvas) :
  applyCalls (calls ++ [c]) canvas = (runElementCall c (applyCalls calls canvas)).2.
Proof. unfold applyCalls. rewrite foldl_app. reflexivity. Qed.

Lemma callsOf_snoc_call (log : list Event) (c : ElementCall) :
  callsOf (log ++ [evElement c]) = callsOf log ++ [c].
Proof. unfold callsOf. rewrite omap_app. reflexivity. Qed.

Lemma callsOf_snoc_console (log : list Event) (level : ConsoleLevel)
    (message : string) :
  callsOf (log ++ [evConsole level message]) = callsOf log.
Proof. unfold callsOf. rewrite omap_app. cbn. apply app_nil_r. Qed.

Lemma pendingCalls_snoc (tasks : list Task) (t : Task) :
  pendingCalls (tasks ++ [t]) = pendingCalls tasks ++ pendingCall t.
Proof.
  unfold pendingCalls. rewrite bind_app. cbn. rewrite app_nil_r. reflexivity.
Qed.

(** Replacing the state of one callback replaces what it waits for. *)
Lemma pendingCalls_insert (tasks : list Task) (i : nat) (t t' : Task) :
  tasks !! i = Some t ->
  pendingCalls (<[i := t']> tasks) ++ pendingCall t
  ≡ₚ pendingCalls tasks ++ pendingCall t'.
Proof.
  intros Hi. pose proof (lookup_lt_Some _ _ _ Hi) as Hlt.
  rewrite (insert_take_drop _ _ _ Hlt).
  rewrite <- (take_drop_middle _ _ _ Hi) at 3.
  unfold pendingCalls. rewrite !bind_app, !bind_cons.
  set (a := take i tasks ≫= pendingCall).
  set (d := drop (S i) tasks ≫= pendingCall).
  rewrite <- !app_assoc.
  apply Permutation_app_head.
  rewrite (Permutation_app_comm (pendingCall t') (d ++ pendingCall t)).
  rewrite <- !app_assoc.
  rewrite (Permutation_app_comm (pendingCall t) (d ++ pendingCall t')).
  rewrite <- !app_assoc.
  apply Permutation_app_head, Permutation_app_comm.
Qed.

Lemma entry_id_listed (entries : list (option CanvasElement)) (el : CanvasElement) :
  Some el ∈ entries -> el_id el ∈ entryIds entries.
Proof.
  intros Hin. unfold entryIds. rewrite elem_of_list_to_set, list_elem_of_fmap.
  exists el. split; [reflexivity |]. rewrite list_elem_of_omap.
  exists (Some el). auto.
Qed.

Lemma extendsRegistry_canvas (ids : gset string) (h0 h : Hook) (c : FabricCanvas) :
  extendsRegistry ids h0 h -> extendsRegistry ids h0 (setTwickCanvas (Some c) h).
Proof.
  unfold extendsRegistry. intros (_ & Hrest). split; [cbn; eauto | exact Hrest].
Qed.

Lemma extendsRegistry_store (ids : gset string) (h0 h : Hook) (el : CanvasElement) :
  el_id el ∈ ids ->
  extendsRegistry ids h0 h ->
  extendsRegistry ids h0 (setElementMap (<[el_id el := el]> (elementMap h)) h).
Proof.
  unfold extendsRegistry.
  intros Hid (Hready & Ha & Hb & Hc & Hd & Hmeta & Hvideo & Hres & Hcap).
  cbn [twickCanvas elementMap elementFrameMap canvasMetadataRef videoSizeRef
       canvasResolutionRef captionPropsRef setElementMap].
  rewrite dom_insert_L. repeat split; auto; set_solver.
Qed.

Lemma extendsRegistry_frame (ids : gset string) (h0 h : Hook) (id : string)
    (fe : option FrameEffect) :
  id ∈ ids ->
  extendsRegistry ids h0 h ->
  extendsRegistry ids h0 (setElementFrameMap (<[id := fe]> (elementFrameMap h)) h).
Proof.
  unfold extendsRegistry.
  intros Hid (Hready & Ha & Hb & Hc & Hd & Hmeta & Hvideo & Hres & Hcap).
  cbn [twickCanvas elementMap elementFrameMap canvasMetadataRef videoSizeRef
       canvasResolutionRef captionPropsRef setElementFrameMap].
  rewrite dom_insert_L. repeat split; auto; set_solver.
Qed.

(** Registering an element of the list keeps every identifier of the list
    that was registered so. *)
Lemma registered_store (entries : list (option CanvasElement)) (h h' : Hook)
    (el0 el : CanvasElement) :
  Some el0 ∈ entries ->
  elementMap h' = <[el_id el0 := el0]> (elementMap h) ->
  registered entries h el -> registered entries h' el.
Proof.
  intros Hin Hmap (el' & Hlookup & Hid & Hlisted). unfold registered. rewrite Hmap.
  destruct (decide (el_id el0 = el_id el)) as [Heq | Hne].
  - exists el0. rewrite Heq, lookup_insert_eq. auto.
  - exists el'. rewrite lookup_insert_ne by exact Hne. auto.
Qed.

Lemma registered_same (entries : list (option CanvasElement)) (h h' : Hook)
    (el : CanvasElement) :
  elementMap h' = elementMap h ->
  registered entries h el -> registered entries h' el.
Proof. unfold registered. intros ->. auto. Qed.

Lemma rejectedAt_prefix (start : FabricCanvas) (settled settled' : list ElementCall)
    (k : nat) (c : ElementCall) :
  settled `prefix_of` settled' ->
  rejectedAt start settled k c -> rejectedAt start settled' k c.
Proof.
  intros [more ->] [Hk Hrejected]. unfold rejectedAt.
  rewrite (lookup_app_l_Some _ _ _ _ Hk).
  rewrite take_app_le by (apply Nat.lt_le_incl; eapply lookup_lt_Some; exact Hk).
  auto.
Qed.

Lemma rejectedAt_snoc_inv (start : FabricCanvas) (settled : list ElementCall)
    (c' : ElementCall) (k : nat) (c : ElementCall) :
  rejectedAt start (settled ++ [c']) k c ->
  rejectedAt start settled k c
  \/ (c = c' /\ fulfilled c' (applyCalls settled start) = false).
Proof.
  intros [Hk Hrejected]. apply lookup_app_Some in Hk as [Hk | [Hge Hk]].
  - left. split; [exact Hk |].
    rewrite take_app_le in Hrejected
      by (apply Nat.lt_le_incl; eapply lookup_lt_Some; exact Hk).
    exact Hrejected.
  - right. apply list_lookup_singleton_Some in Hk as [Hk0 <-].
    assert (k = length settled) as -> by lia.
    rewrite take_app_length in Hrejected. auto.
Qed.

(** What a callback's state says stays true while the log and the settled
    calls grow and the registered elements stay registered. *)
Lemma taskInv_mono (entries : list (option CanvasElement)) (start : FabricCanvas)
    (b b' : Batch) (entry : option CanvasElement) (t : Task) :
  (forall el, registered entries (b_hook b) el -> registered entries (b_hook b') el) ->
  b_log b `prefix_of` b_log b' ->
  b_settled b `prefix_of` b_settled b' ->
  taskInv entries start b entry t -> taskInv entries start b' entry t.
Proof.
  intros Hreg [more Hlog] Hsettled. unfold taskInv.
  destruct entry as [el|], t as [el' c next | el' |]; auto.
  - intros (-> & k & c & Hk & Hc). split; [reflexivity |].
    exists k, c. split; [| exact Hc].
    eapply rejectedAt_prefix; eassumption.
  - intros [Hr | He]; [left; auto |].
    right. rewrite Hlog, elem_of_app. auto.
Qed.


(** A step that adds a callback at the end, settles nothing, logs no error
    and keeps what is registered keeps the invariant, given the facts on
    the canvas, the refs and the calls. *)
Lemma batchInv_start (entries : list (option CanvasElement)) (h0 : Hook)
    (start : FabricCanvas) (b b' : Batch) (entry : option CanvasElement) (t : Task) :
  batchInv entries h0 start b ->
  entries !! length (b_tasks b) = Some entry ->
  b_tasks b' = b_tasks b ++ [t] ->
  b_settled b' = b_settled b ->
  b_log b `prefix_of` b_log b' ->
  (forall message, evConsole ERROR message ∈ b_log b' ->
                   evConsole ERROR message ∈ b_log b) ->
  (evReorder ∉ b_log b') ->
  callsOf (b_log b') = callsOf (b_log b) ++ pendingCall t ->
  twickCanvas (b_hook b') = twickCanvas (b_hook b) ->
  extendsRegistry (entryIds entries) h0 (b_hook b') ->
  (forall el, registered entries (b_hook b) el -> registered entries (b_hook b') el) ->
  taskInv entries start b' entry t ->
  batchInv entries h0 start b'.
Proof.
  intros (Hcanvas & Hext & Hperm & Hreorder & Htasks & Hrej & Herr)
         Hentry Htasks' Hsettled Hlog Herrors Hreorder' Hcalls Hcanvas' Hext' Hreg Hnew.
  unfold batchInv. rewrite Htasks', Hsettled, Hcanvas', Hcalls.
  split; [exact Hcanvas |]. split; [exact Hext' |]. split.
  { rewrite pendingCalls_snoc, app_assoc. apply Permutation_app_tail. exact Hperm. }
  split; [exact Hreorder' |]. split; [| split].
  - intros i t0 Hi. apply lookup_app_Some in Hi as [Hi | [Hge Hi]].
    + destruct (Htasks i t0 Hi) as (entry0 & He & Hinv).
      exists entry0. split; [exact He |].
      eapply taskInv_mono; [exact Hreg | exact Hlog | | exact Hinv].
      rewrite Hsettled. reflexivity.
    + apply list_lookup_singleton_Some in Hi as [Hi0 <-].
      assert (i = length (b_tasks b)) as -> by lia.
      exists entry. split; [exact Hentry | exact Hnew].
  - intros k c Hk. destruct (Hrej k c Hk) as [He | Ht].
    + left. destruct Hlog as [more ->]. rewrite elem_of_app. auto.
    + right. rewrite elem_of_app. auto.
  - intros message Hin. apply (Herr message). apply Herrors. exact Hin.
Qed.

Lemma startEntry_inv (seekTime : Q) (captionProps : option CaptionProps)
    (entries : list (option CanvasElement)) (h0 : Hook) (start : FabricCanvas)
    (index : nat) (entry : option CanvasElement) (b : Batch) :
  batchInv entries h0 start b ->
  length (b_tasks b) = index ->
  entries !! index = Some entry ->
  batchInv entries h0 start (startEntry seekTime captionProps index entry b).
Proof.
  intros Hinv Hlen Hentry. subst index.
  pose proof Hinv as (Hcanvas & Hext & Hperm & Hreorder & Htasks & Hrej & Herr).
  assert (forall (l : list Event) (e : Event) (message : string),
            e ≠ evConsole ERROR message ->
            evConsole ERROR message ∈ l ++ [e] -> evConsole ERROR message ∈ l)
    as Hnoerror.
  { intros l e message Hne Hin. rewrite elem_of_app, list_elem_of_singleton in Hin.
    destruct Hin as [Hin | Heq]; [exact Hin | congruence]. }
  assert (forall (l : list Event) (e : Event),
            e ≠ evReorder -> evReorder ∉ l -> evReorder ∉ l ++ [e]) as Hnoreorder.
  { intros l e Hne Hnot Hin. rewrite elem_of_app, list_elem_of_singleton in Hin.
    destruct Hin as [Hin | Heq]; [auto | congruence]. }
  unfold startEntry. destruct entry as [el|].
  - rewrite Hcanvas.
    assert (Some el ∈ entries) as Hlisted
      by (eapply list_elem_of_lookup_2; exact Hentry).
    set (h1 := if bool_decide (el_type el = ELEMENT_TYPES.VIDEO) then _ else _).
    assert (twickCanvas h1 = twickCanvas (b_hook b)
            /\ elementMap h1 = elementMap (b_hook b)
            /\ extendsRegistry (entryIds entries) h0 h1) as (Hc1 & Hm1 & Hext1).
    { subst h1. case_bool_decide; [| auto].
      split; [reflexivity |]. split; [reflexivity |].
      apply extendsRegistry_frame; [apply entry_id_listed; exact Hlisted | exact Hext]. }
    pose proof (awaitedHelpers_calls (canvasMetadataRef (b_hook b)) el
                  (length (b_tasks b)) (Some seekTime) captionProps)
      as (Hcalls & _).
    destruct (awaitedHelpers (canvasMetadataRef (b_hook b)) el
                (length (b_tasks b)) (Some seekTime) captionProps)
      as [|call next].
    + apply (batchInv_start _ _ _ b _ (Some el) finished Hinv Hentry);
        cbn [b_tasks b_settled b_log b_hook].
      * reflexivity.
      * reflexivity.
      * reflexivity.
      * auto.
      * exact Hreorder.
      * cbn. symmetry. apply app_nil_r.
      * exact Hc1.
      * apply extendsRegistry_store;
          [apply entry_id_listed; exact Hlisted | exact Hext1].
      * intros el0. apply (registered_store entries _ _ el); [exact Hlisted |].
        cbn. rewrite Hm1. reflexivity.
      * cbn. left. exists el. cbn. rewrite lookup_insert_eq. auto.
    + apply (batchInv_start _ _ _ b _ (Some el) (awaiting el call next) Hinv Hentry);
        cbn [b_tasks b_settled b_log b_hook].
      * reflexivity.
      * reflexivity.
      * apply prefix_app_r. reflexivity.
      * intros message. apply Hnoerror. discriminate.
      * apply Hnoreorder; [discriminate | exact Hreorder].
      * apply callsOf_snoc_call.
      * exact Hc1.
      * exact Hext1.
      * intros el0. apply registered_same. exact Hm1.
      * cbn. split; [reflexivity |].
        eapply Forall_impl; [exact Hcalls |]. cbn. tauto.
  - apply (batchInv_start _ _ _ b _ None finished Hinv Hentry);
      cbn [b_tasks b_settled b_log b_hook].
    + reflexivity.
    + reflexivity.
    + apply prefix_app_r. reflexivity.
    + intros message. apply Hnoerror. discriminate.
    + apply Hnoreorder; [discriminate | exact Hreorder].
    + rewrite callsOf_snoc_console. cbn. symmetry. apply app_nil_r.
    + reflexivity.
    + exact Hext.
    + auto.
    + cbn. exact I.
Qed.


Lemma startAll_inv (seekTime : Q) (captionProps : option CaptionProps)
    (entries : list (option CanvasElement)) (h0 : Hook) (start : FabricCanvas)
    (rest : list (option CanvasElement)) :
  forall (index : nat) (b : Batch),
    batchInv entries h0 start b ->
    length (b_tasks b) = index ->
    (forall j entry, rest !! j = Some entry -> entries !! (index + j)%nat = Some entry) ->
    batchInv entries h0 start (startAll seekTime captionProps index rest b).
Proof.
  induction rest as [|entry rest IH]; intros index b Hinv Hlen Hrest; cbn [startAll].
  - exact Hinv.
  - apply IH.
    + apply startEntry_inv; [exact Hinv | exact Hlen |].
      rewrite <- (Nat.add_0_r index). apply Hrest. reflexivity.
    + unfold startEntry.
      destruct entry as [el|];
        [destruct (twickCanvas (b_hook b));
         [destruct (awaitedHelpers _ _ _ _ _) |] |];
        cbn [b_tasks]; rewrite length_app; cbn [length]; lia.
    + intros j entry0 Hj. replace (S index + j)%nat with (index + S j)%nat by lia.
      apply Hrest. exact Hj.
Qed.

(** The state of the callback at [i] is replaced: what the states say of
    their entries stays true when it is true of the new state. *)
Lemma tasks_resume (entries : list (option CanvasElement)) (start : FabricCanvas)
    (b b' : Batch) (i : nat) (t' : Task) :
  (forall j t, b_tasks b !! j = Some t ->
     exists entry, entries !! j = Some entry /\ taskInv entries start b entry t) ->
  b_tasks b' = <[i := t']> (b_tasks b) ->
  (forall el, registered entries (b_hook b) el -> registered entries (b_hook b') el) ->
  b_log b `prefix_of` b_log b' ->
  b_settled b `prefix_of` b_settled b' ->
  (forall entry, entries !! i = Some entry -> taskInv entries start b' entry t') ->
  forall j t, b_tasks b' !! j = Some t ->
    exists entry, entries !! j = Some entry /\ taskInv entries start b' entry t.
Proof.
  intros Htasks Htasks' Hreg Hlog Hsettled Hnew j t Hj. rewrite Htasks' in Hj.
  destruct (decide (i = j)) as [<- | Hne].
  - pose proof (lookup_lt_Some _ _ _ Hj) as Hlt. rewrite length_insert in Hlt.
    rewrite list_lookup_insert_eq in Hj by exact Hlt. injection Hj as <-.
    destruct (lookup_lt_is_Some_2 _ _ Hlt) as [t0 Ht0].
    destruct (Htasks i t0 Ht0) as (entry & He & _). eauto.
  - rewrite list_lookup_insert_ne in Hj by exact Hne.
    destruct (Htasks j t Hj) as (entry & He & Hinv).
    exists entry. split; [exact He |]. eapply taskInv_mono; eassumption.
Qed.

Lemma perm_resume (log : list Event) (settled : list ElementCall)
    (tasks : list Task) (i : nat) (t t' : Task) :
  tasks !! i = Some t ->
  callsOf log ≡ₚ settled ++ pendingCalls tasks ->
  callsOf log ++ pendingCall t'
  ≡ₚ (settled ++ pendingCall t) ++ pendingCalls (<[i := t']> tasks).
Proof.
  intros Hi Hperm. rewrite Hperm, <- !app_assoc. apply Permutation_app_head.
  rewrite <- (pendingCalls_insert tasks i t t' Hi). apply Permutation_app_comm.
Qed.

Lemma rejected_elsewhere (tasks : list Task) (i : nat) (t t' : Task)
    (el : CanvasElement) :
  tasks !! i = Some t ->
  rejected el ∈ tasks ->
  t = rejected el \/ rejected el ∈ <[i := t']> tasks.
Proof.
  intros Hi Hin. apply list_elem_of_lookup in Hin as [j Hj].
  destruct (decide (i = j)) as [<- | Hne]; [left; congruence |].
  right. apply list_elem_of_lookup. exists j.
  rewrite list_lookup_insert_ne; [exact Hj | exact Hne].
Qed.

Lemma elem_of_snoc_other {A} (l : list A) (e x : A) :
  e ≠ x -> x ∈ l ++ [e] -> x ∈ l.
Proof.
  intros Hne Hin. rewrite elem_of_app, list_elem_of_singleton in Hin.
  destruct Hin as [Hin | Heq]; [exact Hin | congruence].
Qed.

(** One turn of a callback keeps the invariant. *)
Lemma resumeAt_inv (entries : list (option CanvasElement)) (h0 : Hook)
    (start : FabricCanvas) (i : nat) (b : Batch) :
  batchInv entries h0 start b -> batchInv entries h0 start (resumeAt i b).
Proof.
  intros Hinv.
  pose proof Hinv as (Hcanvas & Hext & Hperm & Hreorder & Htasks & Hrej & Herr).
  unfold resumeAt.
  destruct (b_tasks b !! i) as [[el call next | el |]|] eqn:Hi; try exact Hinv.
  - destruct (Htasks i _ Hi) as ([el0|] & Hentry & Htask); [| contradiction].
    destruct Htask as [-> Hcalls].
    assert (Some el0 ∈ entries) as Hlisted
      by (eapply list_elem_of_lookup_2; exact Hentry).
    apply Forall_cons in Hcalls as [Hcall Hnext].
    unfold callElementHelper. rewrite Hcanvas.
    destruct (runElementCall call (applyCalls (b_settled b) start))
      as [r canvas'] eqn:Hrun.
    assert (applyCalls (b_settled b ++ [call]) start = canvas') as Hcanvas'
      by (rewrite applyCalls_snoc, Hrun; reflexivity).
    assert (forall k c,
              rejectedAt start (b_settled b ++ [call]) k c ->
              (errorFor (callElement c) ∈ b_log b
               \/ rejected (callElement c) ∈ b_tasks b)
              \/ (c = call /\ r ≠ Returned tt)) as Hrej'.
    { intros k c Hk. apply rejectedAt_snoc_inv in Hk as [Hk | [-> Hk]].
      - left. apply (Hrej k c Hk).
      - right. split; [reflexivity |]. unfold fulfilled in Hk. rewrite Hrun in Hk.
        cbn in Hk. destruct r as [[]|e]; discriminate. }
    assert (forall message,
              evConsole ERROR message ∈ b_log b ->
              exists k c, rejectedAt start (b_settled b ++ [call]) k c
                          /\ evConsole ERROR message = errorFor (callElement c))
      as Herr'.
    { intros message Hin. destruct (Herr message Hin) as (k & c & Hk & Hmsg).
      exists k, c. split; [| exact Hmsg].
      eapply rejectedAt_prefix; [| exact Hk]. apply prefix_app_r. reflexivity. }
    destruct r as [[]|e]; [destruct next as [|call' next'] |];
      match goal with |- batchInv _ _ _ ?x => set (b' := x) end.
    + (* the last helper has fulfilled *)
      split; [unfold b'; cbn [b_hook b_settled twickCanvas setTwickCanvas setElementMap];
              rewrite Hcanvas'; reflexivity |].
      split; [apply extendsRegistry_store;
                [apply entry_id_listed; exact Hlisted
                | apply extendsRegistry_canvas; exact Hext] |].
      split; [unfold b'; cbn [b_tasks b_log b_settled];
              rewrite <- (app_nil_r (callsOf (b_log b)));
              apply (perm_resume _ _ _ i (awaiting el0 call []) finished Hi Hperm) |].
      split; [exact Hreorder |]. split; [| split].
      * apply (tasks_resume entries start b b' i finished Htasks eq_refl).
        -- intros el1. apply (registered_store entries _ _ el0); [exact Hlisted |].
           reflexivity.
        -- reflexivity.
        -- apply prefix_app_r. reflexivity.
        -- intros entry He. rewrite Hentry in He. injection He as <-.
           cbn. left. exists el0. cbn. rewrite lookup_insert_eq. auto.
      * intros k c Hk. destruct (Hrej' k c Hk) as [[He | Ht] | [_ Hr]].
        -- auto.
        -- right. destruct (rejected_elsewhere _ _ _ finished _ Hi Ht) as [Heq | Hin];
             [discriminate Heq | exact Hin].
        -- congruence.
      * exact Herr'.
    + (* a helper has fulfilled and the next one is called *)
      split; [unfold b'; cbn [b_hook b_settled twickCanvas setTwickCanvas setElementMap];
              rewrite Hcanvas'; reflexivity |].
      split; [apply extendsRegistry_canvas; exact Hext |].
      split; [unfold b'; cbn [b_tasks b_log b_settled]; rewrite callsOf_snoc_call;
              apply (perm_resume _ _ _ i (awaiting el0 call (call' :: next'))
                       (awaiting el0 call' next') Hi Hperm) |].
      split; [intros Hin; apply Hreorder;
              apply (elem_of_snoc_other _ (evElement call')); [discriminate | exact Hin] |].
      split; [| split].
      * apply (tasks_resume entries start b b' i (awaiting el0 call' next')
                 Htasks eq_refl).
        -- intros el1. apply registered_same. reflexivity.
        -- apply prefix_app_r. reflexivity.
        -- apply prefix_app_r. reflexivity.
        -- intros entry He. rewrite Hentry in He. injection He as <-.
           cbn. split; [reflexivity | exact Hnext].
      * intros k c Hk. destruct (Hrej' k c Hk) as [[He | Ht] | [_ Hr]].
        -- left. cbn. rewrite elem_of_app. auto.
        -- right. destruct (rejected_elsewhere _ _ _ (awaiting el0 call' next') _ Hi Ht) as [Heq | Hin];
             [discriminate Heq | exact Hin].
        -- congruence.
      * intros message Hin. apply Herr'.
        apply (elem_of_snoc_other _ (evElement call')); [discriminate | exact Hin].
    + (* a helper has rejected *)
      assert (rejectedAt start (b_settled b ++ [call]) (length (b_settled b)) call)
        as Hrejected.
      { split; [apply list_lookup_middle; reflexivity |].
        rewrite take_app_length. unfold fulfilled. rewrite Hrun. reflexivity. }
      split; [unfold b'; cbn [b_hook b_settled twickCanvas setTwickCanvas setElementMap];
              rewrite Hcanvas'; reflexivity |].
      split; [apply extendsRegistry_canvas; exact Hext |].
      split; [unfold b'; cbn [b_tasks b_log b_settled];
              rewrite <- (app_nil_r (callsOf (b_log b)));
              apply (perm_resume _ _ _ i (awaiting el0 call next) (rejected el0)
                       Hi Hperm) |].
      split; [exact Hreorder |]. split; [| split].
      * apply (tasks_resume entries start b b' i (rejected el0) Htasks eq_refl).
        -- intros el1. apply registered_same. reflexivity.
        -- reflexivity.
        -- apply prefix_app_r. reflexivity.
        -- intros entry He. rewrite Hentry in He. injection He as <-.
           cbn. split; [reflexivity |]. eauto.
      * intros k c Hk. destruct (Hrej' k c Hk) as [[He | Ht] | [-> _]].
        -- auto.
        -- right. destruct (rejected_elsewhere _ _ _ (rejected el0) _ Hi Ht) as [Heq | Hin];
             [discriminate Heq | exact Hin].
        -- right. rewrite Hcall. apply list_elem_of_lookup. exists i.
           apply list_lookup_insert_eq. eapply lookup_lt_Some. exact Hi.
      * exact Herr'.
  - (* the rejection reaches the [catch] *)
    destruct (Htasks i _ Hi) as ([el0|] & Hentry & Htask); [| contradiction].
    destruct Htask as (-> & k0 & c0 & Hk0 & Hc0).
    match goal with |- batchInv _ _ _ ?x => set (b' := x) end.
    split; [exact Hcanvas |]. split; [exact Hext |].
    split; [unfold b'; cbn [b_tasks b_log b_settled];
            rewrite callsOf_snoc_console, <- (app_nil_r (callsOf (b_log b))),
              <- (app_nil_r (b_settled b)) at 1;
            apply (perm_resume _ _ _ i (rejected el0) finished Hi Hperm) |].
    split; [intros Hin; apply Hreorder;
            eapply elem_of_snoc_other; [| exact Hin]; discriminate |].
    split; [| split].
    + apply (tasks_resume entries start b b' i finished Htasks eq_refl).
      * auto.
      * apply prefix_app_r. reflexivity.
      * reflexivity.
      * intros entry He. rewrite Hentry in He. injection He as <-.
        cbn. right. rewrite elem_of_app, list_elem_of_singleton. right. reflexivity.
    + intros k c Hk. destruct (Hrej k c Hk) as [He | Ht].
      * left. cbn. rewrite elem_of_app. auto.
      * destruct (rejected_elsewhere _ _ _ finished _ Hi Ht) as [Heq | Hin];
          [| right; exact Hin].
        injection Heq as ->. left. cbn.
        rewrite elem_of_app, list_elem_of_singleton. right. reflexivity.
    + intros message Hin. cbn in Hin.
      rewrite elem_of_app, list_elem_of_singleton in Hin.
      destruct Hin as [Hin | Heq]; [apply Herr; exact Hin |].
      exists k0, c0. split; [exact Hk0 |]. rewrite Heq, Hc0. reflexivity.
Qed.


Lemma resumeOrder_inv (entries : list (option CanvasElement)) (h0 : Hook)
    (start : FabricCanvas) (order : list nat) :
  forall b : Batch,
    batchInv entries h0 start b ->
    batchInv entries h0 start (resumeOrder order b).
Proof.
  unfold resumeOrder.
  induction order as [|i order IH]; intros b Hinv; cbn [foldl]; [exact Hinv |].
  apply IH, resumeAt_inv, Hinv.
Qed.

(** The log of a rebuild only grows. *)
Lemma startEntry_log (seekTime : Q) (captionProps : option CaptionProps)
    (index : nat) (entry : option CanvasElement) (b : Batch) :
  b_log b `prefix_of` b_log (startEntry seekTime captionProps index entry b).
Proof.
  unfold startEntry.
  destruct entry as [el|];
    [destruct (twickCanvas (b_hook b));
     [destruct (awaitedHelpers _ _ _ _ _) |] |];
    cbn [b_log]; try reflexivity; apply prefix_app_r; reflexivity.
Qed.

Lemma startAll_log (seekTime : Q) (captionProps : option CaptionProps)
    (rest : list (option CanvasElement)) :
  forall (index : nat) (b : Batch),
    b_log b `prefix_of` b_log (startAll seekTime captionProps index rest b).
Proof.
  induction rest as [|entry rest IH]; intros index b; cbn [startAll]; [reflexivity |].
  etrans; [apply startEntry_log | apply IH].
Qed.

Lemma resumeAt_log (i : nat) (b : Batch) : b_log b `prefix_of` b_log (resumeAt i b).
Proof.
  unfold resumeAt.
  destruct (b_tasks b !! i) as [[el call next | el |]|]; try reflexivity.
  - destruct (callElementHelper call (b_hook b)) as [[[[]|e] h1] l];
      [destruct next |]; cbn [b_log]; try reflexivity.
    apply prefix_app_r. reflexivity.
  - cbn [b_log]. apply prefix_app_r. reflexivity.
Qed.

Lemma resumeOrder_log (order : list nat) :
  forall b : Batch, b_log b `prefix_of` b_log (resumeOrder order b).
Proof.
  unfold resumeOrder.
  induction order as [|i order IH]; intros b; cbn [foldl]; [reflexivity |].
  etrans; [apply resumeAt_log | apply IH].
Qed.

(** Every element with a case in the [switch] has its first helper called
    when its callback is called. *)
Lemma startAll_calls (seekTime : Q) (captionProps : option CaptionProps)
    (rest : list (option CanvasElement)) :
  forall (index : nat) (b : Batch),
    is_Some (twickCanvas (b_hook b)) ->
    forall (j : nat) (el : CanvasElement),
      rest !! j = Some (Some el) ->
      el_type el ∈ projectedKinds ->
      exists e, e ∈ b_log (startAll seekTime captionProps index rest b)
                /\ isCallFor (index + j) el e.
Proof.
  induction rest as [|entry rest IH]; intros index b Hready j el Hj Hkind.
  - rewrite lookup_nil in Hj. discriminate.
  - cbn [startAll].
    assert (is_Some (twickCanvas
                       (b_hook (startEntry seekTime captionProps index entry b))))
      as Hready'.
    { unfold startEntry. destruct Hready as [canvas Hcanvas]. rewrite Hcanvas.
      destruct entry as [el0|]; [| cbn; eauto].
      destruct (awaitedHelpers _ _ _ _ _); cbn [b_hook];
        case_bool_decide; cbn; eauto. }
    destruct j as [|j]; cbn in Hj.
    + injection Hj as ->.
      pose proof (startAll_log seekTime captionProps rest (S index)
                    (startEntry seekTime captionProps index (Some el) b))
        as [more Hlog].
      unfold startEntry in Hlog at 2. destruct Hready as [canvas Hcanvas].
      rewrite Hcanvas in Hlog.
      pose proof (awaitedHelpers_calls (canvasMetadataRef (b_hook b)) el index
                    (Some seekTime) captionProps) as (Hcalls & _ & Hsome).
      destruct (awaitedHelpers (canvasMetadataRef (b_hook b)) el index
                  (Some seekTime) captionProps) as [|call next];
        [exfalso; apply (Hsome Hkind); reflexivity |].
      cbn [b_log] in Hlog. apply Forall_cons in Hcalls as [[Hel Hindex] _].
      exists (evElement call). split.
      * rewrite Hlog, !elem_of_app, list_elem_of_singleton. auto.
      * rewrite Nat.add_0_r. exists call. auto.
    + replace (index + S j)%nat with (S index + j)%nat by lia.
      apply IH; auto.
Qed.

(** A turn of the callback at [i] takes a turn off its bound, and adds none
    to the bound of any callback. *)
Lemma resumeAt_steps (i : nat) (b : Batch) :
  length (b_tasks (resumeAt i b)) = length (b_tasks b)
  /\ forall j t', b_tasks (resumeAt i b) !! j = Some t' ->
       exists t, b_tasks b !! j = Some t
                 /\ (stepsLeft t' <= stepsLeft t)%nat
                 /\ (j = i -> (stepsLeft t' <= pred (stepsLeft t))%nat).
Proof.
  assert (forall t',
            (forall t, b_tasks b !! i = Some t ->
                       (stepsLeft t' <= pred (stepsLeft t))%nat) ->
            length (<[i := t']> (b_tasks b)) = length (b_tasks b)
            /\ forall j t1, <[i := t']> (b_tasks b) !! j = Some t1 ->
                 exists t, b_tasks b !! j = Some t
                           /\ (stepsLeft t1 <= stepsLeft t)%nat
                           /\ (j = i -> (stepsLeft t1 <= pred (stepsLeft t))%nat))
    as Hinsert.
  { intros t' Hless. split; [apply length_insert |]. intros j t1 Hj.
    destruct (decide (i = j)) as [<- | Hne].
    - pose proof (lookup_lt_Some _ _ _ Hj) as Hlt. rewrite length_insert in Hlt.
      rewrite list_lookup_insert_eq in Hj by exact Hlt. injection Hj as <-.
      destruct (lookup_lt_is_Some_2 _ _ Hlt) as [t Ht].
      exists t. specialize (Hless t Ht). split; [exact Ht |]. split; [lia | auto].
    - rewrite list_lookup_insert_ne in Hj by exact Hne.
      exists t1. split; [exact Hj |]. split; [lia | congruence]. }
  assert (length (b_tasks b) = length (b_tasks b)
          /\ forall j t', b_tasks b !! j = Some t' ->
               (i = j -> t' = finished) ->
               exists t, b_tasks b !! j = Some t
                         /\ (stepsLeft t' <= stepsLeft t)%nat
                         /\ (j = i -> (stepsLeft t' <= pred (stepsLeft t))%nat))
    as [_ Hsame].
  { split; [reflexivity |]. intros j t' Hj Hdone. exists t'.
    split; [exact Hj |]. split; [lia |]. intros ->. rewrite Hdone by reflexivity.
    cbn. lia. }
  unfold resumeAt.
  destruct (b_tasks b !! i) as [[el call next | el |]|] eqn:Hi.
  - destruct (callElementHelper call (b_hook b)) as [[[[]|e] h1] l];
      [destruct next |]; cbn [b_tasks]; apply Hinsert;
      intros t Ht; injection Ht as <-; cbn; lia.
  - cbn [b_tasks]. apply Hinsert.
    intros t Ht. injection Ht as <-. cbn. lia.
  - split; [reflexivity |]. intros j t' Hj. apply Hsame; [exact Hj |].
    intros <-. congruence.
  - split; [reflexivity |]. intros j t' Hj. apply Hsame; [exact Hj |].
    intros <-. congruence.
Qed.

(** Resuming the callbacks from [a] to [a + n - 1], after some others, takes
    a turn off the bound of each of them. *)
Lemma resumeOrder_steps (order : list nat) :
  forall b : Batch,
    length (b_tasks (resumeOrder order b)) = length (b_tasks b)
    /\ forall j t', b_tasks (resumeOrder order b) !! j = Some t' ->
         exists t, b_tasks b !! j = Some t
                   /\ (stepsLeft t' <= stepsLeft t)%nat
                   /\ (j ∈ order -> (stepsLeft t' <= pred (stepsLeft t))%nat).
Proof.
  unfold resumeOrder.
  induction order as [|i order IH]; intros b; cbn [foldl].
  - split; [reflexivity |]. intros j t' Hj. exists t'.
    split; [exact Hj |]. split; [lia |]. intros Hin.
    rewrite elem_of_nil in Hin. contradiction.
  - destruct (IH (resumeAt i b)) as [Hlen Hsteps].
    destruct (resumeAt_steps i b) as [Hlen1 Hsteps1].
    split; [lia |]. intros j t' Hj.
    destruct (Hsteps j t' Hj) as (t1 & Hj1 & Hle1 & Hin1).
    destruct (Hsteps1 j t1 Hj1) as (t & Hj0 & Hle0 & Hin0).
    exists t. split; [exact Hj0 |]. split; [lia |].
    intros Hin. rewrite elem_of_cons in Hin. destruct Hin as [-> | Hin].
    + specialize (Hin0 eq_refl). lia.
    + specialize (Hin1 Hin). lia.
Qed.

(** Three rounds end every callback that has at most three turns to take. *)
Lemma finishAll_finished (b : Batch) :
  Forall (fun t => (stepsLeft t <= 3)%nat) (b_tasks b) ->
  Forall (fun t => t = finished) (b_tasks (finishAll b)).
Proof.
  intros Hbound. unfold finishAll.
  set (round := seq 0 (length (b_tasks b))).
  assert (forall b1, length (b_tasks b1) = length (b_tasks b) ->
          length (b_tasks (resumeOrder round b1)) = length (b_tasks b)
          /\ forall n, Forall (fun t => (stepsLeft t <= S n)%nat) (b_tasks b1) ->
                       Forall (fun t => (stepsLeft t <= n)%nat)
                              (b_tasks (resumeOrder round b1))) as Hround.
  { intros b1 Hlen. destruct (resumeOrder_steps round b1) as [Hlen' Hsteps].
    split; [lia |]. intros n Hn. apply Forall_lookup. intros j t' Hj.
    destruct (Hsteps j t' Hj) as (t & Hj0 & _ & Hin).
    pose proof (Forall_lookup_1 _ _ _ _ Hn Hj0) as Ht. cbn in Ht.
    assert (j ∈ round) as Hjin.
    { subst round. apply list_elem_of_lookup. exists j. apply lookup_seq.
      split; [reflexivity |]. rewrite <- Hlen. eapply lookup_lt_Some. exact Hj0. }
    specialize (Hin Hjin). lia. }
  assert (forall l1 l2 b1, resumeOrder (l1 ++ l2) b1 = resumeOrder l2 (resumeOrder l1 b1))
    as Happ by (intros l1 l2 b1; unfold resumeOrder; apply foldl_app).
  rewrite !Happ.
  destruct (Hround b eq_refl) as [Hlen1 Hstep1].
  destruct (Hround _ Hlen1) as [Hlen2 Hstep2].
  destruct (Hround _ Hlen2) as [_ Hstep3].
  specialize (Hstep1 2%nat Hbound). specialize (Hstep2 1%nat Hstep1).
  specialize (Hstep3 0%nat Hstep2).
  eapply Forall_impl; [exact Hstep3 |].
  intros [el call next | el |]; cbn; intros Hle; [lia | lia | reflexivity].
Qed.


(** A callback that has just been called has at most three turns to take,
    and there is one callback per entry. *)
Lemma startAll_tasks (seekTime : Q) (captionProps : option CaptionProps)
    (rest : list (option CanvasElement)) :
  forall (index : nat) (b : Batch),
    Forall (fun t => (stepsLeft t <= 3)%nat) (b_tasks b) ->
    Forall (fun t => (stepsLeft t <= 3)%nat)
           (b_tasks (startAll seekTime captionProps index rest b))
    /\ length (b_tasks (startAll seekTime captionProps index rest b))
       = (length (b_tasks b) + length rest)%nat.
Proof.
  induction rest as [|entry rest IH]; intros index b Hbound; cbn [startAll length].
  - split; [exact Hbound | lia].
  - assert (exists t, b_tasks (startEntry seekTime captionProps index entry b)
                      = b_tasks b ++ [t] /\ (stepsLeft t <= 3)%nat)
      as (t & Htasks & Ht).
    { unfold startEntry. destruct entry as [el|]; [| exists finished; cbn; auto].
      destruct (twickCanvas (b_hook b)); [| exists finished; cbn; auto].
      pose proof (awaitedHelpers_calls (canvasMetadataRef (b_hook b)) el index
                    (Some seekTime) captionProps) as (_ & Hlen & _).
      destruct (awaitedHelpers _ _ _ _ _) as [|call next];
        [exists finished; cbn; auto |].
      exists (awaiting el call next). cbn in *. split; [reflexivity | lia]. }
    destruct (IH (S index) (startEntry seekTime captionProps index entry b))
      as [Hbound' Hlen'].
    { rewrite Htasks. apply Forall_app. split; [exact Hbound |].
      apply Forall_singleton. exact Ht. }
    split; [exact Hbound' |]. rewrite Hlen', Htasks, length_app. cbn. lia.
Qed.

Lemma pendingCalls_finished (tasks : list Task) :
  Forall (fun t => t = finished) tasks -> pendingCalls tasks = [].
Proof.
  unfold pendingCalls. induction 1 as [|t ts -> _ IH]; [reflexivity |].
  rewrite bind_cons. exact IH.
Qed.

Lemma batchInv_new (entries : list (option CanvasElement)) (h : Hook)
    (canvas : FabricCanvas) :
  twickCanvas h = Some canvas -> batchInv entries h canvas (newBatch h).
Proof.
  intros Hcanvas. unfold batchInv, newBatch. cbn [b_tasks b_hook b_log b_settled].
  split; [exact Hcanvas |].
  split; [unfold extendsRegistry; rewrite Hcanvas; repeat split; eauto; set_solver |].
  split; [reflexivity |].
  split; [apply not_elem_of_nil |].
  split; [| split].
  - intros i t Hi. rewrite lookup_nil in Hi. discriminate.
  - intros k c [Hk _]. rewrite lookup_nil in Hk. discriminate.
  - intros message Hin. apply elem_of_nil in Hin. contradiction.
Qed.

(** [Promise.all] over the callbacks on a canvas: whatever the helpers do
    and in whatever order they settle, every helper that was called has
    settled and left its work on the canvas, every rejection was logged and
    nothing else was, and an element of the list is registered unless its
    callback has logged an error. *)
Lemma projectAll_run (seekTime : Q) (captionProps : option CaptionProps)
    (elements : list (option CanvasElement)) (h : Hook) (canvas : FabricCanvas) :
  twickCanvas h = Some canvas ->
  let run := projectAll seekTime captionProps elements h in
  resultOf run = Returned tt
  /\ extendsRegistry (entryIds elements) h (hookOf run)
  /\ (evReorder ∉ logOf run)
  /\ (forall (i : nat) (el : CanvasElement),
        elements !! i = Some (Some el) ->
        el_type el ∈ projectedKinds ->
        exists e, e ∈ logOf run /\ isCallFor i el e)
  /\ exists settled : list ElementCall,
       callsOf (logOf run) ≡ₚ settled
       /\ twickCanvas (hookOf run) = Some (applyCalls settled canvas)
       /\ (forall k c, rejectedAt canvas settled k c ->
             errorFor (callElement c) ∈ logOf run)
       /\ (forall message, evConsole ERROR message ∈ logOf run ->
             exists k c, rejectedAt canvas settled k c
                         /\ evConsole ERROR message = errorFor (callElement c))
       /\ (forall (i : nat) (el : CanvasElement),
             elements !! i = Some (Some el) ->
             registered elements (hookOf run) el \/ errorFor el ∈ logOf run).
Proof.
  intros Hcanvas run. subst run. unfold projectAll, resultOf, hookOf, logOf.
  cbn [fst snd].
  set (started := startAll seekTime captionProps 0 elements (newBatch h)).
  set (resumed := resumeOrder (settleOrder elements) started).
  assert (batchInv elements h canvas started) as Hstarted.
  { apply startAll_inv; [apply batchInv_new; exact Hcanvas | reflexivity | auto]. }
  assert (batchInv elements h canvas (finishAll resumed)) as Hinv.
  { unfold finishAll. apply resumeOrder_inv, resumeOrder_inv. exact Hstarted. }
  destruct (startAll_tasks seekTime captionProps elements 0 (newBatch h))
    as [Hbound Hlen]; [constructor |].
  fold started in Hbound, Hlen. cbn [newBatch b_tasks length] in Hlen.
  destruct (resumeOrder_steps (settleOrder elements) started) as [Hlen1 Hsteps1].
  fold resumed in Hlen1, Hsteps1.
  assert (Forall (fun t => (stepsLeft t <= 3)%nat) (b_tasks resumed)) as Hbound1.
  { apply Forall_lookup. intros j t' Hj.
    destruct (Hsteps1 j t' Hj) as (t & Hj0 & Hle & _).
    pose proof (Forall_lookup_1 _ _ _ _ Hbound Hj0) as Ht. cbn in Ht. lia. }
  pose proof (finishAll_finished resumed Hbound1) as Hdone.
  assert (length (b_tasks (finishAll resumed)) = length elements) as Hlen2.
  { unfold finishAll.
    rewrite (proj1 (resumeOrder_steps _ resumed)). lia. }
  pose proof (pendingCalls_finished _ Hdone) as Hpending.
  destruct Hinv as (Hcanvas' & Hext & Hperm & Hreorder & Htasks & Hrej & Herr).
  split; [reflexivity |]. split; [exact Hext |]. split; [exact Hreorder |].
  split.
  { intros i el Hi Hkind.
    assert (is_Some (twickCanvas (b_hook (newBatch h)))) as Hready
      by (unfold newBatch; cbn [b_hook]; rewrite Hcanvas; eauto).
    destruct (startAll_calls seekTime captionProps elements 0 (newBatch h)
                Hready i el Hi Hkind) as (e & He & Hcall).
    exists e. split; [| exact Hcall]. fold started in He.
    pose proof (resumeOrder_log (settleOrder elements) started) as [more1 Hlog1].
    fold resumed in Hlog1.
    assert (b_log resumed `prefix_of` b_log (finishAll resumed)) as [more2 Hlog2]
      by (unfold finishAll; apply resumeOrder_log).
    rewrite Hlog2, Hlog1, !elem_of_app. auto. }
  exists (b_settled (finishAll resumed)).
  rewrite Hpending, app_nil_r in Hperm.
  split; [exact Hperm |]. split; [exact Hcanvas' |].
  split; [| split; [exact Herr |]].
  - intros k c Hk. destruct (Hrej k c Hk) as [He | Ht]; [exact He |].
    exfalso. rewrite Forall_forall in Hdone. specialize (Hdone _ Ht). discriminate.
  - intros i el Hi.
    destruct (lookup_lt_is_Some_2 (b_tasks (finishAll resumed)) i) as [t Ht].
    { rewrite Hlen2. eapply lookup_lt_Some. exact Hi. }
    destruct (Htasks i t Ht) as (entry & He & Htask).
    rewrite Hi in He. injection He as <-.
    rewrite (Forall_lookup_1 _ _ _ _ Hdone Ht) in Htask. exact Htask.
Qed.

(** A callback alone: the callback that is called and resumed three times
    is the callback of [elements.map] run to its end, that is
    [addElementToCanvas] in its [try]. *)
Lemma callback_alone (seekTime : Q) (captionProps : option CaptionProps)
    (index : nat) (entry : option CanvasElement) (h : Hook) :
  is_Some (twickCanvas h) ->
  let b := resumeAt 0 (resumeAt 0 (resumeAt 0
             (startEntry seekTime captionProps index entry (newBatch h)))) in
  projectEntry seekTime captionProps index entry h = (Returned tt, b_hook b, b_log b).
Proof.
  intros [canvas Hcanvas]. destruct entry as [el|]; [| reflexivity].
  unfold projectEntry, tryCatch, addElementToCanvas, projectByType, sceneBackground,
    callElementHelper, startEntry, awaitedHelpers, newBatch.
  hook_simpl. cbn [b_hook b_tasks b_log b_settled]. rewrite Hcanvas.
  repeat case_bool_decide; hook_simpl; rewrite ?Hcanvas; hook_simpl;
    unfold resumeAt, callElementHelper;
    cbn [b_hook b_tasks b_log b_settled lookup list_lookup app
         twickCanvas setElementFrameMap];
    rewrite ?Hcanvas.
  all: repeat (match goal with
       | |- context [runElementCall ?c ?cv] =>
           destruct (runElementCall c cv) as [[[]|?] ?]
       end;
       hook_simpl;
       cbn [b_hook b_tasks b_log b_settled lookup list_lookup app insert
            list_insert twickCanvas setTwickCanvas setElementMap
            setElementFrameMap elementMap]).
  all: try reflexivity.
Qed.


(** A list of one entry, when nothing is resumed out of turn: the rebuild
    runs the callback of the entry to its end. *)
Lemma projectAll_alone (seekTime : Q) (captionProps : option CaptionProps)
    (entry : option CanvasElement) (h : Hook) :
  is_Some (twickCanvas h) ->
  settleOrder [entry] = [] ->
  projectAll seekTime captionProps [entry] h
  = projectEntry seekTime captionProps 0 entry h.
Proof.
  intros Hready Horder. rewrite (callback_alone _ _ _ _ _ Hready).
  unfold projectAll. rewrite Horder.
  pose proof (proj2 (startAll_tasks seekTime captionProps [entry] 0 (newBatch h)
                       (Forall_nil_2 _))) as Hlen.
  unfold finishAll. cbn [resumeOrder foldl]. rewrite Hlen. reflexivity.
Qed.

(** The cleaning block returns, with the canvas emptied and the old
    background colour put back when there was one. *)
Lemma cleanCanvas_run (canvas : FabricCanvas) (h : Hook) :
  cleanCanvas canvas h =
    (Returned tt,
     setTwickCanvas
       (Some (if JS.truthy (backgroundColor canvas)
              then {| objects := objects (clearCanvas canvas);
                      backgroundColor := backgroundColor canvas |}
              else clearCanvas canvas)) h,
     evClearCanvas ::
       (if JS.truthy (backgroundColor canvas) then [evRenderAll] else [])).
Proof.
  unfold cleanCanvas. hook_simpl.
  destruct (JS.truthy (backgroundColor canvas)); reflexivity.
Qed.

(** The statements after the cleaning: the projections, then the reorder
    of the canvas they have left. *)
Lemma projectAndReorder_run (seekTime : Q) (captionProps : option CaptionProps)
    (elements : list (option CanvasElement)) (h : Hook) :
  let all := projectAll seekTime captionProps elements (setCaptionProps captionProps h) in
  projectAndReorder seekTime captionProps elements h
  = (Returned tt,
     setTwickCanvas (reorderElementsByZIndex <$> twickCanvas (hookOf all)) (hookOf all),
     logOf all ++ [evReorder]).
Proof.
  unfold projectAndReorder, callReorder, projectAll, hookOf, logOf.
  hook_simpl. reflexivity.
Qed.

(** The run of [setCanvasElements] on a ready canvas, in terms of the
    cleaning and of the statements after it. *)
Lemma setCanvasElements_ready (h : Hook) (canvas : FabricCanvas)
    (elements : list (option CanvasElement)) (seekTime : option Q)
    (captionProps : option CaptionProps) (cleanAndAdd : option bool) :
  twickCanvas h = Some canvas ->
  getCanvasContext canvas = true ->
  setCanvasElements elements seekTime captionProps cleanAndAdd h =
    tryCatch
      (when (default false cleanAndAdd && true) (cleanCanvas canvas);;
       projectAndReorder (default 0%Q seekTime) captionProps elements)
      (fun _ => emit (evConsole ERROR "Error in setCanvasElements:")) h.
Proof.
  intros Hcanvas Hcontext. unfold setCanvasElements.
  rewrite get_bind, Hcanvas, Hcontext. reflexivity.
Qed.

Lemma tryCatch_returned (m : M unit) (handler : JsError -> M unit) (h : Hook) :
  resultOf (m h) = Returned tt -> tryCatch m handler h = m h.
Proof.
  unfold tryCatch, resultOf. destruct (m h) as [[[[]|e] h1] l1]; cbn [fst].
  - reflexivity.
  - discriminate.
Qed.

(** The optional cleaning leaves the refs alone and the canvas that the
    projections start from; it calls no helper and logs no message. *)
Lemma cleaning_run (h : Hook) (canvas : FabricCanvas) (cleanAndAdd : option bool) :
  twickCanvas h = Some canvas ->
  exists (h1 : Hook) (l0 : list Event),
    when (default false cleanAndAdd && true) (cleanCanvas canvas) h
      = (Returned tt, h1, l0)
    /\ twickCanvas h1 = Some (cleanedCanvas cleanAndAdd canvas)
    /\ elementMap h1 = elementMap h
    /\ elementFrameMap h1 = elementFrameMap h
    /\ canvasMetadataRef h1 = canvasMetadataRef h
    /\ videoSizeRef h1 = videoSizeRef h
    /\ canvasResolutionRef h1 = canvasResolutionRef h
    /\ Forall (fun e => e = evClearCanvas \/ e = evRenderAll) l0.
Proof.
  intros Hcanvas. unfold cleanedCanvas.
  destruct (default false cleanAndAdd); cbn [andb when].
  - eexists _, _. rewrite cleanCanvas_run. split; [reflexivity |].
    cbn [twickCanvas setTwickCanvas elementMap elementFrameMap
         canvasMetadataRef videoSizeRef canvasResolutionRef].
    repeat split.
    destruct (JS.truthy (backgroundColor canvas));
      repeat (apply Forall_cons_2; [auto |]); apply Forall_nil_2.
  - exists h, []. repeat split; auto.
Qed.

(** The run of [setCanvasElements] on a ready canvas: the cleaning, the
    projections on the cleaned canvas, the reorder. *)
Lemma setCanvasElements_run (h : Hook) (canvas : FabricCanvas)
    (elements : list (option CanvasElement)) (seekTime : option Q)
    (captionProps : option CaptionProps) (cleanAndAdd : option bool) :
  twickCanvas h = Some canvas ->
  getCanvasContext canvas = true ->
  exists (h1 : Hook) (l0 : list Event),
    let all := projectAll (default 0%Q seekTime) captionProps elements
                 (setCaptionProps captionProps h1) in
    setCanvasElements elements seekTime captionProps cleanAndAdd h
    = (Returned tt,
       setTwickCanvas (reorderElementsByZIndex <$> twickCanvas (hookOf all))
         (hookOf all),
       l0 ++ logOf all ++ [evReorder])
    /\ twickCanvas h1 = Some (cleanedCanvas cleanAndAdd canvas)
    /\ elementMap h1 = elementMap h
    /\ elementFrameMap h1 = elementFrameMap h
    /\ canvasMetadataRef h1 = canvasMetadataRef h
    /\ videoSizeRef h1 = videoSizeRef h
    /\ canvasResolutionRef h1 = canvasResolutionRef h
    /\ Forall (fun e => e = evClearCanvas \/ e = evRenderAll) l0.
Proof.
  intros Hcanvas Hcontext.
  destruct (cleaning_run h canvas cleanAndAdd Hcanvas)
    as (h1 & l0 & Hclean & Hrest).
  exists h1, l0. split; [| exact Hrest].
  rewrite (setCanvasElements_ready _ _ _ _ _ _ Hcanvas Hcontext).
  rewrite tryCatch_returned;
    rewrite (bind_returned _ _ _ _ _ _ Hclean), projectAndReorder_run; reflexivity.
Qed.


(** C7: with [cleanAndAdd] on a ready canvas that has a background colour,
    the list is projected on the canvas emptied of its objects with that
    colour put back; for the empty list the canvas ends with no object and
    the colour it had.  The two helpers are taken to do what their names
    say: [clearCanvas] removes every object, [reorderElementsByZIndex]
    permutes the objects and keeps the colour. *)
Theorem clean_rebuild_clears_first (h : Hook) (canvas : FabricCanvas)
    (elements : list (option CanvasElement)) (seekTime : option Q)
    (captionProps : option CaptionProps) :
  twickCanvas h = Some canvas ->
  getCanvasContext canvas = true ->
  backgroundColor canvas ≠ "" ->
  (forall c, objects (clearCanvas c) = []) ->
  (forall c, objects (reorderElementsByZIndex c) ≡ₚ objects c
             /\ backgroundColor (reorderElementsByZIndex c) = backgroundColor c) ->
  let emptied := {| objects := []; backgroundColor := backgroundColor canvas |} in
  let rest := projectAndReorder (default 0%Q seekTime) captionProps elements
                (setTwickCanvas (Some emptied) h) in
  setCanvasElements elements seekTime captionProps (Some true) h
    = (Returned tt, hookOf rest, evClearCanvas :: evRenderAll :: logOf rest)
  /\ let run := setCanvasElements [] seekTime captionProps (Some true) h in
     logOf run = [evClearCanvas; evRenderAll; evReorder]
     /\ exists c : FabricCanvas,
          twickCanvas (hookOf run) = Some c
          /\ objects c = []
          /\ backgroundColor c = backgroundColor canvas.
Proof.
  intros Hcanvas Hcontext Hcolour Hclear Hreorder emptied rest.
  assert (forall l,
    setCanvasElements l seekTime captionProps (Some true) h
    = (Returned tt,
       hookOf (projectAndReorder (default 0%Q seekTime) captionProps l
                 (setTwickCanvas (Some emptied) h)),
       evClearCanvas :: evRenderAll ::
         logOf (projectAndReorder (default 0%Q seekTime) captionProps l
                  (setTwickCanvas (Some emptied) h)))) as Hrun.
  { intros l.
    rewrite (setCanvasElements_ready _ _ _ _ _ _ Hcanvas Hcontext).
    cbn [default andb when].
    assert (cleanCanvas canvas h
            = (Returned tt, setTwickCanvas (Some emptied) h,
               [evClearCanvas; evRenderAll])) as Hclean.
    { rewrite cleanCanvas_run. unfold JS.truthy.
      rewrite (bool_decide_eq_false_2 _ Hcolour). cbn [negb].
      rewrite Hclear. reflexivity. }
    rewrite tryCatch_returned;
      rewrite (bind_returned _ _ _ _ _ _ Hclean), projectAndReorder_run; reflexivity. }
  split; [apply Hrun |].
  cbn zeta. rewrite Hrun, projectAndReorder_run.
  unfold projectAll, finishAll, hookOf, logOf. cbn [startAll newBatch b_tasks length seq app].
  assert (forall order, resumeOrder order (newBatch (setCaptionProps captionProps
                                             (setTwickCanvas (Some emptied) h)))
                        = newBatch (setCaptionProps captionProps
                                      (setTwickCanvas (Some emptied) h))) as Hidle.
  { unfold resumeOrder. induction order as [|i order IH]; [reflexivity |].
    cbn [foldl]. exact IH. }
  unfold newBatch in Hidle |- *. rewrite !Hidle.
  cbn [fst snd b_hook b_log app twickCanvas setCaptionProps setTwickCanvas fmap
       option_fmap option_map].
  split; [reflexivity |].
  eexists. split; [reflexivity |].
  destruct (Hreorder emptied) as [Hperm Hbg]. split.
  - apply Permutation_nil_r. exact Hperm.
  - exact Hbg.
Qed.

End Rebuild.

(** ** The canvas metadata: [buildCanvas] and [onVideoSizeChange] *)

Section Metadata.

Context `{CanvasUtil}.

Local Open Scope Q_scope.

Lemma buildCanvas_skipped (p : CanvasProps) (h : Hook) :
  buildSkipped p h = true -> buildCanvas p h = (Returned tt, h, []).
Proof.
  unfold buildSkipped, buildCanvas. intros Hskip.
  destruct (canvasRef p); cbn [negb orb] in *; [| reflexivity].
  rewrite get_bind, Hskip. reflexivity.
Qed.

(** A build that is not skipped publishes the metadata of [createCanvas]
    for the two sizes, with both scale factors multiplied by the frame
    scale, and records the two sizes. *)
Lemma buildCanvas_metadata (p : CanvasProps) (h : Hook) :
  buildSkipped p h = false ->
  let built := hookOf (buildCanvas p h) in
  let m := (createCanvas (videoSize p) (canvasSize p)
              (default "#000000" (backgroundColorProp p))).2 in
  canvasMetadataRef built
    = {| cm_width := cm_width m; cm_height := cm_height m;
         cm_aspectRatio := cm_aspectRatio m;
         cm_scaleX := cm_scaleX m * default 1 (frameScale p);
         cm_scaleY := cm_scaleY m * default 1 (frameScale p) |}
  /\ videoSizeRef built = videoSize p
  /\ canvasResolutionRef built = canvasSize p.
Proof.
  unfold buildSkipped, buildCanvas. intros Hskip.
  destruct (canvasRef p); cbn [negb orb] in *; [| discriminate].
  rewrite get_bind, Hskip.
  destruct (createCanvas (videoSize p) (canvasSize p)
              (default "#000000" (backgroundColorProp p))) as [canvas m].
  unfold hookOf. hook_simpl.
  destruct (bool_decide (is_Some (twickCanvas h)));
    destruct (default false (showFrameGuide p)); hook_simpl; auto.
Qed.

(** [onVideoSizeChange] sets the scale factors to the metadata's width and
    height over the new video size: no frame scale enters. *)
Lemma onVideoSizeChange_metadata (v : Dimensions) (h : Hook) :
  onVideoSizeChange (Some v) h =
    (Returned tt,
     setCanvasMetadata
       {| cm_width := cm_width (canvasMetadataRef h);
          cm_height := cm_height (canvasMetadataRef h);
          cm_aspectRatio := cm_aspectRatio (canvasMetadataRef h);
          cm_scaleX := cm_width (canvasMetadataRef h) / dim_width v;
          cm_scaleY := cm_height (canvasMetadataRef h) / dim_height v |}
       (setVideoSize v h),
     []).
Proof. reflexivity. Qed.

End Metadata.

(** ** The theorems at concrete inputs *)

Module Instances.

Import Sample Scenario.

Local Open Scope Q_scope.

Lemma click_emits_selection_only_witness :
  handleMouseUp (gesture circleObject "drag" 50 25) ready
  = (Returned tt, ready,
     [evOperation ITEM_SELECTED
        (dataElement (elementMap ready !! JS.key (obj_id circleObject)))]).
Proof.
  apply (click_emits_selection_only ready
           (gesture circleObject "drag" 50 25) circleObject
           {| action := "drag"; original := {| pos_x := 50; pos_y := 25 |} |});
    reflexivity.
Defined.



(** The product is rounded as doubles are before it is printed: 10.5 times
    the double of 0.79 is a double just below 8.295, so the radius is 8.29
    and not the 8.30 of the exact product. *)
Example circle_radius_rounds_the_double_product :
  exists (el' : CanvasElement) (radius : Q),
    handleMouseUp (gesture shrunkCircleObject "scale" 50 25)
      (hookWith (<["circle-1" := circle10half]> ∅) ∅)
      = updatedTo (hookWith (<["circle-1" := circle10half]> ∅) ∅) "circle-1" el'
    /\ props_radius (el_props el') = Some radius
    /\ radius == Float64.round (829 # 100)
    /\ JS.toFixed2 ((21 # 2) * obj_scaleX shrunkCircleObject) == 830 # 100.
Proof.
  exists (withProps circle10half
            (circleProps (el_props circle10half) shrunkCircleObject
               (convertToVideoPosition 50 25 metadata hd1080))).
  eexists. split; [vm_compute; reflexivity |].
  split; [reflexivity |]. split; vm_compute; reflexivity.
Qed.

(** A scale of the grouped object of the framed image while its [zoom]
    effect is active, and the same gesture without an active effect. *)
Lemma group_gesture_patch_witness :
  groupGestureOutcome readyWithZoom (gesture groupObject "scale" 10 10)
    groupObject framedImage
  /\ groupGestureOutcome ready (gesture groupObject "rotate" 10 10)
       groupObject framedImage.
Proof.
  split.
  - apply (group_gesture_patch readyWithZoom (gesture groupObject "scale" 10 10)
             groupObject
             {| action := "scale"; original := {| pos_x := 10; pos_y := 10 |} |}
             framedImage);
      try reflexivity; [repeat constructor | discriminate].
  - apply (group_gesture_patch ready (gesture groupObject "rotate" 10 10)
             groupObject
             {| action := "rotate"; original := {| pos_x := 10; pos_y := 10 |} |}
             framedImage);
      try reflexivity; [repeat constructor | discriminate].
Defined.

(** A press that hits no object, and a release without a transform. *)
Lemma event_without_target_or_gesture_ignored_witness :
  ignoredSilently ready {| target := None; transform := None |}
  /\ ignoredSilently ready {| target := Some anonymousObject; transform := None |}.
Proof.
  split; apply event_without_target_or_gesture_ignored.
  - left. reflexivity.
  - right. intros t Ht. discriminate Ht.
Defined.

(** C5 fails on the handler: a click on an object without identifier emits
    a selection of nothing, and a drag of it throws. *)
Lemma anonymous_object_not_ignored :
  obj_id anonymousObject = None
  /\ ~ ignoredSilently ready (gesture anonymousObject "drag" 50 25)
  /\ logOf (handleMouseUp (gesture anonymousObject "drag" 50 25) ready)
     = [evOperation ITEM_SELECTED (dataElement None)]
  /\ ~ ignoredSilently ready (gesture anonymousObject "drag" 10 25)
  /\ resultOf (handleMouseUp (gesture anonymousObject "drag" 10 25) ready)
     = Thrown TypeError.
Proof.
  unfold ignoredSilently.
  repeat split; try (vm_compute; reflexivity).
  - intros Hsilent. apply (f_equal logOf) in Hsilent.
    vm_compute in Hsilent. discriminate Hsilent.
  - intros Hsilent. apply (f_equal resultOf) in Hsilent.
    vm_compute in Hsilent. discriminate Hsilent.
Qed.

(** The video that plays at twice the speed from 1 s, projected at 3 s: the
    offset is [(3 - 1) * 2 + 0.5 = 4.5]. *)
Lemma video_snapTime_forwarded_witness :
  exists (effect : option FrameEffect) (snapTime : Q) (rest : list Event),
    logOf (addElementToCanvas fastVideo 0 true (Some 3) None ready)
      = evElement (addVideoElement fastVideo 0 metadata effect snapTime) :: rest
    /\ snapTime == 9 # 2.
Proof.
  destruct (video_snapTime_forwarded ready
              {| objects := [circleObject; groupObject];
                 backgroundColor := "#101010" |}
              fastVideo 0 true 3 None eq_refl eq_refl)
    as (effect & snapTime & rest & Hlog & Hsnap & Hrate).
  exists effect, snapTime, rest. split; [exact Hlog |].
  cbn [fastVideo el_props props_playbackRate] in Hrate.
  destruct Hrate as [_ Hrate].
  assert (rateOr1 fastVideo = 2) as Hr
    by (apply Hrate; intros Hq; vm_compute in Hq; discriminate Hq).
  rewrite Hsnap, Hr. vm_compute. reflexivity.
Defined.

(** C9 fails on the hook: a playback rate of zero is replaced by 1, so the
    offset at 5 s is 5 and not the stated [(5 - 0) * 0 + 0]. *)
Lemma zero_rate_snapTime_differs :
  props_playbackRate (el_props stillVideo) = Some 0
  /\ logOf (addElementToCanvas stillVideo 0 true (Some 5) None ready)
     = [evElement (addVideoElement stillVideo 0 metadata None
                     (snapTimeOf stillVideo (Some 5)));
        evReorder]
  /\ snapTimeOf stillVideo (Some 5) == 5
  /\ statedSnapTime stillVideo 5 == 0
  /\ ~ snapTimeOf stillVideo (Some 5) == statedSnapTime stillVideo 5.
Proof.
  repeat split; try (vm_compute; reflexivity).
  intros Heq. vm_compute in Heq. discriminate Heq.
Qed.

Lemma unknown_kind_is_registered_only_witness :
  let run := addElementToCanvas audio 3 true (Some 0) None ready in
  logOf run = [evReorder]
  /\ elementMap (hookOf run) !! "audio-1" = Some audio.
Proof.
  destruct (unknown_kind_is_registered_only ready
              {| objects := [circleObject; groupObject];
                 backgroundColor := "#101010" |}
              audio 3 true (Some 0) None eq_refl)
    as (_ & Hlog & _ & _ & Hentry & _).
  - unfold recognizedKinds. rewrite !not_elem_of_cons, elem_of_nil.
    repeat split; discriminate || tauto.
  - split; [exact Hlog | exact Hentry].
Defined.


(** The malformed entry is refused and logged; the two others are drawn. *)
Example batch_draws_the_valid_entries :
  let run := setCanvasElements batch (Some 0) None (Some true) ready in
  (obj_id <$> default [] (objects <$> twickCanvas (hookOf run)))
    = [Some "rect-1"; Some "circle-1"]
  /\ List.filter (fun e => match e with evConsole _ _ => true | _ => false end)
                 (logOf run)
     = [evConsole ERROR "Error adding element rect-2:"]
  /\ dom (elementMap (hookOf run)) = {["rect-1"; "circle-1"; "image-1"]}.
Proof. repeat split; vm_compute; reflexivity. Qed.

Lemma clean_rebuild_clears_first_witness :
  let run := setCanvasElements [] (Some 0) None (Some true) ready in
  logOf run = [evClearCanvas; evRenderAll; evReorder]
  /\ exists c : FabricCanvas,
       twickCanvas (hookOf run) = Some c
       /\ objects c = []
       /\ backgroundColor c = "#101010".
Proof.
  apply (clean_rebuild_clears_first ready
           {| objects := [circleObject; groupObject];
              backgroundColor := "#101010" |}
           [] (Some 0) None).
  - reflexivity.
  - reflexivity.
  - discriminate.
  - intros c. reflexivity.
  - intros c. split; reflexivity.
Defined.

(** C2 fails on the hook: after a build with a frame scale of 0.9, a change
    of the video size to 1280x720 leaves scale factors of 0.75, where the
    build for that size gives 0.675: [onVideoSizeChange] drops the frame
    scale that [buildCanvas] applies. *)
Lemma video_size_change_drops_frame_scale :
  let built := hookOf (buildCanvas (editorCanvas hd1080 None) initialHook) in
  let changed := hookOf (onVideoSizeChange (Some hd720) built) in
  let rebuilt := hookOf (buildCanvas (editorCanvas hd720 (Some true)) built) in
  (cm_scaleX (canvasMetadataRef built) == 9 # 20
   /\ cm_scaleY (canvasMetadataRef built) == 9 # 20)
  /\ (videoSizeRef changed = hd720
      /\ cm_scaleX (canvasMetadataRef changed) == 3 # 4
      /\ cm_scaleY (canvasMetadataRef changed) == 3 # 4)
  /\ (videoSizeRef rebuilt = hd720
      /\ cm_scaleX (canvasMetadataRef rebuilt) == 27 # 40
      /\ cm_scaleY (canvasMetadataRef rebuilt) == 27 # 40)
  /\ ~ cm_scaleX (canvasMetadataRef changed) == cm_scaleX (canvasMetadataRef rebuilt).
Proof.
  repeat split; try (vm_compute; reflexivity).
  intros Heq. vm_compute in Heq. discriminate Heq.
Qed.

(** The build that the editor requests for a new video size is skipped
    when the container has kept its size: the metadata stays. *)
Example unforced_build_is_skipped :
  let built := hookOf (buildCanvas (editorCanvas hd1080 None) initialHook) in
  buildCanvas (editorCanvas hd720 None) built = (Returned tt, built, []).
Proof. apply buildCanvas_skipped. vm_compute. reflexivity. Qed.

(** The frame guide that [buildCanvas] adds has no identifier and is
    neither selectable nor evented. *)
Example frame_guide_is_inert :
  let built := hookOf (buildCanvas (editorCanvas hd1080 None) initialHook) in
  exists guide : FabricObject,
    (objects <$> twickCanvas built) = Some [guide]
    /\ obj_id guide = None
    /\ obj_selectable guide = false
    /\ obj_evented guide = false.
Proof. eexists. repeat split; vm_compute; reflexivity. Qed.

End Instances.

(** * Further properties of the hook *)

(** Closes a goal on the entry of a key other than that of the target. *)
Ltac other_key :=
  match goal with
  | Ht : Some _ = Some ?o, Hk : ?k ≠ JS.key (obj_id ?o) |- _ =>
      injection Ht as <-;
      rewrite ?lookup_insert_ne by (intros Heq; apply Hk; symmetry; exact Heq);
      auto
  end.

(** ** What a gesture leaves alone *)

Section GestureFrame.

Context `{CanvasUtil}.

Lemma frame_entry_is_some (m : gmap string (option FrameEffect)) (k : string)
    (fe : FrameEffect) :
  mjoin (m !! k) = Some fe -> is_Some (m !! k).
Proof. destruct (m !! k) as [o|]; [eauto | discriminate]. Qed.

(** X1: whatever the event, [handleMouseUp] leaves the canvas, the metadata,
    the sizes and the caption props alone, adds no key to and removes none
    from the two registries, changes no entry but that of the target, and
    emits at most one notification. *)
Theorem gesture_keeps_surface_and_keys (h : Hook) (event : MouseEvent) :
  let run := handleMouseUp event h in
  twickCanvas (hookOf run) = twickCanvas h
  /\ canvasMetadataRef (hookOf run) = canvasMetadataRef h
  /\ videoSizeRef (hookOf run) = videoSizeRef h
  /\ canvasResolutionRef (hookOf run) = canvasResolutionRef h
  /\ captionPropsRef (hookOf run) = captionPropsRef h
  /\ dom (elementMap (hookOf run)) = dom (elementMap h)
  /\ dom (elementFrameMap (hookOf run)) = dom (elementFrameMap h)
  /\ (length (logOf run) <= 1)%nat
  /\ forall (object : FabricObject) (k : string),
       target event = Some object ->
       k ≠ JS.key (obj_id object) ->
       elementMap (hookOf run) !! k = elementMap h !! k
       /\ elementFrameMap (hookOf run) !! k = elementFrameMap h !! k.
Proof.
  intros run. subst run. unfold handleMouseUp.
  destruct (target event) as [object|];
    [| unfold hookOf, logOf; hook_simpl; repeat split; auto; try discriminate; try (cbn; lia)].
  destruct (isClick event object);
    [unfold hookOf, logOf; hook_simpl; repeat split; auto; try (cbn; lia) |].
  destruct (transform event) as [t|];
    [| unfold hookOf, logOf; hook_simpl; repeat split; auto; try (cbn; lia)].
  destruct (bool_decide (action t ∈ handledActions));
    [| unfold hookOf, logOf; hook_simpl; repeat split; auto; try (cbn; lia)].
  unfold reconcile, groupPatch. hook_simpl.
  destruct (elementMap h !! JS.key (obj_id object)) as [el|] eqn:Hel;
    hook_simpl;
    [| unfold hookOf, logOf; hook_simpl; repeat split; auto; try (cbn; lia)].
  assert (is_Some (elementMap h !! JS.key (obj_id object))) as Hsome by eauto.
  destruct (bool_decide (el_type el = "caption")).
  - destruct (captionPropsRef h) as [captionProps|] eqn:Hcap;
      [destruct (cap_applyToAll captionProps) |];
      unfold hookOf, logOf; hook_simpl; repeat split; auto;
      try (apply dom_insert_lookup_L; exact Hsome);
      try other_key;
      try (cbn; lia).
  - destruct (bool_decide (obj_type object = "group"));
      [destruct (mjoin (elementFrameMap h !! JS.key (obj_id object)))
         as [current|] eqn:Hcurrent;
       [| destruct (el_frame el) as [frame|]]
      | destruct (bool_decide (obj_type object = "text"));
        [| destruct (bool_decide (obj_type object = "circle"))]];
      unfold hookOf, logOf; hook_simpl; repeat split; auto;
      try (apply dom_insert_lookup_L; first [exact Hsome
             | exact (frame_entry_is_some _ _ _ Hcurrent)]);
      try other_key;
      try (cbn; lia).
Qed.

End GestureFrame.

(** ** The other cases of a gesture *)

Section GestureCases.

Context `{CanvasUtil}.

(** The handler reaches the body of the [switch] for the target. *)
Lemma handleMouseUp_reconciles (h : Hook) (event : MouseEvent)
    (object : FabricObject) (t : Transform) :
  target event = Some object ->
  transform event = Some t ->
  action t ∈ handledActions ->
  isClick event object = false ->
  handleMouseUp event h = reconcile object (JS.key (obj_id object)) h.
Proof.
  intros Htarget Ht Hact Hclick. unfold handleMouseUp.
  rewrite Htarget, Hclick, Ht.
  rewrite bool_decide_eq_true_2 by exact Hact. reflexivity.
Qed.

(** X2: a handled gesture (not a click) on an object whose identifier has no
    entry in the registry throws a [TypeError]; nothing is emitted and the
    refs are as they were. *)
Theorem gesture_on_unregistered_object_throws (h : Hook) (event : MouseEvent)
    (object : FabricObject) (t : Transform) :
  target event = Some object ->
  transform event = Some t ->
  action t ∈ handledActions ->
  isClick event object = false ->
  elementMap h !! JS.key (obj_id object) = None ->
  handleMouseUp event h = (Thrown TypeError, h, []).
Proof.
  intros Htarget Ht Hact Hclick Hnone.
  rewrite (handleMouseUp_reconciles h event object t) by assumption.
  unfold reconcile. hook_simpl. rewrite Hnone. reflexivity.
Qed.

(** X3: a gesture on a caption, whatever the object and its scale: when the
    caption props say [applyToAll], one [CAPTION_PROPS_UPDATED] carries the
    caption props with the new position and the registry is not touched;
    otherwise the caption gets the new [x] and [y] and keeps its rotation
    and its size. *)
Theorem caption_gesture_moves_only (h : Hook) (event : MouseEvent)
    (object : FabricObject) (t : Transform) (el : CanvasElement) :
  target event = Some object ->
  transform event = Some t ->
  action t ∈ handledActions ->
  isClick event object = false ->
  elementMap h !! JS.key (obj_id object) = Some el ->
  el_type el = ELEMENT_TYPES.CAPTION ->
  let pos := convertToVideoPosition (obj_left object) (obj_top object)
               (canvasMetadataRef h) (videoSizeRef h) in
  if from_option cap_applyToAll false (captionPropsRef h) then
    exists props : CaptionProps,
      handleMouseUp event h
        = (Returned tt, h, [evOperation CAPTION_PROPS_UPDATED (dataCaption el props)])
      /\ cap_applyToAll props = true
      /\ cap_x props = Some (pos_x pos) /\ cap_y props = Some (pos_y pos)
  else
    exists el' : CanvasElement,
      handleMouseUp event h = updatedTo h (JS.key (obj_id object)) el'
      /\ props_x (el_props el') = Some (pos_x pos)
      /\ props_y (el_props el') = Some (pos_y pos)
      /\ props_rotation (el_props el') = props_rotation (el_props el)
      /\ props_width (el_props el') = props_width (el_props el)
      /\ props_height (el_props el') = props_height (el_props el)
      /\ el_frame el' = el_frame el
      /\ el_frameEffects el' = el_frameEffects el.
Proof.
  intros Htarget Ht Hact Hclick Hel Hkind pos.
  rewrite (handleMouseUp_reconciles h event object t) by assumption.
  unfold reconcile. hook_simpl. rewrite Hel. hook_simpl.
  rewrite Hkind. decide_literals.
  destruct (captionPropsRef h) as [captionProps|]; cbn [from_option];
    [destruct (cap_applyToAll captionProps) eqn:Hall |];
    hook_simpl; eexists; repeat split; auto.
Qed.

(** X4: a gesture on the text object of an element that is not a caption
    sets the rotation and the position, and keeps the width, the height and
    the radius: the scale of the object is not applied. *)
Theorem text_gesture_keeps_size (h : Hook) (event : MouseEvent)
    (object : FabricObject) (t : Transform) (el : CanvasElement) :
  target event = Some object ->
  transform event = Some t ->
  action t ∈ handledActions ->
  isClick event object = false ->
  obj_type object = "text" ->
  elementMap h !! JS.key (obj_id object) = Some el ->
  el_type el ≠ "caption" ->
  let pos := convertToVideoPosition (obj_left object) (obj_top object)
               (canvasMetadataRef h) (videoSizeRef h) in
  exists el' : CanvasElement,
    handleMouseUp event h = updatedTo h (JS.key (obj_id object)) el'
    /\ props_rotation (el_props el') = Some (obj_angle object)
    /\ props_x (el_props el') = Some (pos_x pos)
    /\ props_y (el_props el') = Some (pos_y pos)
    /\ props_width (el_props el') = props_width (el_props el)
    /\ props_height (el_props el') = props_height (el_props el)
    /\ props_radius (el_props el') = props_radius (el_props el).
Proof.
  intros Htarget Ht Hact Hclick Htype Hel Hkind pos.
  rewrite (handleMouseUp_reconciles h event object t) by assumption.
  unfold reconcile. hook_simpl. rewrite Hel. hook_simpl.
  rewrite (bool_decide_eq_false_2 _ Hkind), Htype. decide_literals. hook_simpl.
  rewrite lookup_insert_eq. eexists. repeat split.
Qed.

(** X5: a gesture on any other object (not a group, a text or a circle) of
    an element that is not a caption multiplies the width by the object's
    [scaleX] and the height by its [scaleY], also when the gesture is a move
    or a rotation, and sets the rotation and the position. *)
Theorem shape_gesture_scales_box (h : Hook) (event : MouseEvent)
    (object : FabricObject) (t : Transform) (el : CanvasElement) (w ht : Q) :
  target event = Some object ->
  transform event = Some t ->
  action t ∈ handledActions ->
  isClick event object = false ->
  obj_type object ∉ ["group"; "text"; "circle"] ->
  elementMap h !! JS.key (obj_id object) = Some el ->
  el_type el ≠ "caption" ->
  props_width (el_props el) = Some w ->
  props_height (el_props el) = Some ht ->
  let pos := convertToVideoPosition (obj_left object) (obj_top object)
               (canvasMetadataRef h) (videoSizeRef h) in
  exists el' : CanvasElement,
    handleMouseUp event h = updatedTo h (JS.key (obj_id object)) el'
    /\ props_width (el_props el') = Some (w * obj_scaleX object)%Q
    /\ props_height (el_props el') = Some (ht * obj_scaleY object)%Q
    /\ props_rotation (el_props el') = Some (obj_angle object)
    /\ props_x (el_props el') = Some (pos_x pos)
    /\ props_y (el_props el') = Some (pos_y pos)
    /\ props_radius (el_props el') = props_radius (el_props el).
Proof.
  intros Htarget Ht Hact Hclick Htype Hel Hkind Hw Hh pos.
  rewrite !not_elem_of_cons in Htype. destruct Htype as (Hg & Htx & Hc & _).
  rewrite (handleMouseUp_reconciles h event object t) by assumption.
  unfold reconcile. hook_simpl. rewrite Hel. hook_simpl.
  rewrite (bool_decide_eq_false_2 _ Hkind), (bool_decide_eq_false_2 _ Hg),
    (bool_decide_eq_false_2 _ Htx), (bool_decide_eq_false_2 _ Hc).
  hook_simpl. rewrite lookup_insert_eq. eexists.
  split; [reflexivity |].
  cbn [withProps el_props shapeProps props_width props_height props_rotation
       props_x props_y props_radius]. unfold JS.mul. rewrite Hw, Hh.
  repeat split.
Qed.

End GestureCases.

(** ** The registries under projection *)

Section ProjectionRegistry.

Context `{CanvasUtil}.

(** The switch keeps the canvas present, leaves the element registry and the
    other refs alone, and records a frame effect for a video only. *)
Lemma projectByType_refs (h : Hook) (el : CanvasElement) (index : nat)
    (seekTime : option Q) (captionProps : option CaptionProps) :
  is_Some (twickCanvas h) ->
  let h' := hookOf (projectByType el index seekTime captionProps h) in
  is_Some (twickCanvas h')
  /\ elementMap h' = elementMap h
  /\ captionPropsRef h' = captionPropsRef h
  /\ canvasMetadataRef h' = canvasMetadataRef h
  /\ videoSizeRef h' = videoSizeRef h
  /\ canvasResolutionRef h' = canvasResolutionRef h
  /\ elementFrameMap h'
     = if bool_decide (el_type el = ELEMENT_TYPES.VIDEO)
       then <[el_id el := getCurrentFrameEffect el (JS.orElse seekTime 0)]>
              (elementFrameMap h)
       else elementFrameMap h.
Proof.
  intros [canvas Hcanvas] h'. subst h'.
  unfold projectByType, sceneBackground, callElementHelper. hook_simpl.
  repeat case_bool_decide; hook_simpl; rewrite ?Hcanvas; hook_simpl;
    destruct_helpers.
  all: unfold hookOf; cbn [fst snd twickCanvas setTwickCanvas elementMap
         elementFrameMap captionPropsRef canvasMetadataRef videoSizeRef
         canvasResolutionRef setElementFrameMap].
  all: repeat split; eauto.
Qed.

(** The refs after [addElementToCanvas] on a present canvas, by its
    completion. *)
Lemma addElementToCanvas_refs (h : Hook) (el : CanvasElement) (index : nat)
    (reorder : bool) (seekTime : option Q) (captionProps : option CaptionProps) :
  is_Some (twickCanvas h) ->
  let run := addElementToCanvas el index reorder seekTime captionProps h in
  is_Some (twickCanvas (hookOf run))
  /\ elementMap (hookOf run)
     = match resultOf run with
       | Returned _ => <[el_id el := el]> (elementMap h)
       | Thrown _ => elementMap h
       end
  /\ captionPropsRef (hookOf run) = captionPropsRef h
  /\ canvasMetadataRef (hookOf run) = canvasMetadataRef h
  /\ videoSizeRef (hookOf run) = videoSizeRef h
  /\ canvasResolutionRef (hookOf run) = canvasResolutionRef h
  /\ elementFrameMap (hookOf run)
     = if bool_decide (el_type el = ELEMENT_TYPES.VIDEO)
       then <[el_id el := getCurrentFrameEffect el (JS.orElse seekTime 0)]>
              (elementFrameMap h)
       else elementFrameMap h.
Proof.
  intros Hready run. subst run.
  destruct (projectByType_refs h el index seekTime captionProps Hready)
    as (Hcanvas & Hmap & Hcap & Hmeta & Hvideo & Hres & Hframes).
  destruct Hready as [canvas Hready].
  unfold addElementToCanvas. rewrite get_bind, Hready.
  unfold mbind, M_bind, bind.
  destruct (projectByType el index seekTime captionProps h) as [[[[]|e] h1] l1].
  all: unfold hookOf, resultOf in *; cbn [fst snd] in *.
  - unfold callReorder. hook_simpl. destruct reorder; hook_simpl;
      rewrite Hmap; repeat split; auto.
    destruct Hcanvas as [c ->]. cbn. eauto.
  - repeat split; auto.
Qed.

(** X6: on a present canvas, [addElementToCanvas] records the element under
    its identifier exactly when no helper rejected: after a rejection the
    element registry is as it was before the call. *)
Theorem element_registered_iff_projected (h : Hook) (canvas : FabricCanvas)
    (el : CanvasElement) (index : nat) (reorder : bool) (seekTime : option Q)
    (captionProps : option CaptionProps) :
  twickCanvas h = Some canvas ->
  let run := addElementToCanvas el index reorder seekTime captionProps h in
  match resultOf run with
  | Returned _ =>
      elementMap (hookOf run) !! el_id el = Some el
      /\ forall k, k ≠ el_id el -> elementMap (hookOf run) !! k = elementMap h !! k
  | Thrown _ => elementMap (hookOf run) = elementMap h
  end.
Proof.
  intros Hcanvas run.
  destruct (addElementToCanvas_refs h el index reorder seekTime captionProps)
    as (_ & Hmap & _); [eauto |].
  fold run in Hmap. destruct (resultOf run).
  - rewrite Hmap. split; [apply lookup_insert_eq |].
    intros k Hk. apply lookup_insert_ne. congruence.
  - exact Hmap.
Qed.

(** X7: projecting a video records the frame effect that
    [getCurrentFrameEffect] gives for the element at [seekTime || 0] under
    its identifier, even when the video helper rejects; projecting an
    element of any other type leaves the frame-effect registry as it was. *)
Theorem frame_effect_recorded_for_video_only (h : Hook) (canvas : FabricCanvas)
    (el : CanvasElement) (index : nat) (reorder : bool) (seekTime : option Q)
    (captionProps : option CaptionProps) :
  twickCanvas h = Some canvas ->
  let run := addElementToCanvas el index reorder seekTime captionProps h in
  (el_type el = ELEMENT_TYPES.VIDEO ->
   elementFrameMap (hookOf run) !! el_id el
   = Some (getCurrentFrameEffect el (JS.orElse seekTime 0)))
  /\ (el_type el ≠ ELEMENT_TYPES.VIDEO ->
      elementFrameMap (hookOf run) = elementFrameMap h).
Proof.
  intros Hcanvas run.
  destruct (addElementToCanvas_refs h el index reorder seekTime captionProps)
    as (_ & _ & _ & _ & _ & _ & Hframes); [eauto |].
  fold run in Hframes. rewrite Hframes. split; intros Htype.
  - rewrite bool_decide_eq_true_2 by exact Htype. apply lookup_insert_eq.
  - rewrite bool_decide_eq_false_2 by exact Htype. reflexivity.
Qed.

End ProjectionRegistry.

(** ** Rebuilds and the registries *)

Section RebuildEdges.

Context `{CanvasUtil}.

(** X8: for a video or an image the media helper is called first; the
    background helper follows, with the same element and index, exactly
    when the element is of the ["scene"] timeline type and the media helper
    did not reject. *)
Theorem scene_background_follows_media (h : Hook) (canvas : FabricCanvas)
    (el : CanvasElement) (index : nat) (seekTime : option Q)
    (captionProps : option CaptionProps) (media : ElementCall) :
  twickCanvas h = Some canvas ->
  (el_type el = ELEMENT_TYPES.VIDEO
   /\ media = addVideoElement el index (canvasMetadataRef h)
                (getCurrentFrameEffect el (JS.orElse seekTime 0))
                (snapTimeOf el seekTime))
  \/ (el_type el = ELEMENT_TYPES.IMAGE
      /\ media = addImageElement el index (canvasMetadataRef h)) ->
  logOf (addElementToCanvas el index false seekTime captionProps h)
  = evElement media ::
      (if bool_decide (el_timelineType el = Some "scene")
          && match (runElementCall media canvas).1 with
             | Returned _ => true
             | Thrown _ => false
             end
       then [evElement (addBackgroundColor el index (canvasMetadataRef h))]
       else []).
Proof.
  intros Hcanvas [[Htype ->] | [Htype ->]];
    unfold addElementToCanvas, projectByType, sceneBackground, callElementHelper;
    hook_simpl; rewrite Hcanvas, Htype; decide_literals; hook_simpl;
    rewrite ?Hcanvas; hook_simpl.
  all: match goal with
       | |- context [runElementCall ?c ?cv] =>
           destruct (runElementCall c cv) as [[[]|e] canvas1]
       end; hook_simpl; cbn [fst andb].
  all: try reflexivity.
  all: case_bool_decide; hook_simpl; cbn [andb]; try reflexivity.
  all: destruct_helpers; reflexivity.
Qed.

(** X9: without a canvas, or with a canvas that has no context,
    [setCanvasElements] warns and does nothing else: nothing is cleared,
    the caption props are not recorded, no element is projected; and
    [addElementToCanvas] without a canvas warns and registers nothing. *)
Theorem projection_without_surface_is_noop (h : Hook)
    (elements : list (option CanvasElement)) (seekTime : option Q)
    (captionProps : option CaptionProps) (cleanAndAdd : option bool) :
  from_option getCanvasContext false (twickCanvas h) = false ->
  setCanvasElements elements seekTime captionProps cleanAndAdd h
    = (Returned tt, h, [evConsole WARN "Canvas not properly initialized"])
  /\ (twickCanvas h = None ->
      forall (el : CanvasElement) (index : nat) (reorder : bool),
        addElementToCanvas el index reorder seekTime captionProps h
        = (Returned tt, h, [evConsole WARN "Canvas not initialized"])).
Proof.
  intros Hnot. split.
  - unfold setCanvasElements. rewrite get_bind.
    destruct (twickCanvas h) as [canvas|]; cbn [from_option] in Hnot;
      [rewrite Hnot |]; reflexivity.
  - intros Hnone el index reorder.
    unfold addElementToCanvas. rewrite get_bind, Hnone. reflexivity.
Qed.

(** X10: a rebuild on a ready canvas, with or without [cleanAndAdd], removes
    no entry from the element registry or from the frame-effect registry;
    the keys it adds are identifiers of elements of the list; it records
    the caption props it was given and leaves the metadata and the sizes
    alone. *)
Theorem rebuild_never_forgets (h : Hook) (canvas : FabricCanvas)
    (elements : list (option CanvasElement)) (seekTime : option Q)
    (captionProps : option CaptionProps) (cleanAndAdd : option bool) :
  twickCanvas h = Some canvas ->
  getCanvasContext canvas = true ->
  let h' := hookOf (setCanvasElements elements seekTime captionProps cleanAndAdd h) in
  dom (elementMap h) ⊆ dom (elementMap h')
  /\ dom (elementMap h') ⊆ dom (elementMap h) ∪ entryIds elements
  /\ dom (elementFrameMap h) ⊆ dom (elementFrameMap h')
  /\ dom (elementFrameMap h') ⊆ dom (elementFrameMap h) ∪ entryIds elements
  /\ captionPropsRef h' = captionProps
  /\ canvasMetadataRef h' = canvasMetadataRef h
  /\ videoSizeRef h' = videoSizeRef h
  /\ canvasResolutionRef h' = canvasResolutionRef h.
Proof.
  intros Hcanvas Hcontext h'. subst h'.
  destruct (setCanvasElements_run h canvas elements seekTime captionProps
              cleanAndAdd Hcanvas Hcontext)
    as (h1 & l0 & Hrun & Hcanvas1 & Hmap1 & Hframes1 & Hmeta1 & Hvideo1 & Hres1 & _).
  cbn zeta in Hrun. rewrite Hrun. clear Hrun.
  destruct (projectAll_run (default 0%Q seekTime) captionProps elements
              (setCaptionProps captionProps h1)
              (cleanedCanvas cleanAndAdd canvas) Hcanvas1)
    as (_ & Hall & _).
  destruct Hall as (_ & Ha & Hb & Hc & Hd & Hmeta & Hvideo & Hresolution & Hcap).
  unfold hookOf in *.
  cbn [fst snd elementMap elementFrameMap canvasMetadataRef videoSizeRef
       canvasResolutionRef captionPropsRef setCaptionProps setTwickCanvas] in *.
  rewrite Hmap1 in Ha, Hb. rewrite Hframes1 in Hc, Hd.
  rewrite Hmeta, Hvideo, Hresolution, Hcap, Hmeta1, Hvideo1, Hres1.
  repeat split; assumption.
Qed.

End RebuildEdges.

(** ** Numbers: rounding and the playback offset *)

Section Numbers.

Local Open Scope Q_scope.

(** The integer [n] with [n <= x < n + 1] is the floor of [x]. *)
Lemma Qfloor_unique (x : Q) (n : Z) :
  inject_Z n <= x -> x < inject_Z n + 1 -> Qfloor x = n.
Proof.
  intros Hle Hlt.
  pose proof (Qfloor_le x) as Hfloor.
  pose proof (Qlt_floor x) as Hnext. rewrite inject_Z_plus in Hnext.
  change (inject_Z 1) with 1 in Hnext.
  assert (inject_Z (Qfloor x) < inject_Z (n + 1)) as H1
    by (rewrite inject_Z_plus; change (inject_Z 1) with 1; lra).
  assert (inject_Z n < inject_Z (Qfloor x + 1)) as H2
    by (rewrite inject_Z_plus; change (inject_Z 1) with 1; lra).
  rewrite <- Zlt_Qlt in H1, H2. lia.
Qed.

(** A number with two decimals is rounded to itself. *)
Lemma toFixed2_of_hundredths (q : Q) (n : Z) : q == n # 100 -> JS.toFixed2 q == q.
Proof.
  intros Hq. rewrite hundredth_as_product in Hq.
  unfold JS.toFixed2, JS.nearestHundredth.
  destruct (Qle_bool 0 q).
  - assert (Qfloor (q * 100 + (1 # 2)) = n) as ->.
    { apply Qfloor_unique; set (z := inject_Z n) in *; lra. }
    rewrite hundredth_as_product. lra.
  - assert (Qfloor (- q * 100 + (1 # 2)) = (- n)%Z) as ->.
    { apply Qfloor_unique; rewrite inject_Z_opp;
        set (z := inject_Z n) in *; lra. }
    rewrite hundredth_as_product, inject_Z_opp. lra.
Qed.

(** X15: rounding to two decimals is idempotent: the decimal that
    [toFixed(2)] prints for a number is printed as itself. *)
Theorem toFixed2_idempotent (q : Q) : JS.toFixed2 (JS.toFixed2 q) == JS.toFixed2 q.
Proof.
  destruct (toFixed2_hundredths q) as [n Hn].
  apply (toFixed2_of_hundredths _ n). exact Hn.
Qed.

(** X14: with a playback rate that is not negative, the playback offset of
    a video does not go back when the playback time goes on; at the start of
    the element it is [props.time] (0 when absent); and an absent seek time
    counts as 0. *)
Theorem snapTime_grows_with_time (element : CanvasElement) (t t' : Q) :
  0 <= rateOr1 element ->
  t <= t' ->
  snapTimeOf element (Some t) <= snapTimeOf element (Some t')
  /\ snapTimeOf element (Some (default 0 (el_s element)))
     == default 0 (props_time (el_props element))
  /\ snapTimeOf element None == snapTimeOf element (Some 0).
Proof.
  intros Hrate Ht. split; [| split].
  - rewrite !snapTimeOf_formula. apply Qplus_le_l.
    apply Qmult_le_compat_r; [| exact Hrate].
    apply Qplus_le_l. exact Ht.
  - rewrite snapTimeOf_formula. ring.
  - reflexivity.
Qed.

End Numbers.

(** ** The metadata and the surface under [buildCanvas] *)

Section BuildExtras.

Context `{CanvasUtil}.

Local Open Scope Q_scope.

(** X11: a build that is not forced is idempotent: repeated with the same
    arguments it is skipped, with nothing logged and every ref as the first
    build left it. *)
Theorem repeated_build_is_skipped (p : CanvasProps) (h : Hook) :
  default false (forceBuild p) = false ->
  buildCanvas p (hookOf (buildCanvas p h))
    = (Returned tt, hookOf (buildCanvas p h), []).
Proof.
  intros Hforce. destruct (buildSkipped p h) eqn:Hskip.
  - rewrite (buildCanvas_skipped p h Hskip). unfold hookOf. cbn [fst snd].
    apply buildCanvas_skipped. exact Hskip.
  - destruct (buildCanvas_metadata p h Hskip) as (_ & _ & Hres).
    apply buildCanvas_skipped. unfold buildSkipped.
    rewrite Hres, Hforce. unfold JS.strictEq. rewrite !Qeq_bool_refl.
    destruct (canvasRef p); reflexivity.
Qed.

(** X12: a build never touches the two registries or the caption props; when
    it is not skipped, the canvas of the hook is the fresh one of
    [createCanvas] (with the frame guide sent to the back when it is asked
    for), the disposal of the old canvas is logged exactly when there was
    one, and the canvas is announced ready. *)
Theorem build_replaces_surface_keeps_registry (p : CanvasProps) (h : Hook) :
  let run := buildCanvas p h in
  resultOf run = Returned tt
  /\ elementMap (hookOf run) = elementMap h
  /\ elementFrameMap (hookOf run) = elementFrameMap h
  /\ captionPropsRef (hookOf run) = captionPropsRef h
  /\ (buildSkipped p h = false ->
      let created := createCanvas (videoSize p) (canvasSize p)
                       (default "#000000" (backgroundColorProp p)) in
      let guide := frameRect (canvasSize p) (videoSize p)
                     (canvasMetadataRef (hookOf run)) in
      twickCanvas (hookOf run)
        = Some (if default false (showFrameGuide p)
                then sendToBack guide (canvasAdd guide created.1)
                else created.1)
      /\ logOf run
         = (if bool_decide (is_Some (twickCanvas h))
            then [evConsole LOG "Destroying twickCanvas"] else [])
           ++ [evCanvasReady]).
Proof.
  intros run. subst run. unfold buildSkipped, buildCanvas.
  destruct (canvasRef p); cbn [negb orb];
    [| unfold resultOf, hookOf; cbn; repeat split; auto; discriminate].
  rewrite get_bind.
  match goal with
  | |- context [if ?b then mret tt else _] => destruct b
  end; [unfold resultOf, hookOf; cbn; repeat split; auto; discriminate |].
  destruct (createCanvas (videoSize p) (canvasSize p)
              (default "#000000" (backgroundColorProp p))) as [canvas m].
  unfold resultOf, hookOf, logOf. hook_simpl.
  destruct (bool_decide (is_Some (twickCanvas h)));
    destruct (default false (showFrameGuide p)); hook_simpl;
    repeat split; auto.
Qed.

(** X13: [onVideoSizeChange] records the new video size and sets the two
    scale factors to the width and the height of the metadata over those of
    the new size; the width, the height and the aspect ratio of the metadata,
    the canvas, its recorded size, the registries and the caption props
    stay; nothing is logged; a later change supersedes an earlier one, and a
    call without a size changes nothing. *)
Theorem video_size_change_supersedes (v0 v : Dimensions) (h : Hook) :
  let m := canvasMetadataRef h in
  let run := onVideoSizeChange (Some v) h in
  let h' := hookOf run in
  let m' := canvasMetadataRef h' in
  resultOf run = Returned tt /\ logOf run = []
  /\ cm_scaleX m' = cm_width m / dim_width v
  /\ cm_scaleY m' = cm_height m / dim_height v
  /\ cm_width m' = cm_width m /\ cm_height m' = cm_height m
  /\ cm_aspectRatio m' = cm_aspectRatio m
  /\ videoSizeRef h' = v
  /\ canvasResolutionRef h' = canvasResolutionRef h
  /\ twickCanvas h' = twickCanvas h
  /\ elementMap h' = elementMap h
  /\ elementFrameMap h' = elementFrameMap h
  /\ captionPropsRef h' = captionPropsRef h
  /\ hookOf (onVideoSizeChange (Some v) (hookOf (onVideoSizeChange (Some v0) h))) = h'
  /\ onVideoSizeChange None h = (Returned tt, h, []).
Proof.
  intros m run h' m'. subst m run h' m'.
  rewrite !onVideoSizeChange_metadata. unfold hookOf, resultOf, logOf.
  cbn [fst snd canvasMetadataRef setCanvasMetadata setVideoSize videoSizeRef
       cm_scaleX cm_scaleY cm_width cm_height cm_aspectRatio].
  repeat split; reflexivity.
Qed.

End BuildExtras.

(** * Properties of the components around the hook *)

(** ** Comparisons and rounding *)

Section Arithmetic.

Local Open Scope Q_scope.

Lemma Qle_bool_false (x y : Q) : Qle_bool x y = false -> y < x.
Proof.
  intros Hb. destruct (Qlt_le_dec y x) as [Hlt | Hle]; [exact Hlt |].
  apply Qle_bool_iff in Hle. congruence.
Qed.

Lemma gt_true (x y : Q) : JSMath.gt x y = true <-> y < x.
Proof.
  unfold JSMath.gt. destruct (Qle_bool x y) eqn:Hb; cbn [negb].
  - apply Qle_bool_iff in Hb. split; [discriminate | lra].
  - apply Qle_bool_false in Hb. tauto.
Qed.

Lemma lt_true (x y : Q) : JSMath.lt x y = true <-> x < y.
Proof.
  unfold JSMath.lt. destruct (Qle_bool y x) eqn:Hb; cbn [negb].
  - apply Qle_bool_iff in Hb. split; [discriminate | lra].
  - apply Qle_bool_false in Hb. tauto.
Qed.

Lemma min_cases (a b : Q) :
  (a <= b /\ JSMath.min a b = a) \/ (b < a /\ JSMath.min a b = b).
Proof.
  unfold JSMath.min. destruct (Qle_bool a b) eqn:Hb.
  - apply Qle_bool_iff in Hb. auto.
  - apply Qle_bool_false in Hb. auto.
Qed.

Lemma max_cases (a b : Q) :
  (a <= b /\ JSMath.max a b = b) \/ (b < a /\ JSMath.max a b = a).
Proof.
  unfold JSMath.max. destruct (Qle_bool a b) eqn:Hb.
  - apply Qle_bool_iff in Hb. auto.
  - apply Qle_bool_false in Hb. auto.
Qed.

(** A number that is at most the integer [n] is rounded to at most [n]. *)
Lemma round_le (x : Q) (n : Z) : x <= inject_Z n -> (JSMath.round x <= n)%Z.
Proof.
  intros Hx. unfold JSMath.round.
  pose proof (Qfloor_le (x + (1 # 2))) as Hfloor.
  assert (inject_Z (Qfloor (x + (1 # 2))) < inject_Z (n + 1)) as Hlt
    by (rewrite inject_Z_plus; change (inject_Z 1) with 1; lra).
  rewrite <- Zlt_Qlt in Hlt. lia.
Qed.

End Arithmetic.

(** ** [LivePlayer] *)

Section LivePlayerFacts.

Local Open Scope Q_scope.

Lemma orElse_positive (a : option Q) (d : Q) :
  (forall q, a = Some q -> 0 <= q) -> 0 < d -> 0 < JS.orElse a d.
Proof.
  intros Ha Hd. destruct a as [q|]; cbn; [| exact Hd].
  destruct (Qeq_bool q 0) eqn:Hq; [exact Hd |].
  apply Qeq_bool_neq in Hq. specialize (Ha q eq_refl).
  apply Qlt_leneq. split; [exact Ha |]. intros Heq. apply Hq. symmetry. exact Heq.
Qed.

(** X17: the intrinsic size of the player is never zero: with no negative
    side among the given sizes it is positive, since a missing or zero side
    falls through to the base project and then to 720 x 1280; a non-zero
    side of [videoSize] takes precedence. *)
Theorem intrinsic_size_is_positive (videoSize : option Dimensions)
    (baseWidth baseHeight : option Q) :
  (forall v, videoSize = Some v -> 0 <= dim_width v /\ 0 <= dim_height v) ->
  (forall q, baseWidth = Some q -> 0 <= q) ->
  (forall q, baseHeight = Some q -> 0 <= q) ->
  0 < LivePlayer.intrinsicWidth videoSize baseWidth
  /\ 0 < LivePlayer.intrinsicHeight videoSize baseHeight
  /\ (forall v, videoSize = Some v -> ~ dim_width v == 0 ->
      LivePlayer.intrinsicWidth videoSize baseWidth = dim_width v)
  /\ (forall v, videoSize = Some v -> ~ dim_height v == 0 ->
      LivePlayer.intrinsicHeight videoSize baseHeight = dim_height v).
Proof.
  intros Hv Hw Hh. unfold LivePlayer.intrinsicWidth, LivePlayer.intrinsicHeight.
  repeat split.
  - apply orElse_positive; [| apply orElse_positive; [exact Hw | reflexivity]].
    intros q Hq. destruct videoSize as [v|]; [| discriminate].
    injection Hq as <-. apply (Hv v eq_refl).
  - apply orElse_positive; [| apply orElse_positive; [exact Hh | reflexivity]].
    intros q Hq. destruct videoSize as [v|]; [| discriminate].
    injection Hq as <-. apply (Hv v eq_refl).
  - intros v -> Hnz. cbn. destruct (Qeq_bool (dim_width v) 0) eqn:Hq; [| reflexivity].
    apply Qeq_bool_iff in Hq. contradiction.
  - intros v -> Hnz. cbn. destruct (Qeq_bool (dim_height v) 0) eqn:Hq; [| reflexivity].
    apply Qeq_bool_iff in Hq. contradiction.
Qed.

(** X16: in a container measured with positive sides, the rendered width
    and height of the player, which are rounded, exceed no integer bound of
    the container; without a container, or in one with a side that is not
    positive, the player is not scaled. *)
Theorem player_fits_container (c : Dimensions) (iw ih : Q) :
  0 < dim_width c -> 0 < dim_height c -> 0 < iw -> 0 < ih ->
  (forall n : Z, dim_width c <= inject_Z n ->
   (LivePlayer.renderWidth (Some c) iw ih <= n)%Z)
  /\ (forall n : Z, dim_height c <= inject_Z n ->
      (LivePlayer.renderHeight (Some c) iw ih <= n)%Z)
  /\ LivePlayer.scale None iw ih = 1
  /\ (forall c' : Dimensions,
        dim_width c' <= 0 \/ dim_height c' <= 0 ->
        LivePlayer.scale (Some c') iw ih = 1).
Proof.
  intros Hcw Hch Hiw Hih.
  set (s := LivePlayer.scale (Some c) iw ih).
  assert (s = JSMath.min (dim_width c / iw) (dim_height c / ih)) as Hs.
  { subst s. unfold LivePlayer.scale.
    rewrite (proj2 (gt_true _ _) Hcw), (proj2 (gt_true _ _) Hch). reflexivity. }
  set (a := dim_width c / iw) in *. set (b := dim_height c / ih) in *.
  assert (iw * a == dim_width c) as Ha by (subst a; field; lra).
  assert (ih * b == dim_height c) as Hb by (subst b; field; lra).
  assert (iw * s <= dim_width c /\ ih * s <= dim_height c) as (Hw & Hh).
  { rewrite Hs. destruct (min_cases a b) as [[Hab ->] | [Hba ->]].
    - split; [lra |]. rewrite <- Hb. apply Qmult_le_l; assumption.
    - split; [| lra]. rewrite <- Ha. apply Qmult_le_l; [assumption | lra]. }
  split; [| split; [| split]].
  - intros n Hn. unfold LivePlayer.renderWidth. apply round_le. fold s. lra.
  - intros n Hn. unfold LivePlayer.renderHeight. apply round_le. fold s. lra.
  - reflexivity.
  - intros c' Hside. unfold LivePlayer.scale, JSMath.gt.
    destruct Hside as [Hside | Hside]; apply Qle_bool_iff in Hside;
      rewrite Hside; cbn [negb andb]; [reflexivity |].
    destruct (negb (Qle_bool (dim_width c') 0)); reflexivity.
Qed.

(** Once the first render is done, a ready notification emits nothing. *)
Lemma ready_after_first_render (p : LivePlayer.Props)
    (ready : list (LivePlayer.CorePlayer * bool)) :
  forall r : LivePlayer.Refs,
    LivePlayer.ref_isFirstRender r = true ->
    (LivePlayer.readyAll p ready r).2 = []
    /\ LivePlayer.ref_isFirstRender (LivePlayer.readyAll p ready r).1 = true
    /\ LivePlayer.ref_id (LivePlayer.readyAll p ready r).1 = LivePlayer.ref_id r.
Proof.
  induction ready as [|[player found] rest IH]; intros r Hr.
  - cbn. auto.
  - cbn [LivePlayer.readyAll]. unfold LivePlayer.handlePlayerReady.
    cbn [LivePlayer.ref_isFirstRender]. rewrite Hr. cbn [negb].
    match goal with
    | |- context [LivePlayer.readyAll p rest ?r1] =>
        destruct (IH r1) as (Hlog & Hfirst & Hid); [reflexivity |];
        destruct (LivePlayer.readyAll p rest r1) as [r2 l2]
    end.
    cbn [fst snd LivePlayer.ref_id] in *. subst l2. auto.
Qed.

(** X18: however often the player reports that it is ready, the first render
    is set up once and [onPlayerReady] is called once, with the first
    player: the effects of all the notifications are those of the first
    one; the later ones only refresh the player and the element of the
    ref. *)
Theorem player_ready_fires_once (p : LivePlayer.Props) (id : string)
    (player : LivePlayer.CorePlayer) (found : bool)
    (rest : list (LivePlayer.CorePlayer * bool)) :
  let all := LivePlayer.readyAll p ((player, found) :: rest) (LivePlayer.mounted id) in
  all.2 = (LivePlayer.handlePlayerReady p player found (LivePlayer.mounted id)).2
  /\ all.2 = (if found
              then LivePlayer.hideControls ::
                   match LivePlayer.projectData p with
                   | Some data =>
                       [LivePlayer.consoleLog "setProjectData in live player";
                        LivePlayer.setVariables data id]
                   | None => []
                   end
              else [])
             ++ (if LivePlayer.onPlayerReady p
                 then [LivePlayer.playerReady player] else [])
  /\ LivePlayer.ref_isFirstRender all.1 = true
  /\ LivePlayer.ref_id all.1 = id.
Proof.
  intros all. subst all. cbn [LivePlayer.readyAll].
  unfold LivePlayer.handlePlayerReady, LivePlayer.mounted.
  cbn [LivePlayer.ref_isFirstRender LivePlayer.ref_id LivePlayer.ref_player
       LivePlayer.ref_htmlElement negb].
  match goal with
  | |- context [LivePlayer.readyAll p rest ?r1] =>
      destruct (ready_after_first_render p rest r1) as (Hlog & Hfirst & Hid);
        [reflexivity |];
      destruct (LivePlayer.readyAll p rest r1) as [r2 l2]
  end.
  cbn [fst snd] in *. subst l2. rewrite app_nil_r.
  repeat split; auto.
  unfold LivePlayer.onFirstRender, LivePlayer.setProjectData.
  cbn [LivePlayer.ref_player LivePlayer.ref_htmlElement LivePlayer.ref_id].
  destruct found, (LivePlayer.projectData p); reflexivity.
Qed.

End LivePlayerFacts.

(** ** [ControlManager] *)

Section ControlManagerFacts.

Local Open Scope Q_scope.

(** X19: [computeFitZoom] gives no zoom exactly when the duration is not
    finite or not positive, or when the scroll container (0 when missing) is
    not wider than the track header; otherwise the zoom is at most
    [zoomConfig.max], at least [zoomConfig.min] when the two bounds are
    ordered, and, when it lies between them unclamped, it is the width that
    is left divided by the length of the whole duration at 100 px per
    second. *)
Theorem fit_zoom_is_clamped (zoomConfig : TimelineZoomConfig)
    (totalDuration scrollWidth headerWidth : option Q) :
  let width := default 0 scrollWidth - default 0 headerWidth in
  match ControlManager.computeFitZoom zoomConfig totalDuration scrollWidth headerWidth with
  | None =>
      totalDuration = None
      \/ (exists d, totalDuration = Some d /\ d <= 0)
      \/ width <= 0
  | Some z =>
      exists d, totalDuration = Some d /\ 0 < d /\ 0 < width
      /\ z <= zoom_max zoomConfig
      /\ (zoom_min zoomConfig <= zoom_max zoomConfig -> zoom_min zoomConfig <= z)
      /\ (zoom_min zoomConfig < z -> z < zoom_max zoomConfig ->
          z = width / (100 * d))
  end.
Proof.
  intros width. unfold ControlManager.computeFitZoom.
  destruct totalDuration as [d|]; [| auto].
  destruct (Qle_bool d 0) eqn:Hd.
  { apply Qle_bool_iff in Hd. eauto. }
  apply Qle_bool_false in Hd. fold width.
  destruct (max_cases 0 width) as [[Hwidth Hmax] | [Hwidth Hmax]]; rewrite Hmax.
  2:{ cbn. right. right. lra. }
  destruct (Qle_bool width 0) eqn:Hw.
  { apply Qle_bool_iff in Hw. auto. }
  apply Qle_bool_false in Hw.
  exists d. split; [reflexivity |]. split; [exact Hd |]. split; [exact Hw |].
  set (raw := width / (100 * d)).
  destruct (max_cases (zoom_min zoomConfig) raw) as [[Hlow ->] | [Hlow ->]];
    match goal with
    | |- context [JSMath.min ?a ?b] =>
        destruct (min_cases a b) as [[Hhigh ->] | [Hhigh ->]]
    end;
    repeat split; intros; try lra; try reflexivity; exfalso; lra.
Qed.

(** X20: from manual zoom, toggling the fit on makes the fitted zoom (when
    there is one) both the fit zoom and the zoom of the track, so that the
    zoom shown is that of the track; toggling it off again clears the fit
    zoom and leaves the zoom of the track at the fitted value: the manual
    zoom from before is not restored. *)
Theorem fit_toggle_keeps_fitted_zoom (fit later : option Q) (s : ControlManager.State) :
  ControlManager.fitMode s = false ->
  ControlManager.fitZoom s = None ->
  let on := ControlManager.handleToggleFit fit s in
  let off := ControlManager.handleToggleFit later on in
  ControlManager.fitMode on = true
  /\ ControlManager.trackZoom on = default (ControlManager.trackZoom s) fit
  /\ ControlManager.actualZoom on = ControlManager.trackZoom on
  /\ ControlManager.fitMode off = false
  /\ ControlManager.fitZoom off = None
  /\ ControlManager.trackZoom off = ControlManager.trackZoom on.
Proof.
  intros Hmode Hzoom on off. subst on off.
  unfold ControlManager.handleToggleFit, ControlManager.actualZoom.
  rewrite Hmode. cbn [negb].
  destruct fit as [z|]; cbn; rewrite ?Hzoom; repeat split.
Qed.

End ControlManagerFacts.

(** ** [PlayerControls] *)

Section PlayerControlsFacts.

Local Open Scope Q_scope.

Lemma string_length_app (a b : string) :
  String.length (a +:+ b) = (String.length a + String.length b)%nat.
Proof. induction a as [|c a IH]; simpl; [reflexivity | f_equal; exact IH]. Qed.

(** An integer from 0 to 99 is shown with two digits. *)
Lemma two_digits (n : Z) :
  (0 <= n < 100)%Z ->
  String.length (JSMath.padStart 2 (JSMath.toString n)) = 2%nat.
Proof.
  intros Hn. rewrite <- (Z2Nat.id n) by lia.
  assert (Z.to_nat n < 100)%nat as Hlt by lia.
  generalize dependent (Z.to_nat n). clear n Hn. intros k Hk.
  do 100 (destruct k as [|k]; [vm_compute; reflexivity |]). lia.
Qed.

(** X21: for a time that is not negative, [formatTime] shows the whole
    minutes and the remaining whole seconds of the time: the seconds are
    below 60, 60 times the minutes plus the seconds is the floor of the
    time (the minutes are not reduced to hours), and below 100 minutes the
    text has exactly the five characters of [MM:SS]. *)
Theorem formatTime_minutes_seconds (time : Q) :
  0 <= time ->
  exists minutes seconds : Z,
    PlayerControls.formatTime time
      = JSMath.padStart 2 (JSMath.toString minutes) +:+ ":"
          +:+ JSMath.padStart 2 (JSMath.toString seconds)
    /\ (0 <= minutes)%Z
    /\ (0 <= seconds < 60)%Z
    /\ (60 * minutes + seconds = Qfloor time)%Z
    /\ (time < 6000 -> String.length (PlayerControls.formatTime time) = 5%nat).
Proof.
  intros Htime.
  set (m := Qfloor (time / 60)).
  assert (time / 60 == time * (1 # 60)) as Hdiv by (field; discriminate).
  pose proof (Qfloor_le (time / 60)) as Hm1.
  pose proof (Qlt_floor (time / 60)) as Hm2.
  rewrite inject_Z_plus in Hm2. change (inject_Z 1) with 1 in Hm2.
  fold m in Hm1, Hm2. rewrite Hdiv in Hm1, Hm2.
  assert (Qle_bool 0 (time / 60) = true) as Hpos
    by (apply Qle_bool_iff; rewrite Hdiv; lra).
  assert (JSMath.rem time 60 = time - 60 * inject_Z m) as Hrem.
  { unfold JSMath.rem, JSMath.trunc. rewrite Hpos. reflexivity. }
  assert (Qfloor (time - 60 * inject_Z m) = (Qfloor time - 60 * m)%Z) as Hs.
  { apply Qfloor_unique.
    - pose proof (Qfloor_le time) as Hf.
      unfold Zminus. rewrite inject_Z_plus, inject_Z_opp, inject_Z_mult.
      change (inject_Z 60) with 60. lra.
    - pose proof (Qlt_floor time) as Hf.
      rewrite inject_Z_plus in Hf. change (inject_Z 1) with 1 in Hf.
      unfold Zminus. rewrite inject_Z_plus, inject_Z_opp, inject_Z_mult.
      change (inject_Z 60) with 60. lra. }
  assert (0 <= m)%Z as Hm0.
  { assert (inject_Z (-1) < inject_Z m) as Hlt
      by (change (inject_Z (-1)) with (-1); set (z := inject_Z m) in *; lra).
    rewrite <- Zlt_Qlt in Hlt. lia. }
  assert (60 * m <= Qfloor time < 60 * m + 60)%Z as Hbound.
  { split.
    - rewrite <- (Qfloor_Z (60 * m)). apply Qfloor_resp_le.
      rewrite inject_Z_mult. change (inject_Z 60) with 60.
      set (z := inject_Z m) in *. lra.
    - pose proof (Qfloor_le time) as Hf.
      assert (inject_Z (Qfloor time) < inject_Z (60 * m + 60)) as Hlt.
      { rewrite inject_Z_plus, inject_Z_mult. change (inject_Z 60) with 60.
        set (z := inject_Z m) in *. lra. }
      rewrite <- Zlt_Qlt in Hlt. exact Hlt. }
  assert (PlayerControls.formatTime time
          = JSMath.padStart 2 (JSMath.toString m) +:+ ":"
              +:+ JSMath.padStart 2 (JSMath.toString (Qfloor time - 60 * m)%Z))
    as Hformat.
  { unfold PlayerControls.formatTime, JSMath.floor. rewrite Hrem, Hs. reflexivity. }
  exists m, (Qfloor time - 60 * m)%Z.
  split; [exact Hformat |]. split; [exact Hm0 |]. split; [lia |]. split; [lia |].
  intros Hshort. rewrite Hformat, !string_length_app.
  assert (m < 100)%Z as Hm100.
  { assert (inject_Z m < inject_Z 100) as Hlt
      by (change (inject_Z 100) with 100; set (z := inject_Z m) in *; lra).
    rewrite <- Zlt_Qlt in Hlt. exact Hlt. }
  rewrite !two_digits by lia. reflexivity.
Qed.

(** X22: with a step that is not negative, any sequence of clicks on the two
    zoom buttons keeps a zoom level that started between the two bounds
    within one step of them: the handlers test the bound before they add or
    subtract the step and do not clamp the result. *)
Theorem zoom_stays_within_one_step (zoomConfig : TimelineZoomConfig)
    (clicks : list PlayerControls.ZoomClick) :
  0 <= zoom_step zoomConfig ->
  forall zoomLevel : Q,
    zoom_min zoomConfig - zoom_step zoomConfig <= zoomLevel ->
    zoomLevel <= zoom_max zoomConfig + zoom_step zoomConfig ->
    let z := PlayerControls.afterClicks zoomConfig zoomLevel clicks in
    zoom_min zoomConfig - zoom_step zoomConfig <= z
    /\ z <= zoom_max zoomConfig + zoom_step zoomConfig.
Proof.
  intros Hstep. unfold PlayerControls.afterClicks.
  induction clicks as [|click rest IH]; intros zoomLevel Hlow Hhigh; cbn [foldl].
  - split; assumption.
  - apply IH; unfold PlayerControls.afterClick, PlayerControls.handleZoomIn,
      PlayerControls.handleZoomOut; destruct click; cbn [andb];
      match goal with
      | |- context [JSMath.lt ?a ?b] =>
          destruct (JSMath.lt a b) eqn:Hb; [apply lt_true in Hb |]
      | |- context [JSMath.gt ?a ?b] =>
          destruct (JSMath.gt a b) eqn:Hb; [apply gt_true in Hb |]
      end; cbn [default from_option id]; lra.
Qed.

(** X26: a zoom button that is not disabled has a handler that steps the
    level, and a button that its bound disables has a handler that calls
    nothing; in fit mode both buttons are disabled whatever the level. *)
Theorem zoom_button_agrees_with_handler (zoomConfig : TimelineZoomConfig)
    (fitMode : bool) (zoomLevel : Q) :
  (PlayerControls.zoomInDisabled zoomConfig fitMode zoomLevel = false ->
   PlayerControls.handleZoomIn zoomConfig true zoomLevel
   = Some (zoomLevel + zoom_step zoomConfig))
  /\ (PlayerControls.zoomOutDisabled zoomConfig fitMode zoomLevel = false ->
      PlayerControls.handleZoomOut zoomConfig true zoomLevel
      = Some (zoomLevel - zoom_step zoomConfig))
  /\ (PlayerControls.zoomInDisabled zoomConfig false zoomLevel = true ->
      PlayerControls.handleZoomIn zoomConfig true zoomLevel = None)
  /\ (PlayerControls.zoomOutDisabled zoomConfig false zoomLevel = true ->
      PlayerControls.handleZoomOut zoomConfig true zoomLevel = None)
  /\ PlayerControls.zoomInDisabled zoomConfig true zoomLevel = true
  /\ PlayerControls.zoomOutDisabled zoomConfig true zoomLevel = true.
Proof.
  unfold PlayerControls.zoomInDisabled, PlayerControls.zoomOutDisabled,
    PlayerControls.handleZoomIn, PlayerControls.handleZoomOut,
    JSMath.lt, JSMath.gt.
  cbn [andb orb].
  destruct fitMode;
    destruct (Qle_bool (zoom_max zoomConfig) zoomLevel);
    destruct (Qle_bool zoomLevel (zoom_min zoomConfig));
    cbn [negb orb]; repeat split; intros; reflexivity || discriminate.
Qed.

End PlayerControlsFacts.

(** ** [PlayerManager] *)

Section PlayerManagerFacts.

Local Open Scope Q_scope.

(** X24: once a positive duration is known, every time that
    [handleTimeUpdate] stores is below the duration: a time at or past the
    end is replaced by 0 and the player is paused, which happens for no
    earlier time.  While the duration is 0 the time is stored as it comes. *)
Theorem time_update_stays_below_duration (duration time : Q) :
  0 < duration ->
  exists stored : Q,
    stored < duration
    /\ (time < duration ->
        PlayerManager.handleTimeUpdate duration time
          = [PlayerManager.setCurrentTime stored] /\ stored = time)
    /\ (duration <= time ->
        PlayerManager.handleTimeUpdate duration time
          = [PlayerManager.setCurrentTime stored;
             PlayerManager.setPlayerState PAUSED] /\ stored = 0)
    /\ PlayerManager.handleTimeUpdate 0 time = [PlayerManager.setCurrentTime time].
Proof.
  intros Hduration. unfold PlayerManager.handleTimeUpdate.
  assert (Qeq_bool duration 0 = false) as ->.
  { destruct (Qeq_bool duration 0) eqn:Hq; [| reflexivity].
    apply Qeq_bool_iff in Hq. lra. }
  cbn [negb andb].
  destruct (Qle_bool duration time) eqn:Hle.
  - apply Qle_bool_iff in Hle. exists 0.
    repeat split; auto; intros; lra.
  - apply Qle_bool_false in Hle. exists time.
    repeat split; auto; intros; lra.
Qed.

(** X25: in canvas mode the two layers are never shown together: the canvas
    is opaque exactly when the player is paused, which is also exactly when
    a present canvas is updated, and the live player is opaque in the two
    other states; outside canvas mode there is no canvas layer and the
    player is always opaque. *)
Theorem one_layer_is_shown (playerState : PLAYER_STATE) :
  (exists c : Q,
     PlayerManager.canvasOpacity true playerState = Some c
     /\ PlayerManager.playerOpacity true playerState + c == 1
     /\ (c == 1 <-> playerState = PAUSED)
     /\ (PlayerManager.updatesCanvas true playerState = true <-> c == 1))
  /\ PlayerManager.canvasOpacity false playerState = None
  /\ PlayerManager.playerOpacity false playerState = 1.
Proof.
  split; [| split; reflexivity].
  destruct playerState; cbn; eexists; (split; [reflexivity |]);
    repeat split; intros; try reflexivity; try discriminate; try lra.
Qed.

End PlayerManagerFacts.

(** ** The further properties at concrete inputs *)

Module ExtraInstances.

Import Sample Scenario ExtraScenario.

Local Open Scope Q_scope.

Lemma gesture_on_unregistered_object_throws_witness :
  handleMouseUp (moved ghostObject "drag") (stage None)
  = (Thrown TypeError, stage None, []).
Proof.
  apply (gesture_on_unregistered_object_throws (stage None)
           (moved ghostObject "drag") ghostObject (movedTransform "drag"));
    try reflexivity.
  repeat constructor.
Defined.

(** A scale of a caption with [applyToAll], and the same without. *)
Lemma caption_gesture_moves_only_witness :
  (exists props : CaptionProps,
     handleMouseUp (moved captionObject "scale") (stage (Some applyToAll))
     = (Returned tt, stage (Some applyToAll),
        [evOperation CAPTION_PROPS_UPDATED (dataCaption caption1 props)])
     /\ cap_x props = Some (Sample.convertToVideoPosition 480 450 metadata hd1080).(pos_x))
  /\ (exists el' : CanvasElement,
        handleMouseUp (moved captionObject "scale") (stage None)
        = updatedTo (stage None) "caption-1" el'
        /\ props_width (el_props el') = Some 600
        /\ props_height (el_props el') = Some 80).
Proof.
  split.
  - destruct (caption_gesture_moves_only (stage (Some applyToAll))
                (moved captionObject "scale") captionObject
                (movedTransform "scale") caption1)
      as (props & Hrun & _ & Hx & _); try reflexivity; [repeat constructor |].
    exists props. split; [exact Hrun | exact Hx].
  - destruct (caption_gesture_moves_only (stage None)
                (moved captionObject "scale") captionObject
                (movedTransform "scale") caption1)
      as (el' & Hrun & _ & _ & _ & Hw & Hh & _); try reflexivity;
      [repeat constructor |].
    exists el'. split; [exact Hrun |]. split; [exact Hw | exact Hh].
Defined.

Lemma text_gesture_keeps_size_witness :
  exists el' : CanvasElement,
    handleMouseUp (moved textObject "scale") (stage None)
    = updatedTo (stage None) "text-1" el'
    /\ props_width (el_props el') = Some 300
    /\ props_height (el_props el') = Some 40.
Proof.
  destruct (text_gesture_keeps_size (stage None) (moved textObject "scale")
              textObject (movedTransform "scale") text1)
    as (el' & Hrun & _ & _ & _ & Hw & Hh & _); try reflexivity;
    [repeat constructor | discriminate |].
  exists el'. split; [exact Hrun |]. split; [exact Hw | exact Hh].
Defined.

Lemma shape_gesture_scales_box_witness :
  exists el' : CanvasElement,
    handleMouseUp (moved rectObject "scaleX") (stage None)
    = updatedTo (stage None) "rect-1" el'
    /\ props_width (el_props el') = Some (200 * 2)
    /\ props_height (el_props el') = Some (100 * 3).
Proof.
  destruct (shape_gesture_scales_box (stage None) (moved rectObject "scaleX")
              rectObject (movedTransform "scaleX") goodRect 200 100)
    as (el' & Hrun & Hw & Hh & _); try reflexivity;
    [repeat constructor
    | rewrite !not_elem_of_cons, elem_of_nil; repeat split; discriminate || tauto
    | discriminate |].
  exists el'. split; [exact Hrun |]. split; [exact Hw | exact Hh].
Defined.

(** The rectangle without a width is refused and not registered; the good
    one is registered. *)
Lemma element_registered_iff_projected_witness :
  elementMap (hookOf (addElementToCanvas malformedRect 0 true (Some 0) None ready))
  = elementMap ready
  /\ elementMap (hookOf (addElementToCanvas goodRect 0 true (Some 0) None ready))
     !! "rect-1" = Some goodRect.
Proof.
  split.
  - exact (element_registered_iff_projected ready stageCanvas malformedRect 0 true
             (Some 0) None eq_refl).
  - exact (proj1 (element_registered_iff_projected ready stageCanvas goodRect 0 true
                    (Some 0) None eq_refl)).
Defined.

Lemma frame_effect_recorded_for_video_only_witness :
  elementFrameMap
    (hookOf (addElementToCanvas fastVideo 0 true (Some 3) None readyWithZoom))
    !! "video-2" = Some (getCurrentFrameEffect fastVideo (JS.orElse (Some 3) 0))
  /\ elementFrameMap
       (hookOf (addElementToCanvas goodRect 0 true (Some 3) None readyWithZoom))
     = elementFrameMap readyWithZoom.
Proof.
  split.
  - exact (proj1 (frame_effect_recorded_for_video_only readyWithZoom stageCanvas
                    fastVideo 0 true (Some 3) None eq_refl) eq_refl).
  - apply (proj2 (frame_effect_recorded_for_video_only readyWithZoom stageCanvas
                    goodRect 0 true (Some 3) None eq_refl)). discriminate.
Defined.

Lemma scene_background_follows_media_witness :
  logOf (addElementToCanvas sceneImage 4 false (Some 0) None ready)
  = [evElement (addImageElement sceneImage 4 metadata);
     evElement (addBackgroundColor sceneImage 4 metadata)].
Proof.
  exact (scene_background_follows_media ready stageCanvas sceneImage 4 (Some 0) None
           (addImageElement sceneImage 4 metadata) eq_refl
           (or_intror (conj eq_refl eq_refl))).
Defined.

Lemma projection_without_surface_is_noop_witness :
  setCanvasElements batch (Some 0) None (Some true) initialHook
  = (Returned tt, initialHook, [evConsole WARN "Canvas not properly initialized"]).
Proof.
  exact (proj1 (projection_without_surface_is_noop initialHook batch (Some 0) None
                  (Some true) eq_refl)).
Defined.

Lemma rebuild_never_forgets_witness :
  let h' := hookOf (setCanvasElements batch (Some 0) (Some applyToAll) (Some true)
                      (stage None)) in
  dom (elementMap (stage None)) ⊆ dom (elementMap h')
  /\ captionPropsRef h' = Some applyToAll.
Proof.
  destruct (rebuild_never_forgets (stage None) stageCanvas batch (Some 0)
              (Some applyToAll) (Some true))
    as (Hkeys & _ & _ & _ & Hcap & _); [reflexivity | reflexivity |].
  split; [exact Hkeys | exact Hcap].
Defined.

Lemma repeated_build_is_skipped_witness :
  buildCanvas (editorCanvas hd1080 None)
    (hookOf (buildCanvas (editorCanvas hd1080 None) initialHook))
  = (Returned tt, hookOf (buildCanvas (editorCanvas hd1080 None) initialHook), []).
Proof.
  exact (repeated_build_is_skipped (editorCanvas hd1080 None) initialHook eq_refl).
Defined.

(** The fast video does not go back from 1 s to 3 s: its offset goes from
    0.5 s to 4.5 s. *)
Lemma snapTime_grows_with_time_witness :
  snapTimeOf fastVideo (Some 1) <= snapTimeOf fastVideo (Some 3)
  /\ snapTimeOf fastVideo (Some 1) == 1 # 2.
Proof.
  destruct (snapTime_grows_with_time fastVideo 1 3) as (Hle & Hstart & _).
  - apply Qle_bool_iff. vm_compute. reflexivity.
  - apply Qle_bool_iff. vm_compute. reflexivity.
  - split; [exact Hle | exact Hstart].
Defined.

(** A 1920x1080 player in an 800x600 container is rendered at most 800 wide
    and at most 600 high. *)
Lemma player_fits_container_witness :
  (LivePlayer.renderWidth (Some {| dim_width := 800; dim_height := 600 |})
     1920 1080 <= 800)%Z
  /\ (LivePlayer.renderHeight (Some {| dim_width := 800; dim_height := 600 |})
        1920 1080 <= 600)%Z.
Proof.
  destruct (player_fits_container {| dim_width := 800; dim_height := 600 |}
              1920 1080)
    as (Hw & Hh & _); try reflexivity.
  split; [apply (Hw 800%Z) | apply (Hh 600%Z)];
    unfold Qle; cbn; lia.
Defined.

Lemma intrinsic_size_is_positive_witness :
  0 < LivePlayer.intrinsicWidth (Some {| dim_width := 0; dim_height := 1080 |}) None
  /\ 0 < LivePlayer.intrinsicHeight (Some {| dim_width := 0; dim_height := 1080 |}) None.
Proof.
  destruct (intrinsic_size_is_positive
              (Some {| dim_width := 0; dim_height := 1080 |}) None None)
    as (Hw & Hh & _).
  - intros v [= <-]. split; unfold Qle; cbn; lia.
  - intros q Hq. discriminate Hq.
  - intros q Hq. discriminate Hq.
  - split; [exact Hw | exact Hh].
Defined.

Lemma fit_toggle_keeps_fitted_zoom_witness :
  ControlManager.trackZoom
    (ControlManager.handleToggleFit None
       (ControlManager.handleToggleFit (Some (3 # 4)) manual))
  = 3 # 4.
Proof.
  destruct (fit_toggle_keeps_fitted_zoom (Some (3 # 4)) None manual eq_refl eq_refl)
    as (_ & Hon & _ & _ & _ & Hoff).
  rewrite Hoff, Hon. reflexivity.
Defined.

(** 61 minutes and 1.5 seconds are shown as [61:01]. *)
Lemma formatTime_minutes_seconds_witness :
  exists minutes seconds : Z,
    PlayerControls.formatTime (7323 # 2)
      = JSMath.padStart 2 (JSMath.toString minutes) +:+ ":"
          +:+ JSMath.padStart 2 (JSMath.toString seconds)
    /\ (60 * minutes + seconds = 3661)%Z
    /\ String.length (PlayerControls.formatTime (7323 # 2)) = 5%nat.
Proof.
  destruct (formatTime_minutes_seconds (7323 # 2))
    as (minutes & seconds & Hformat & _ & _ & Hsum & Hlength).
  - unfold Qle. cbn. lia.
  - exists minutes, seconds. split; [exact Hformat |]. split; [exact Hsum |].
    apply Hlength. reflexivity.
Defined.

Lemma zoom_stays_within_one_step_witness :
  let z := PlayerControls.afterClicks zoomConfig (29 # 10)
             [PlayerControls.ZoomIn; PlayerControls.ZoomIn; PlayerControls.ZoomOut] in
  (1 # 10) - (1 # 4) <= z /\ z <= 3 + (1 # 4).
Proof.
  apply (zoom_stays_within_one_step zoomConfig
           [PlayerControls.ZoomIn; PlayerControls.ZoomIn; PlayerControls.ZoomOut]);
    unfold Qle; cbn; lia.
Defined.

Lemma time_update_stays_below_duration_witness :
  exists stored : Q,
    stored < 120
    /\ PlayerManager.handleTimeUpdate 120 (241 # 2)
       = [PlayerManager.setCurrentTime stored; PlayerManager.setPlayerState PAUSED].
Proof.
  destruct (time_update_stays_below_duration 120 (241 # 2))
    as (stored & Hbelow & _ & Hend & _).
  - reflexivity.
  - exists stored. split; [exact Hbelow |]. apply Hend. unfold Qle. cbn. lia.
Defined.

End ExtraInstances.
